(** * fx-tracker: the data-freshness and pair-resolution layer

    A shallow embedding of [services/currencyApi.ts], [services/cacheManager.ts],
    [services/rateLimiter.ts], [services/backendApi.ts] and [types/index.ts].

    - JavaScript numbers are IEEE-754 binary64: [float] with [PrimFloat.div].
    - The IndexedDB object stores and the [Map] of [calculateCrossRate] are
      [gmap]s keyed by strings.
    - An [async] function is a finite tree of effects ([Prog]); a handler
      gives every effect its meaning on a [World], and [Promise.all] is the
      interleaving of two such trees at their [await] points. *)

From Stdlib Require Import PrimFloat SpecFloat FloatOps FloatAxioms ZArith Lia Sorted Ascii.
From Equations Require Import Equations.
From stdpp Require Import base option list gmap strings sorting pretty.

Set Default Proof Using "Type".
Local Open Scope Z_scope.

(** ** types/index.ts *)

Abbreviation number := float.

Record DailyRate := mkDailyRate {
  date : string;
  open : number;
  high : number;
  low : number;
  close : number;
}.

(** [CurrencyCode = typeof CURRENCIES[number]['code']] *)
Inductive CurrencyCode := USD | EUR | GBP | JPY | CNY | CHF | AUD | CAD | NZD.

#[global] Instance CurrencyCode_eq_dec : EqDecision CurrencyCode.
Proof. solve_decision. Defined.

(** The string a currency code is at run time. *)
Definition code (c : CurrencyCode) : string :=
  match c with
  | USD => "USD" | EUR => "EUR" | GBP => "GBP" | JPY => "JPY" | CNY => "CNY"
  | CHF => "CHF" | AUD => "AUD" | CAD => "CAD" | NZD => "NZD"
  end.

Definition BASE_CURRENCY : CurrencyCode := USD.

Definition FETCH_CURRENCIES : list CurrencyCode :=
  [EUR; GBP; JPY; CNY; CHF; AUD; CAD; NZD].

(** ** currencyApi.ts: the pure derivations *)

(** The record built in Case 1 of [getCurrencyPairData]. *)
Definition invertRate (rate : DailyRate) : DailyRate :=
  {| date := date rate;
     open := 1 / open rate;
     high := 1 / low rate;
     low := 1 / high rate;
     close := 1 / close rate |}%float.

(** The record built by the [.map] of [calculateCrossRate]. *)
Definition crossRecord (fromRate toRate : DailyRate) : DailyRate :=
  {| date := date fromRate;
     open := open fromRate / open toRate;
     high := high fromRate / low toRate;
     low := low fromRate / high toRate;
     close := close fromRate / close toRate |}%float.

(** [toToUsd.forEach((rate) => toUsdMap.set(rate.date, rate))]: a later record
    of a date replaces an earlier one. *)
Definition buildDateMap (toToUsd : list DailyRate) : gmap string DailyRate :=
  foldl (λ toUsdMap rate, <[date rate := rate]> toUsdMap) ∅ toToUsd.

(** [calculateCrossRate]. The [.filter] keeps the from-records whose date the
    map has; the [.map] then reads the map again ([toUsdMap.get(..)!]), which
    cannot miss on a record the filter kept (see [calculateCrossRate_map]). *)
Definition calculateCrossRate (fromToUsd toToUsd : list DailyRate) : list DailyRate :=
  let toUsdMap := buildDateMap toToUsd in
  omap (λ fromRate, crossRecord fromRate <$> toUsdMap !! date fromRate)
       (filter (λ fromRate, is_Some (toUsdMap !! date fromRate)) fromToUsd).

(** [filterRatesByDateRange] compares dates as strings; the order is the one
    of [String.compare] (code units, which for ISO dates is the calendar order). *)
Definition dateBefore (a b : string) : Prop := String.ltb a b = true.

(** Ascending by date with no date twice: every record is strictly before
    its successor. *)
Definition ascendingByDate (rates : list DailyRate) : Prop :=
  Sorted dateBefore (date <$> rates).

(** The statements of the specification, in its own words. *)

(** The inner join of two series on equal dates, each pair divided. *)
Definition innerJoinOnDate (fromLeg toLeg : list DailyRate) : list DailyRate :=
  fromRate ← fromLeg;
  crossRecord fromRate <$> filter (λ toRate, date toRate = date fromRate) toLeg.

(** ** The values that cross the program's boundary *)

(** rateLimiter.ts: [interface RateLimitData]. The two numbers are integers:
    [calls] counts calls and [lastCall] is [Date.now()] in milliseconds.
    JavaScript keeps them as binary64 numbers, whose arithmetic on integers
    is exact from -2^53 to 2^53; the counts this code can write stay far
    inside that range (a day's count leaves 0 by steps of 1). *)
Module RateLimitData.
Record t := mk { date : string; calls : Z; lastCall : Z }.
End RateLimitData.

(** backendApi.ts: [interface ExchangeRateRecord] *)
Module ExchangeRateRecord.
Record t := mk {
  from_currency : string;
  to_currency : string;
  date : string;
  open : number;
  high : number;
  low : number;
  close : number;
}.
End ExchangeRateRecord.

(** backendApi.ts: the element type of [saveRatesToBackend]'s argument *)
Module BackendRate.
Record t := mk {
  from : string;
  to : string;
  date : string;
  open : number;
  high : number;
  low : number;
  close : number;
}.
End BackendRate.

(** backendApi.ts: [interface RatesResponse] *)
Module RatesResponse.
Record t := mk {
  success : bool;
  data : list ExchangeRateRecord.t;
  count : Z;
}.
End RatesResponse.

(** backendApi.ts: the body [saveRatesToBackend] reads [result.success] from *)
Module SaveResult.
Record t := mk { success : bool }.
End SaveResult.

(** One entry of ['Time Series FX (Daily)'], its four numbers still strings. *)
Record TimeSeriesValues := {
  open_1 : string;   (* '1. open' *)
  high_2 : string;   (* '2. high' *)
  low_3 : string;    (* '3. low' *)
  close_4 : string;  (* '4. close' *)
}.

(** currencyApi.ts: [interface AlphaVantageResponse]; the time series is the
    list [Object.entries] gives, in the order of the payload. ['Meta Data'] is
    never read. *)
Record AlphaVantageResponse := {
  TimeSeriesFXDaily : option (list (string * TimeSeriesValues));
  Note : option string;
  ErrorMessage : option string;
}.

(** cacheManager.ts: what the [currencyData] object store holds under a key:
    [{ ...data, pair: getPairKey(from, to) }]. *)
Record StoredCurrencyData := {
  stored_pair : string;
  stored_rates : list DailyRate;
  stored_lastUpdated : Z;
}.

(** types/index.ts: [interface CurrencyData] *)
Record CurrencyData := {
  pair : CurrencyCode * CurrencyCode;
  rates : list DailyRate;
  lastUpdated : Z;
}.

(** What [fetch] resolves to: [response.ok], [response.status] and the value
    [response.json()] resolves to ([None]: it rejects). *)
Record Response (B : Type) := mkResponse {
  ok : bool;
  status : Z;
  json : option B;
}.
Arguments mkResponse {B}.
Arguments ok {B}.
Arguments status {B}.
Arguments json {B}.

(** The values the code throws. *)
Inductive Error :=
| BudgetExceeded            (* fetchFromApi: the daily limit is reached *)
| RequestFailed (st : Z)    (* fetchFromApi: [!response.ok] *)
| RateLimitNotice           (* fetchFromApi: [data.Note] *)
| ProviderMessage (msg : string) (* fetchFromApi: [data['Error Message']] *)
| BackendStatus (st : Z)    (* backendApi: [!response.ok] *)
| BackendUnsuccessful       (* backendApi: [!result.success] *)
| FetchRejected             (* the promise of [fetch] rejects *)
| JsonRejected.             (* the promise of [response.json()] rejects *)

#[global] Instance Error_eq_dec : EqDecision Error.
Proof. solve_decision. Defined.

(** ** Asynchronous programs *)

(** What a program asks of its surroundings. The effects up to [PickLeg]
    return at once; the others are awaited (one per [await] of a promise that
    is not an [async] call of this code), and other code may run before they
    answer. The callbacks [onProgress] and [onComplete] are observers: they
    are recorded and return. *)
Inductive Eff : Type → Type :=
| DateNow : Eff Z
| TodayIso : Eff string
| LocalStorageGet (key : string) : Eff (option RateLimitData.t)
| LocalStorageSet (key : string) (d : RateLimitData.t) : Eff unit
| OnProgress (current total : Z) (label : string) : Eff unit
| OnComplete (success failed totalRecords : Z) : Eff unit
| PickLeg : Eff bool
| GetDB : Eff unit
| DbGet (key : string) : Eff (option StoredCurrencyData)
| DbPut (value : StoredCurrencyData) : Eff unit
| MetaGet (key : string) : Eff (option string)
| MetaPut (key value : string) : Eff unit
| SetTimeout (ms : Z) : Eff unit
| FetchProvider (from to : CurrencyCode) : Eff (option (Response AlphaVantageResponse))
| FetchBackendRates (from to : string) (start_date end_date : option string)
    : Eff (option (Response RatesResponse.t))
| PostBackendRates (rates : list BackendRate.t) : Eff (option (Response SaveResult.t))
| ProviderJson (r : Response AlphaVantageResponse) : Eff (option AlphaVantageResponse)
| RatesJson (r : Response RatesResponse.t) : Eff (option RatesResponse.t)
| SaveJson (r : Response SaveResult.t) : Eff (option SaveResult.t).

Definition awaited {X} (e : Eff X) : bool :=
  match e with
  | DateNow | TodayIso | LocalStorageGet _ | LocalStorageSet _ _
  | OnProgress _ _ _ | OnComplete _ _ _ | PickLeg => false
  | _ => true
  end.

(** An [async] function body: it returns, throws, or asks for an effect and
    goes on with the answer. *)
Inductive Prog (A : Type) : Type :=
| Ret (a : A)
| Throw (err : Error)
| Vis {X : Type} (e : Eff X) (k : X → Prog A).
Arguments Ret {A}.
Arguments Throw {A}.
Arguments Vis {A X}.

Definition perform {X} (e : Eff X) : Prog X := Vis e Ret.

Fixpoint bind {A B} (p : Prog A) (f : A → Prog B) : Prog B :=
  match p with
  | Ret a => f a
  | Throw err => Throw err
  | Vis e k => Vis e (λ x, bind (k x) f)
  end.

#[global] Instance Prog_ret : MRet Prog := @Ret.
#[global] Instance Prog_bind : MBind Prog := λ A B f p, bind p f.

(** [try { p } catch (error) { handler error }] *)
Fixpoint tryCatch {A} (p : Prog A) (handler : Error → Prog A) : Prog A :=
  match p with
  | Ret a => Ret a
  | Throw err => handler err
  | Vis e k => Vis e (λ x, tryCatch (k x) handler)
  end.

(** [for (const item of items) { body }] over the loop's variables [s]. *)
Fixpoint forOf {A S} (items : list A) (body : A → S → Prog S) (s : S) : Prog S :=
  match items with
  | [] => Ret s
  | item :: items => s' ← body item s; forOf items body s'
  end.

(** A leg that goes on after [Promise.all] has already rejected with [err]:
    its effects still happen, its own outcome is dropped. In JavaScript the
    caller of [Promise.all] is resumed with the rejection at once and the
    leg goes on beside it; here the caller is resumed only when the leg has
    ended, so that the world of a run that throws already holds the leg's
    remaining effects. The value or error of a run does not depend on
    this. *)
Fixpoint drain {A C} (p : Prog A) (err : Error) : Prog C :=
  match p with
  | Vis e k => Vis e (λ x, drain (k x) err)
  | _ => Throw err
  end.

(** [Promise.all([p, q])] of two started [async] calls. Each leg runs without
    interruption up to its next [await] (the first leg first); whenever both
    wait, the event loop ([PickLeg]) decides whose awaited answer arrives
    first. The first rejection is the rejection of the whole. *)
Fixpoint all2 {A B} (p : Prog A) : Prog B → Prog (A * B) :=
  fix other (q : Prog B) : Prog (A * B) :=
    match p with
    | Ret a => bind q (λ b, Ret (a, b))
    | Throw err => drain q err
    | Vis e k =>
        if awaited e then
          match q with
          | Ret b => bind p (λ a, Ret (a, b))
          | Throw err => drain p err
          | Vis e' k' =>
              if awaited e' then
                Vis PickLeg (λ first : bool,
                  if first then Vis e (λ x, all2 (k x) q)
                  else Vis e' (λ y, other (k' y)))
              else Vis e' (λ y, other (k' y))
          end
        else Vis e (λ x, all2 (k x) q)
    end.

(** JavaScript truthiness of an optional string. *)
Definition truthy (s : option string) : bool :=
  match s with
  | Some s => bool_decide (s ≠ "")
  | None => false
  end.

(** ** rateLimiter.ts *)

Definition STORAGE_KEY : string := "fx-api-rate-limit".
Definition SAFE_LIMIT : Z := 24.

Definition getTodayDate : Prog string := perform TodayIso.

(** [{ date: getTodayDate(), calls: 0, lastCall: 0 }] *)
Definition freshData : Prog RateLimitData.t :=
  today ← getTodayDate;
  Ret (RateLimitData.mk today 0 0).

(** [stored] is [None] when the item is missing or [JSON.parse] throws. *)
Definition loadData : Prog RateLimitData.t :=
  stored ← perform (LocalStorageGet STORAGE_KEY);
  match stored with
  | Some data =>
      today ← getTodayDate;
      if bool_decide (RateLimitData.date data ≠ today) then freshData else Ret data
  | None => freshData
  end.

Definition saveData (data : RateLimitData.t) : Prog unit :=
  perform (LocalStorageSet STORAGE_KEY data).

Definition canMakeApiCall : Prog bool :=
  data ← loadData;
  Ret (bool_decide (RateLimitData.calls data < SAFE_LIMIT)).

Definition recordApiCall : Prog unit :=
  data ← loadData;
  now ← perform DateNow;
  saveData (RateLimitData.mk (RateLimitData.date data) (RateLimitData.calls data + 1) now).

Definition getCallsToday : Prog Z :=
  data ← loadData;
  Ret (RateLimitData.calls data).

Definition getTimeUntilNextCall (minIntervalMs : Z) : Prog Z :=
  data ← loadData;
  now ← perform DateNow;
  let elapsed := now - RateLimitData.lastCall data in
  Ret (Z.max 0 (minIntervalMs - elapsed)).

(** ** cacheManager.ts *)

Definition getPairKey (from to : CurrencyCode) : string :=
  code from +:+ "/" +:+ code to.

Definition saveCurrencyData (from to : CurrencyCode) (rates : list DailyRate) : Prog unit :=
  perform GetDB;;
  now ← perform DateNow;
  perform (DbPut {| stored_pair := getPairKey from to;
                    stored_rates := rates;
                    stored_lastUpdated := now |}).

Definition getCurrencyData (from to : CurrencyCode) : Prog (option CurrencyData) :=
  perform GetDB;;
  let key := getPairKey from to in
  data ← perform (DbGet key);
  match data with
  | Some data =>
      Ret (Some {| pair := (from, to);
                    rates := stored_rates data;
                    lastUpdated := stored_lastUpdated data |})
  | None => Ret None
  end.

(** The metadata store only ever holds ['lastBatchUpdateDate'], a string. *)
Definition saveMetadata (key value : string) : Prog unit :=
  perform GetDB;;
  perform (MetaPut key value).

Definition getMetadata (key : string) : Prog (option string) :=
  perform GetDB;;
  perform (MetaGet key).

Definition areAllBasePairsUpdatedToday : Prog bool :=
  lastUpdateDate ← getMetadata "lastBatchUpdateDate";
  today ← getTodayDate;
  Ret (bool_decide (lastUpdateDate = Some today)).

Definition markBatchUpdateComplete : Prog unit :=
  today ← getTodayDate;
  saveMetadata "lastBatchUpdateDate" today.

(** [cached && cached.rates.length > 0] *)
Definition hasRates (cached : option CurrencyData) : bool :=
  match cached with
  | Some cached => bool_decide (0 < length (rates cached))%nat
  | None => false
  end.

Definition hasCachedData (from to : CurrencyCode) : Prog bool :=
  data ← getCurrencyData from to;
  Ret (hasRates data).

(** ** backendApi.ts *)

Definition fetchRatesFromBackend (from to : string) (startDate endDate : option string)
  : Prog (list ExchangeRateRecord.t) :=
  tryCatch
    (response ← perform (FetchBackendRates from to
                           (if truthy startDate then startDate else None)
                           (if truthy endDate then endDate else None));
     match response with
     | None => Throw FetchRejected
     | Some response =>
         if negb (ok response) then Throw (BackendStatus (status response)) else
         result ← perform (RatesJson response);
         match result with
         | None => Throw JsonRejected
         | Some result =>
             if negb (RatesResponse.success result) then Throw BackendUnsuccessful
             else Ret (RatesResponse.data result)
         end
     end)
    (λ error, Ret []).

Definition saveRatesToBackend (rates : list BackendRate.t) : Prog bool :=
  tryCatch
    (response ← perform (PostBackendRates rates);
     match response with
     | None => Throw FetchRejected
     | Some response =>
         if negb (ok response) then Throw (BackendStatus (status response)) else
         result ← perform (SaveJson response);
         match result with
         | None => Throw JsonRejected
         | Some result => Ret (SaveResult.success result)
         end
     end)
    (λ error, Ret false).

(** ** The surroundings *)

(** Everything the code does not decide: the two built-ins of [parseRates],
    the clock, the two remote services and the event loop. The clock and the
    remote answers are indexed by the number of awaits answered so far, so
    they may change during a run. *)
Record Env := {
  parseFloat : string → number;
  localeCompare : string → string → Z;
  now : nat → Z;
  todayIso : nat → string;
  provider : nat → CurrencyCode → CurrencyCode → option (Response AlphaVantageResponse);
  backendRates : nat → string → string → option string → option string
                 → option (Response RatesResponse.t);
  backendSave : nat → list BackendRate.t → option (Response SaveResult.t);
  firstLegResumes : nat → bool;
}.

(** What a run leaves behind for an observer, latest first. *)
Inductive Event :=
| DbOpened
| CacheRead (key : string)
| CacheWrite (key : string)
| MetaRead (key : string)
| MetaWrite (key value : string)
| Waited (ms : Z)
| ProviderRequest (from to : CurrencyCode)
| BackendRead (from to : string)
| BackendWrite (rates : list BackendRate.t)
| BodyRead
| Progress (current total : Z) (label : string)
| Completed (success failed totalRecords : Z).

Record World := mkWorld {
  currencyData : gmap string StoredCurrencyData; (* IndexedDB store 'currencyData' *)
  metadata : gmap string string;                 (* IndexedDB store 'metadata' *)
  localStorage : gmap string RateLimitData.t;    (* the items that parse *)
  tick : nat;                                    (* awaits answered so far *)
  trace : list Event;
}.

Definition log (ev : Event) (w : World) : World :=
  mkWorld (currencyData w) (metadata w) (localStorage w) (tick w) (ev :: trace w).

Definition answered (w : World) : World :=
  mkWorld (currencyData w) (metadata w) (localStorage w) (S (tick w)) (trace w).

Definition setItem (key : string) (d : RateLimitData.t) (w : World) : World :=
  mkWorld (currencyData w) (metadata w) (<[key := d]> (localStorage w)) (tick w) (trace w).

Definition putCurrencyData (value : StoredCurrencyData) (w : World) : World :=
  mkWorld (<[stored_pair value := value]> (currencyData w)) (metadata w)
          (localStorage w) (tick w) (trace w).

Definition putMetadata (key value : string) (w : World) : World :=
  mkWorld (currencyData w) (<[key := value]> (metadata w))
          (localStorage w) (tick w) (trace w).

Inductive Outcome (A : Type) : Type :=
| Returned (a : A)
| Thrown (err : Error).
Arguments Returned {A}.
Arguments Thrown {A}.

Section Services.
Variable env : Env.

(** The meaning of one effect. The object stores and [localStorage] never fail. *)
Definition handle {X} (e : Eff X) (w : World) : X * World :=
  match e in Eff X return X * World with
  | DateNow => (now env (tick w), w)
  | TodayIso => (todayIso env (tick w), w)
  | LocalStorageGet key => (localStorage w !! key, w)
  | LocalStorageSet key d => (tt, setItem key d w)
  | OnProgress current total label => (tt, log (Progress current total label) w)
  | OnComplete s f n => (tt, log (Completed s f n) w)
  | PickLeg => (firstLegResumes env (tick w), w)
  | GetDB => (tt, answered (log DbOpened w))
  | DbGet key => (currencyData w !! key, answered (log (CacheRead key) w))
  | DbPut value =>
      (tt, answered (log (CacheWrite (stored_pair value)) (putCurrencyData value w)))
  | MetaGet key => (metadata w !! key, answered (log (MetaRead key) w))
  | MetaPut key value => (tt, answered (log (MetaWrite key value) (putMetadata key value w)))
  | SetTimeout ms => (tt, answered (log (Waited ms) w))
  | FetchProvider from to =>
      (provider env (tick w) from to, answered (log (ProviderRequest from to) w))
  | FetchBackendRates from to start_date end_date =>
      (backendRates env (tick w) from to start_date end_date,
       answered (log (BackendRead from to) w))
  | PostBackendRates rs =>
      (backendSave env (tick w) rs, answered (log (BackendWrite rs) w))
  | ProviderJson r => (json r, answered (log BodyRead w))
  | RatesJson r => (json r, answered (log BodyRead w))
  | SaveJson r => (json r, answered (log BodyRead w))
  end.

(** A program run to its end. *)
Fixpoint run {A} (p : Prog A) (w : World) : Outcome A * World :=
  match p with
  | Ret a => (Returned a, w)
  | Throw err => (Thrown err, w)
  | Vis e k => let '(x, w') := handle e w in run (k x) w'
  end.

(** ** currencyApi.ts *)

(** [Array.prototype.sort] with a comparator: stable. *)
Fixpoint insertSorted {A} (compareFn : A → A → Z) (x : A) (l : list A) : list A :=
  match l with
  | [] => [x]
  | y :: l' => if bool_decide (compareFn x y ≤ 0) then x :: l
               else y :: insertSorted compareFn x l'
  end.

Definition sortWith {A} (compareFn : A → A → Z) (l : list A) : list A :=
  foldr (insertSorted compareFn) [] l.

Definition parseRates (data : AlphaVantageResponse) : list DailyRate :=
  match TimeSeriesFXDaily data with
  | None => []
  | Some timeSeries =>
      sortWith (λ a b, localeCompare env (date a) (date b))
        ((λ '(date, values),
            {| date := date;
               open := parseFloat env (open_1 values);
               high := parseFloat env (high_2 values);
               low := parseFloat env (low_3 values);
               close := parseFloat env (close_4 values) |}) <$> timeSeries)
  end.

Definition fetchFromApi (from to : CurrencyCode) : Prog (list DailyRate) :=
  allowed ← canMakeApiCall;
  if negb allowed then Throw BudgetExceeded else
  (* Wait if needed (rate limit per minute) *)
  waitTime ← getTimeUntilNextCall 12000;
  (if bool_decide (0 < waitTime) then perform (SetTimeout waitTime) else Ret tt);;
  response ← perform (FetchProvider from to);
  match response with
  | None => Throw FetchRejected
  | Some response =>
      recordApiCall;;
      if negb (ok response) then Throw (RequestFailed (status response)) else
      data ← perform (ProviderJson response);
      match data with
      | None => Throw JsonRejected
      | Some data =>
          if truthy (Note data) then Throw RateLimitNotice else
          if truthy (ErrorMessage data)
          then Throw (ProviderMessage (default "" (ErrorMessage data)))
          else Ret (parseRates data)
      end
  end.

(** [backendRates.map(r => ({ date: r.date, open: r.open, ... }))] *)
Definition toDailyRate (r : ExchangeRateRecord.t) : DailyRate :=
  {| date := ExchangeRateRecord.date r;
     open := ExchangeRateRecord.open r;
     high := ExchangeRateRecord.high r;
     low := ExchangeRateRecord.low r;
     close := ExchangeRateRecord.close r |}.

(** [rates.map(r => ({ from, to, date: r.date, open: r.open, ... }))] *)
Definition toBackendRate (from to : CurrencyCode) (r : DailyRate) : BackendRate.t :=
  BackendRate.mk (code from) (code to) (date r) (open r) (high r) (low r) (close r).

(** Case 3 of [getCurrencyPairData] ([from = X], [to = USD]): the three
    tiers. [console] output is not modelled. *)
Definition directLookup (from to : CurrencyCode) (forceRefresh : bool)
  : Prog (list DailyRate) :=
  (* STEP 1: ALWAYS check local cache first *)
  cached ← getCurrencyData from to;
  if hasRates cached && negb forceRefresh then Ret (default [] (rates <$> cached)) else
  (* STEP 2: No local cache, try to fetch from backend database *)
  adopted ← (if negb forceRefresh then
               tryCatch
                 (backendRates ← fetchRatesFromBackend (code from) (code to) None None;
                  if bool_decide (0 < length backendRates)%nat then
                    let rates := toDailyRate <$> backendRates in
                    saveCurrencyData from to rates;;
                    Ret (Some rates)
                  else Ret None)
                 (λ error, Ret None)
             else Ret None);
  match adopted with
  | Some rates => Ret rates
  | None =>
      (* STEP 3: Only fetch from external API if forceRefresh or no data *)
      if forceRefresh || negb (hasRates cached) then
        tryCatch
          (rates ← fetchFromApi from to;
           saveCurrencyData from to rates;;
           (if bool_decide (0 < length rates)%nat then
              tryCatch
                (saveRatesToBackend (toBackendRate from to <$> rates);; Ret tt)
                (λ backendError, Ret tt)
            else Ret tt);;
           Ret rates)
          (λ error,
             (* If API fails but we have stale cache, use it *)
             if hasRates cached then Ret (default [] (rates <$> cached))
             else Throw error)
      else
        (* Fallback to empty (shouldn't reach here) *)
        Ret []
  end.

(** The recursive calls of [getCurrencyPairData] go from a pair of rank 2 or 1
    to a pair of rank 0. *)
Definition rank (from to : CurrencyCode) : nat :=
  if decide (from = BASE_CURRENCY) then 2
  else if decide (to = BASE_CURRENCY) then 0 else 1.

Equations? getCurrencyPairData (from to : CurrencyCode) (forceRefresh : bool)
  : Prog (list DailyRate) by wf (rank from to) lt :=
getCurrencyPairData from to forceRefresh with decide (from = to) := {
  | left _ => Ret [];
  | right _ with decide (from = BASE_CURRENCY ∧ to ≠ BASE_CURRENCY) := {
    | left _ =>
        (* Case 1: from=USD, to=X (need to invert X/USD rate) *)
        directRate ← getCurrencyPairData to BASE_CURRENCY forceRefresh;
        if bool_decide (length directRate = 0%nat) then Ret []
        else Ret (invertRate <$> directRate);
    | right _ with decide (from ≠ BASE_CURRENCY ∧ to ≠ BASE_CURRENCY) := {
      | left _ =>
          (* Case 2: Both are non-USD, calculate cross rate *)
          '(fromToUsd, toToUsd) ←
            all2 (getCurrencyPairData from BASE_CURRENCY forceRefresh)
                 (getCurrencyPairData to BASE_CURRENCY forceRefresh);
          if bool_decide (length fromToUsd = 0%nat) || bool_decide (length toToUsd = 0%nat)
          then Ret []
          else Ret (calculateCrossRate fromToUsd toToUsd);
      | right _ => directLookup from to forceRefresh } } }.
Proof.
  all: unfold rank; repeat case_decide; first [lia | tauto].
Qed.

(** [onProgress?.(current, total, currency)] *)
Definition reportProgress (onProgress : bool) (current total : Z) (label : string)
  : Prog unit :=
  if onProgress then perform (OnProgress current total label) else Ret tt.

(** [onProgress] tells whether the optional callback was passed. The loop
    variables are [current], [success] and [failed]; the result is
    [{ success, failed }]. *)
Definition prefetchBasePairs (onProgress : bool) (forceRefresh : bool) : Prog (Z * Z) :=
  alreadyUpdated ← (if negb forceRefresh then areAllBasePairsUpdatedToday else Ret false);
  if (alreadyUpdated : bool) then Ret (Z.of_nat (length FETCH_CURRENCIES), 0) else
  let total := Z.of_nat (length FETCH_CURRENCIES) in
  '(current, success, failed) ←
    forOf FETCH_CURRENCIES
      (λ currency '(current, success, failed),
         tryCatch
           ((* Always fetch from API during batch update *)
            rates ← fetchFromApi currency BASE_CURRENCY;
            saveCurrencyData currency BASE_CURRENCY rates;;
            let success := success + 1 in
            let current := current + 1 in
            reportProgress onProgress current total (code currency);;
            Ret (current, success, failed))
           (λ error,
              let failed := failed + 1 in
              let current := current + 1 in
              reportProgress onProgress current total (code currency);;
              Ret (current, success, failed)))
      (0, 0, 0);
  (* Mark batch update complete if all succeeded *)
  (if bool_decide (failed = 0) then markBatchUpdateComplete else Ret tt);;
  Ret (success, failed).

End Services.

(** The task [backgroundSyncFromBackend] starts and does not wait for.
    [onComplete] tells whether the optional callback was passed. The loop
    variables are [success], [failed] and [totalRecords]. *)
Definition backgroundSyncFromBackend (onComplete : bool)
    (priorityCurrency : option CurrencyCode) : Prog unit :=
  (* Reorder currencies: priority first, then others *)
  let orderedCurrencies :=
    match priorityCurrency with
    | Some priorityCurrency =>
        if bool_decide (priorityCurrency ≠ BASE_CURRENCY)
        then priorityCurrency :: filter (λ c, c ≠ priorityCurrency) FETCH_CURRENCIES
        else FETCH_CURRENCIES
    | None => FETCH_CURRENCIES
    end in
  '(success, failed, totalRecords) ←
    forOf orderedCurrencies
      (λ currency '(success, failed, totalRecords),
         tryCatch
           ((* Check if we already have cached data *)
            hasData ← hasCachedData currency BASE_CURRENCY;
            if (hasData : bool) then
              Ret (success + 1, failed, totalRecords)
            else
              (* Fetch from backend *)
              backendRates ← fetchRatesFromBackend (code currency) (code BASE_CURRENCY)
                               None None;
              if bool_decide (0 < length backendRates)%nat then
                let rates := toDailyRate <$> backendRates in
                saveCurrencyData currency BASE_CURRENCY rates;;
                let totalRecords := totalRecords + Z.of_nat (length rates) in
                Ret (success + 1, failed, totalRecords)
              else
                Ret (success, failed + 1, totalRecords))
           (λ error, Ret (success, failed + 1, totalRecords)))
      (0, 0, 0);
  if onComplete then perform (OnComplete success failed totalRecords) else Ret tt.

(** * Observations used in the statements *)

(** Every effect the program may ask for, whatever the answers, is one of
    the allowed ones. *)
Fixpoint asksOnly (allowed : ∀ X, Eff X → bool) {A} (p : Prog A) : Prop :=
  match p with
  | Vis e k => allowed _ e = true ∧ ∀ x, asksOnly allowed (k x)
  | _ => True
  end.

(** The effects that spend call budget: a request to the provider, and a
    write of the counter. *)
Definition sparesBudget (X : Type) (e : Eff X) : bool :=
  match e with
  | FetchProvider _ _ | LocalStorageSet _ _ => false
  | _ => true
  end.

Definition sparesCache (X : Type) (e : Eff X) : bool :=
  match e with
  | DbPut _ => false
  | _ => true
  end.

Definition sparesMetadata (X : Type) (e : Eff X) : bool :=
  match e with
  | MetaPut _ _ => false
  | _ => true
  end.

Definition sparesBackendReads (X : Type) (e : Eff X) : bool :=
  match e with
  | FetchBackendRates _ _ _ _ => false
  | _ => true
  end.

Definition sparesCallbacks (X : Type) (e : Eff X) : bool :=
  match e with
  | OnProgress _ _ _ | OnComplete _ _ _ => false
  | _ => true
  end.

Definition isProviderRequest (ev : Event) : bool :=
  match ev with ProviderRequest _ _ => true | _ => false end.

Definition isBackendRead (ev : Event) : bool :=
  match ev with BackendRead _ _ => true | _ => false end.

(** How many events of a kind a trace holds. *)
Fixpoint countEvents (kind : Event → bool) (evs : list Event) : nat :=
  match evs with
  | [] => 0
  | ev :: evs => (if kind ev then 1 else 0) + countEvents kind evs
  end.

(** The requests to the provider, and the reads of the backend, a world has
    seen. *)
Definition providerCount (w : World) : nat := countEvents isProviderRequest (trace w).
Definition backendReadCount (w : World) : nat := countEvents isBackendRead (trace w).

(** The progress reports of a trace, and its requests to the provider,
    latest first. *)
Fixpoint progressReports (evs : list Event) : list (Z * Z * string) :=
  match evs with
  | [] => []
  | Progress current total label :: evs => (current, total, label) :: progressReports evs
  | _ :: evs => progressReports evs
  end.

Fixpoint providerRequests (evs : list Event) : list (CurrencyCode * CurrencyCode) :=
  match evs with
  | [] => []
  | ProviderRequest from to :: evs => (from, to) :: providerRequests evs
  | _ :: evs => providerRequests evs
  end.

(** The results handed to [onComplete], latest first. *)
Fixpoint completions (evs : list Event) : list (Z * Z * Z) :=
  match evs with
  | [] => []
  | Completed success failed totalRecords :: evs =>
      (success, failed, totalRecords) :: completions evs
  | _ :: evs => completions evs
  end.

(** The reports a batch over [currencies] makes when [done] items were
    reported before: [(done + 1, total, c1)], [(done + 2, total, c2)], ... *)
Fixpoint reportsFrom (done total : Z) (currencies : list CurrencyCode)
  : list (Z * Z * string) :=
  match currencies with
  | [] => []
  | currency :: currencies =>
      (done + 1, total, code currency) :: reportsFrom (done + 1) total currencies
  end.

(** What [loadData] returns in a world. *)
Definition currentData (env : Env) (w : World) : RateLimitData.t :=
  let today := todayIso env (tick w) in
  match localStorage w !! STORAGE_KEY with
  | Some data =>
      if bool_decide (RateLimitData.date data ≠ today)
      then RateLimitData.mk today 0 0 else data
  | None => RateLimitData.mk today 0 0
  end.

(** What [getCurrencyData] returns in a world. *)
Definition cachedData (from to : CurrencyCode) (w : World) : option CurrencyData :=
  (λ data, {| pair := (from, to);
              rates := stored_rates data;
              lastUpdated := stored_lastUpdated data |})
    <$> currencyData w !! getPairKey from to.

(** The world after the two awaits of [getCurrencyData]. *)
Definition afterCacheRead (from to : CurrencyCode) (w : World) : World :=
  answered (log (CacheRead (getPairKey from to)) (answered (log DbOpened w))).

(** The world after the two awaits of [saveCurrencyData]. *)
Definition afterCacheWrite (env : Env) (from to : CurrencyCode) (rates : list DailyRate)
    (w : World) : World :=
  let w1 := answered (log DbOpened w) in
  answered (log (CacheWrite (getPairKey from to))
              (putCurrencyData {| stored_pair := getPairKey from to;
                                  stored_rates := rates;
                                  stored_lastUpdated := now env (tick w1) |} w1)).

(** * Sample inputs *)

(** The scenario of the specification: from-leg dates D1 D2 D3, to-leg dates
    D2 D3 D4. *)
Definition seriesD123 : list DailyRate :=
  [ mkDailyRate "2024-01-01" 1.5 2 1.25 1.75;
    mkDailyRate "2024-01-02" 1.75 2.5 1.5 2;
    mkDailyRate "2024-01-03" 2 3 1.75 2.5 ]%float.

Definition seriesD234 : list DailyRate :=
  [ mkDailyRate "2024-01-02" 0.5 1 0.25 0.5;
    mkDailyRate "2024-01-03" 0.5 0.75 0.5 0.625;
    mkDailyRate "2024-01-04" 0.625 1 0.5 0.75 ]%float.

(** A day on which nothing answers: the provider and the backend reject every
    request. *)
Definition offlineEnv : Env :=
  {| parseFloat := λ _, 0%float;
     localeCompare := λ a b, if String.ltb a b then -1 else if String.eqb a b then 0 else 1;
     now := λ t, 1714550400000 + Z.of_nat t;
     todayIso := λ _, "2024-05-01";
     provider := λ _ _ _, None;
     backendRates := λ _ _ _ _ _, None;
     backendSave := λ _ _, None;
     firstLegResumes := λ _, true |}.

Definition emptyWorld : World := mkWorld ∅ ∅ ∅ 0 [].

(** The counter at the ceiling, and a series cached for EUR/USD. *)
Definition exhaustedWorld : World :=
  mkWorld {[ "EUR/USD" := {| stored_pair := "EUR/USD";
                             stored_rates := seriesD123;
                             stored_lastUpdated := 1714000000000 |} ]}
          ∅
          {[ STORAGE_KEY := RateLimitData.mk "2024-05-01" 24 1714540000000 ]}
          0 [].

(** EUR/USD cached with dates D1 D2 D3, JPY/USD with dates D2 D3 D4. *)
Definition crossWorld : World :=
  mkWorld {[ "EUR/USD" := {| stored_pair := "EUR/USD";
                             stored_rates := seriesD123;
                             stored_lastUpdated := 1714000000000 |};
             "JPY/USD" := {| stored_pair := "JPY/USD";
                             stored_rates := seriesD234;
                             stored_lastUpdated := 1714000000000 |} ]}
          ∅ ∅ 0 [].

(** The counter at the ceiling, nothing cached. *)
Definition exhaustedEmptyWorld : World :=
  mkWorld ∅ ∅ {[ STORAGE_KEY := RateLimitData.mk "2024-05-01" 24 1714540000000 ]} 0 [].

(** A hundred daily rows of EUR/USD from 2024-01-01 on, as the backend holds
    them. *)
Definition twoDigits (n : nat) : string :=
  if (n <? 10)%nat then "0" +:+ pretty n else pretty n.

Fixpoint monthAndDay (lengths : list nat) (month n : nat) : nat * nat :=
  match lengths with
  | [] => (month, n)
  | len :: lengths =>
      if (n <? len)%nat then (month, n) else monthAndDay lengths (S month) (n - len)
  end.

Definition isoDay2024 (n : nat) : string :=
  let '(month, day) := monthAndDay [31; 29; 31; 30; 31; 30; 31; 31; 30; 31; 30; 31]%nat 1 n in
  "2024-" +:+ twoDigits month +:+ "-" +:+ twoDigits (S day).

Definition backendRows100 : list ExchangeRateRecord.t :=
  (λ n, ExchangeRateRecord.mk "EUR" "USD" (isoDay2024 n) 1.5 2 1.25 1.75) <$> seq 0 100.

(** The provider is unreachable; the backend answers for EUR/USD. *)
Definition backendEnv : Env :=
  {| parseFloat := λ _, 0%float;
     localeCompare := λ a b, if String.ltb a b then -1 else if String.eqb a b then 0 else 1;
     now := λ t, 1714550400000 + Z.of_nat t;
     todayIso := λ _, "2024-05-01";
     provider := λ _ _ _, None;
     backendRates := λ _ from to _ _,
       if bool_decide (from = "EUR" ∧ to = "USD")
       then Some (mkResponse true 200
                    (Some (RatesResponse.mk true backendRows100 100)))
       else None;
     backendSave := λ _ _, None;
     firstLegResumes := λ _, true |}.

(** The backend is unreachable. The provider first answers with a body that
    has no series, no note and no error message; from the fifth await on it
    answers with one day of rates. *)
Definition recoveringEnv : Env :=
  {| parseFloat := λ _, 1.5%float;
     localeCompare := λ a b, if String.ltb a b then -1 else if String.eqb a b then 0 else 1;
     now := λ t, 1714550400000 + 60000 * Z.of_nat t;
     todayIso := λ _, "2024-05-01";
     provider := λ t _ _,
       if (t <? 5)%nat
       then Some (mkResponse true 200
                    (Some {| TimeSeriesFXDaily := None; Note := None;
                             ErrorMessage := None |}))
       else Some (mkResponse true 200
                    (Some {| TimeSeriesFXDaily :=
                               Some [("2024-04-30",
                                      {| open_1 := "1.5"; high_2 := "1.5";
                                         low_3 := "1.5"; close_4 := "1.5" |})];
                             Note := None; ErrorMessage := None |}));
     backendRates := λ _ _ _ _ _, None;
     backendSave := λ _ _, None;
     firstLegResumes := λ _, true |}.

(** The provider answers every request with one day of rates, the backend
    is unreachable, and the event loop answers the awaits of two concurrent
    legs in turn. *)
Definition alternatingEnv : Env :=
  {| parseFloat := λ _, 1.5%float;
     localeCompare := λ a b, if String.ltb a b then -1 else if String.eqb a b then 0 else 1;
     now := λ t, 1714550400000 + Z.of_nat t;
     todayIso := λ _, "2024-05-01";
     provider := λ _ _ _,
       Some (mkResponse true 200
               (Some {| TimeSeriesFXDaily :=
                          Some [("2024-04-30",
                                 {| open_1 := "1.5"; high_2 := "1.5";
                                    low_3 := "1.5"; close_4 := "1.5" |})];
                        Note := None; ErrorMessage := None |}));
     backendRates := λ _ _ _ _ _, None;
     backendSave := λ _ _, None;
     firstLegResumes := Nat.even |}.

(** Two calls left before the ceiling, nothing cached. *)
Definition twoCallsLeftWorld : World :=
  mkWorld ∅ ∅ {[ STORAGE_KEY := RateLimitData.mk "2024-05-01" 22 1714540000000 ]} 0 [].

(** One call left before the ceiling, nothing cached. *)
Definition oneCallLeftWorld : World :=
  mkWorld ∅ ∅ {[ STORAGE_KEY := RateLimitData.mk "2024-05-01" 23 1714540000000 ]} 0 [].
(** * The rest of the services *)

(** ** rateLimiter.ts: the other exports *)

Definition getRemainingCalls : Prog Z :=
  data ← loadData;
  Ret (Z.max 0 (SAFE_LIMIT - RateLimitData.calls data)).

Definition getLastCallTime : Prog Z :=
  data ← loadData;
  Ret (RateLimitData.lastCall data).

Definition canCallNow (minIntervalMs : Z) : Prog bool :=
  data ← loadData;
  now ← perform DateNow;
  Ret (bool_decide (minIntervalMs ≤ now - RateLimitData.lastCall data)).

Definition resetDailyCounter : Prog unit :=
  today ← getTodayDate;
  saveData (RateLimitData.mk today 0 0).

(** rateLimiter.ts: [interface RateLimitStatus] *)
Module RateLimitStatus.
Record t := mk {
  callsToday : Z;
  remainingCalls : Z;
  canCall : bool;
  lastCallTime : Z;
  nextCallIn : Z;
}.
End RateLimitStatus.

Definition getRateLimitStatus : Prog RateLimitStatus.t :=
  data ← loadData;
  let canCall := bool_decide (RateLimitData.calls data < SAFE_LIMIT) in
  let minInterval := 12000 in
  now ← perform DateNow;
  let nextCallIn := Z.max 0 (minInterval - (now - RateLimitData.lastCall data)) in
  Ret {| RateLimitStatus.callsToday := RateLimitData.calls data;
         RateLimitStatus.remainingCalls := Z.max 0 (SAFE_LIMIT - RateLimitData.calls data);
         RateLimitStatus.canCall := canCall && bool_decide (nextCallIn = 0);
         RateLimitStatus.lastCallTime := RateLimitData.lastCall data;
         RateLimitStatus.nextCallIn := nextCallIn |}.

(** ** cacheManager.ts: the batch marker *)

Definition getLastBatchUpdateDate : Prog (option string) :=
  getMetadata "lastBatchUpdateDate".

(** ** currencyApi.ts: the other exports *)

(** [for (const currency of currencies) { ...; if (!hasData) return true; }
    return false;] *)
Fixpoint needsInitialLoadFrom (currencies : list CurrencyCode) : Prog bool :=
  match currencies with
  | [] => Ret false
  | currency :: currencies =>
      hasData ← hasCachedData currency BASE_CURRENCY;
      if negb hasData then Ret true else needsInitialLoadFrom currencies
  end.

Definition needsInitialLoad : Prog bool := needsInitialLoadFrom FETCH_CURRENCIES.

Definition needsDailyUpdate : Prog bool :=
  updated ← areAllBasePairsUpdatedToday;
  Ret (negb updated).

(** [null] is [None]. *)
Definition getRealtimeRate (env : Env) (from to : CurrencyCode) : Prog (option number) :=
  tryCatch
    (rates ← getCurrencyPairData env from to false;
     if bool_decide (0 < length rates)%nat
     then Ret (close <$> rates !! (length rates - 1)%nat)
     else Ret None)
    (λ _, Ret None).

(** [>=] and [<=] on strings compare code units, as [String.leb] does. *)
Definition filterRatesByDateRange (rates : list DailyRate) (startDate endDate : string)
  : list DailyRate :=
  filter (λ rate, String.leb startDate (date rate) && String.leb (date rate) endDate) rates.

(** The element type of [calculatePercentageChange]'s result. *)
Module PercentagePoint.
Record t := mk { date : string; value : number }.
End PercentagePoint.

Definition calculatePercentageChange (rates : list DailyRate) : list PercentagePoint.t :=
  match rates with
  | [] => []
  | first :: _ =>
      let baseValue := close first in
      (λ rate, {| PercentagePoint.date := date rate;
                  PercentagePoint.value :=
                    ((close rate - baseValue) / baseValue * 100)%float |}) <$> rates
  end.

(** The blocking load from the backend. [onProgress] tells whether the
    optional callback was passed; the loop variables are [current],
    [success], [failed] and [totalRecords]. The last component of what the
    [try] block yields tells whether it left by [continue]. *)
Definition prefetchAllFromBackend (onProgress : bool) : Prog (Z * Z * Z) :=
  let total := Z.of_nat (length FETCH_CURRENCIES) in
  '(current, success, failed, totalRecords) ←
    forOf FETCH_CURRENCIES
      (λ currency '(current, success, failed, totalRecords),
         let pairName := code currency +:+ "/" +:+ code BASE_CURRENCY in
         let current := current + 1 in
         '(success, failed, totalRecords, continued) ←
           tryCatch
             ((* Check if we already have cached data *)
              hasData ← hasCachedData currency BASE_CURRENCY;
              if (hasData : bool) then
                let success := success + 1 in
                reportProgress onProgress current total pairName;;
                Ret (success, failed, totalRecords, true)
              else
                (* Fetch from backend *)
                backendRates ← fetchRatesFromBackend (code currency) (code BASE_CURRENCY)
                                 None None;
                if bool_decide (0 < length backendRates)%nat then
                  let rates := toDailyRate <$> backendRates in
                  saveCurrencyData currency BASE_CURRENCY rates;;
                  let totalRecords := totalRecords + Z.of_nat (length rates) in
                  Ret (success + 1, failed, totalRecords, false)
                else
                  Ret (success, failed + 1, totalRecords, false))
             (λ error, Ret (success, failed + 1, totalRecords, false));
         if (continued : bool) then Ret (current, success, failed, totalRecords) else
         reportProgress onProgress current total pairName;;
         Ret (current, success, failed, totalRecords))
      (0, 0, 0, 0);
  Ret (success, failed, totalRecords).

(** ** The functions that work on the whole store

    [getAllCachedPairs], [clearCache], [getCacheInfo], [isBackendAvailable]
    and [syncAllCachedDataToBackend] ask for effects the functions above
    never need: reading or clearing a whole object store, the backend's
    status, and a post of rows whose pair was read off a key. [WideEff] adds
    them to [Eff]; a [WideProg] is a program over the wider set, and a
    [Prog] is one that happens not to use what was added ([widen]). *)

(** [String.prototype.split] with a one-character separator: the parts
    between the separators, at least one. *)
Fixpoint split (separator : Ascii.ascii) (s : string) : list string :=
  match s with
  | EmptyString => [EmptyString]
  | String c s =>
      if Ascii.eqb c separator then EmptyString :: split separator s
      else match split separator s with
           | part :: parts => String c part :: parts
           | [] => [String c EmptyString]
           end
  end.

(** A value of [getAllCachedPairs]'s result: [CurrencyData] whose pair was
    read off the key by [const [from, to] = pairKey.split('/')]. A part the
    key does not have is [undefined] ([None]). *)
Module CachedPair.
Record t := mk {
  from : option string;
  to : option string;
  rates : list DailyRate;
  lastUpdated : Z;
}.
End CachedPair.

(** The rows [syncAllCachedDataToBackend] builds from a cached pair. *)
Module UploadRate.
Record t := mk {
  from : option string;
  to : option string;
  date : string;
  open : number;
  high : number;
  low : number;
  close : number;
}.
End UploadRate.

(** cacheManager.ts: the result of [getCacheInfo] *)
Module CacheInfo.
Record t := mk {
  pairs : Z;
  oldestUpdate : option Z;
  lastBatchUpdate : option string;
  isUpdatedToday : bool;
}.
End CacheInfo.

(** backendApi.ts: [interface StatusResponse] *)
Module PairStatus.
Record t := mk { pair : string; count : Z; latestDate : string; oldestDate : string }.
End PairStatus.

Module StatusResponse.
Record t := mk {
  success : bool;
  totalRecords : Z;
  pairs : list PairStatus.t;
  serverTime : string;
}.
End StatusResponse.

(** What the wider code throws: what the functions above throw, and the
    error of a batch that was not saved ([`Failed to save batch ${i}-${j}`]). *)
Inductive WideError :=
| CoreError (err : Error)
| BatchNotSaved (i j : nat).

Inductive WideEff : Type → Type :=
| Core {X} (e : Eff X) : WideEff X
| DbGetAll : WideEff (list StoredCurrencyData)
| DbClear : WideEff unit
| MetaClear : WideEff unit
| FetchStatus : WideEff (option (Response StatusResponse.t))
| PostUploadRates (rates : list UploadRate.t) : WideEff (option (Response SaveResult.t)).

Inductive WideProg (A : Type) : Type :=
| WRet (a : A)
| WThrow (err : WideError)
| WVis {X : Type} (e : WideEff X) (k : X → WideProg A).
Arguments WRet {A}.
Arguments WThrow {A}.
Arguments WVis {A X}.

Definition ask {X} (e : WideEff X) : WideProg X := WVis e WRet.

Fixpoint widen {A} (p : Prog A) : WideProg A :=
  match p with
  | Ret a => WRet a
  | Throw err => WThrow (CoreError err)
  | Vis e k => WVis (Core e) (λ x, widen (k x))
  end.

Fixpoint wideBind {A B} (p : WideProg A) (f : A → WideProg B) : WideProg B :=
  match p with
  | WRet a => f a
  | WThrow err => WThrow err
  | WVis e k => WVis e (λ x, wideBind (k x) f)
  end.

#[global] Instance WideProg_ret : MRet WideProg := @WRet.
#[global] Instance WideProg_bind : MBind WideProg := λ A B f p, wideBind p f.

Fixpoint wideTryCatch {A} (p : WideProg A) (handler : WideError → WideProg A) : WideProg A :=
  match p with
  | WRet a => WRet a
  | WThrow err => handler err
  | WVis e k => WVis e (λ x, wideTryCatch (k x) handler)
  end.

Fixpoint wideForOf {A S} (items : list A) (body : A → S → WideProg S) (s : S) : WideProg S :=
  match items with
  | [] => WRet s
  | item :: items => s' ← body item s; wideForOf items body s'
  end.

(** *** cacheManager.ts *)

Definition getAllCachedPairs : WideProg (list CachedPair.t) :=
  widen (perform GetDB);;
  all ← ask DbGetAll;
  WRet ((λ item,
           let pairKey := stored_pair item in
           let parts := split "/"%char pairKey in
           {| CachedPair.from := parts !! 0%nat;
              CachedPair.to := parts !! 1%nat;
              CachedPair.rates := stored_rates item;
              CachedPair.lastUpdated := stored_lastUpdated item |})
          <$> (all : list StoredCurrencyData)).

Definition clearCache : WideProg unit :=
  widen (perform GetDB);;
  ask DbClear;;
  ask MetaClear.

(** [Math.min(...all.map((d) => d.lastUpdated))] is only reached with a
    first element. *)
Definition getCacheInfo : WideProg CacheInfo.t :=
  widen (perform GetDB);;
  all ← ask DbGetAll;
  lastBatchUpdate ← widen (getMetadata "lastBatchUpdateDate");
  isUpdatedToday ← widen areAllBasePairsUpdatedToday;
  match all with
  | [] =>
      WRet {| CacheInfo.pairs := 0; CacheInfo.oldestUpdate := None;
              CacheInfo.lastBatchUpdate := lastBatchUpdate;
              CacheInfo.isUpdatedToday := isUpdatedToday |}
  | first :: others =>
      let oldestUpdate :=
        foldr Z.min (stored_lastUpdated first) (stored_lastUpdated <$> others) in
      WRet {| CacheInfo.pairs := Z.of_nat (length all);
              CacheInfo.oldestUpdate := Some oldestUpdate;
              CacheInfo.lastBatchUpdate := lastBatchUpdate;
              CacheInfo.isUpdatedToday := isUpdatedToday |}
  end.

(** *** backendApi.ts *)

Definition isBackendAvailable : WideProg bool :=
  wideTryCatch
    (response ← ask FetchStatus;
     match response with
     | None => WThrow (CoreError FetchRejected)
     | Some response => WRet (ok response)
     end)
    (λ _, WRet false).

(** [saveRatesToBackend], as above, at the rows [syncAllCachedDataToBackend]
    passes to it. *)
Module Upload.
Definition saveRatesToBackend (rates : list UploadRate.t) : WideProg bool :=
  wideTryCatch
    (response ← ask (PostUploadRates rates);
     match response with
     | None => WThrow (CoreError FetchRejected)
     | Some response =>
         if negb (ok response)
         then WThrow (CoreError (BackendStatus (status response))) else
         result ← ask (Core (SaveJson response));
         match result with
         | None => WThrow (CoreError JsonRejected)
         | Some result => WRet (SaveResult.success result)
         end
     end)
    (λ error, WRet false).
End Upload.

(** *** currencyApi.ts *)

Definition BATCH_SIZE : nat := 500.

(** [`${x}`] of a string that may be [undefined]. *)
Definition templateText (x : option string) : string := default "undefined" x.

(** [for (let i = 0; i < backendRates.length; i += BATCH_SIZE) { ... }] from
    a given [i] on. *)
Equations? uploadBatches (backendRates : list UploadRate.t) (i : nat)
  : WideProg unit by wf (length backendRates - i)%nat lt :=
uploadBatches backendRates i with decide (i < length backendRates)%nat := {
  | left _ =>
      let batch := take BATCH_SIZE (drop i backendRates) in
      saved ← Upload.saveRatesToBackend batch;
      if negb saved then WThrow (BatchNotSaved i (i + length batch))
      else uploadBatches backendRates (i + BATCH_SIZE);
  | right _ => WRet tt }.
Proof. unfold BATCH_SIZE. lia. Qed.

(** [rates.map(rate => ({ from: cachedData.pair.from, to: cachedData.pair.to,
    date: rate.date, open: rate.open, ... }))] *)
Definition toUploadRate (from to : option string) (rate : DailyRate) : UploadRate.t :=
  {| UploadRate.from := from;
     UploadRate.to := to;
     UploadRate.date := date rate;
     UploadRate.open := open rate;
     UploadRate.high := high rate;
     UploadRate.low := low rate;
     UploadRate.close := close rate |}.

(** [onProgress] tells whether the optional callback was passed. The loop
    variables are [current], [success], [failed] and [totalRecords]; the
    last component of what the [try] block yields tells whether it left by
    [continue]. *)
Definition syncAllCachedDataToBackend (onProgress : bool) : WideProg (Z * Z * Z) :=
  cachedPairs ← getAllCachedPairs;
  let total := Z.of_nat (length cachedPairs) in
  (* Check if backend is available *)
  backendAvailable ← isBackendAvailable;
  if negb backendAvailable then WRet (0, total, 0) else
  '(current, success, failed, totalRecords) ←
    wideForOf cachedPairs
      (λ cachedData '(current, success, failed, totalRecords),
         let pairName := templateText (CachedPair.from cachedData) +:+ "/"
                         +:+ templateText (CachedPair.to cachedData) in
         let current := current + 1 in
         '(success, failed, totalRecords, continued) ←
           wideTryCatch
             (let rates := CachedPair.rates cachedData in
              if bool_decide (length rates = 0%nat) then
                widen (reportProgress onProgress current total pairName);;
                WRet (success, failed, totalRecords, true)
              else
                (* Convert to backend format and upload in batches *)
                let backendRates :=
                  toUploadRate (CachedPair.from cachedData) (CachedPair.to cachedData)
                    <$> rates in
                uploadBatches backendRates 0;;
                let totalRecords := totalRecords + Z.of_nat (length rates) in
                WRet (success + 1, failed, totalRecords, false))
             (λ error, WRet (success, failed + 1, totalRecords, false));
         if (continued : bool) then WRet (current, success, failed, totalRecords) else
         widen (reportProgress onProgress current total pairName);;
         WRet (current, success, failed, totalRecords))
      (0, 0, 0, 0);
  WRet (success, failed, totalRecords).

(** *** The surroundings of the wider code *)

(** [IDBObjectStore.getAll]: the values in the order of their keys. *)
Definition getAll {V} (store : gmap string V) : list V :=
  (merge_sort (λ a b, String.le a.1 b.1) (map_to_list store)).*2.

Record WideEnv := {
  core : Env;
  backendStatus : nat → option (Response StatusResponse.t);
  uploadSave : nat → list UploadRate.t → option (Response SaveResult.t);
}.

(** The world, and the batches posted by [Upload.saveRatesToBackend], latest
    first. *)
Record WideWorld := mkWideWorld {
  inner : World;
  uploads : list (list UploadRate.t);
}.

Definition clearCurrencyData (w : World) : World :=
  mkWorld ∅ (metadata w) (localStorage w) (tick w) (trace w).

Definition clearMetadata (w : World) : World :=
  mkWorld (currencyData w) ∅ (localStorage w) (tick w) (trace w).

Definition wideHandle (env : WideEnv) {X} (e : WideEff X) (w : WideWorld) : X * WideWorld :=
  match e in WideEff X return X * WideWorld with
  | Core e => let '(x, w') := handle (core env) e (inner w) in (x, mkWideWorld w' (uploads w))
  | DbGetAll => (getAll (currencyData (inner w)), mkWideWorld (answered (inner w)) (uploads w))
  | DbClear => (tt, mkWideWorld (answered (clearCurrencyData (inner w))) (uploads w))
  | MetaClear => (tt, mkWideWorld (answered (clearMetadata (inner w))) (uploads w))
  | FetchStatus =>
      (backendStatus env (tick (inner w)), mkWideWorld (answered (inner w)) (uploads w))
  | PostUploadRates rates =>
      (uploadSave env (tick (inner w)) rates,
       mkWideWorld (answered (inner w)) (rates :: uploads w))
  end.

Inductive WideOutcome (A : Type) : Type :=
| WReturned (a : A)
| WThrown (err : WideError).
Arguments WReturned {A}.
Arguments WThrown {A}.

Fixpoint wideRun (env : WideEnv) {A} (p : WideProg A) (w : WideWorld)
  : WideOutcome A * WideWorld :=
  match p with
  | WRet a => (WReturned a, w)
  | WThrow err => (WThrown err, w)
  | WVis e k => let '(x, w') := wideHandle env e w in wideRun env (k x) w'
  end.

(** * More observations *)

(** The world after the two awaits of [getMetadata]. *)
Definition afterMetaRead (key : string) (w : World) : World :=
  answered (log (MetaRead key) (answered (log DbOpened w))).

(** The world after [markBatchUpdateComplete]: the day is read at once, the
    marker is written after the database has been opened. *)
Definition afterMark (env : Env) (w : World) : World :=
  let w1 := answered (log DbOpened w) in
  answered (log (MetaWrite "lastBatchUpdateDate" (todayIso env (tick w)))
              (putMetadata "lastBatchUpdateDate" (todayIso env (tick w)) w1)).

(** The worlds [fetchFromApi] goes through when the budget allows the call:
    after the wait, if the last call was less than 12 s ago; after the
    request has been answered; after the call has been recorded. *)
Definition waitBefore (env : Env) (w : World) : Z :=
  Z.max 0 (12000 - (now env (tick w) - RateLimitData.lastCall (currentData env w))).

Definition afterWait (env : Env) (w : World) : World :=
  if bool_decide (0 < waitBefore env w)
  then answered (log (Waited (waitBefore env w)) w) else w.

Definition afterRequest (env : Env) (from to : CurrencyCode) (w : World) : World :=
  answered (log (ProviderRequest from to) (afterWait env w)).

Definition afterRecord (env : Env) (from to : CurrencyCode) (w : World) : World :=
  let w2 := afterRequest env from to w in
  setItem STORAGE_KEY
    (RateLimitData.mk (RateLimitData.date (currentData env w2))
                      (RateLimitData.calls (currentData env w2) + 1)
                      (now env (tick w2))) w2.

(** The day's count has not passed the ceiling. *)
Definition underCeiling (env : Env) (w : World) : Prop :=
  RateLimitData.calls (currentData env w) ≤ SAFE_LIMIT.

(** A program keeps a property of worlds: it holds after every run that it
    held before. *)
Definition keeps (env : Env) (P : World → Prop) {A} (p : Prog A) : Prop :=
  ∀ w, P w → P (run env p w).2.

(** The row lists posted to the backend, latest first. *)
Fixpoint backendWrites (evs : list Event) : list (list BackendRate.t) :=
  match evs with
  | [] => []
  | BackendWrite rates :: evs => rates :: backendWrites evs
  | _ :: evs => backendWrites evs
  end.

(** The reads of the backend, latest first. *)
Fixpoint backendReads (evs : list Event) : list (string * string) :=
  match evs with
  | [] => []
  | BackendRead from to :: evs => (from, to) :: backendReads evs
  | _ :: evs => backendReads evs
  end.

(** The effects that stay with the pairs against the base: the cache is
    read and written, and the provider and the backend are asked, only under
    [(c, base)] for a currency [c] of [FETCH_CURRENCIES]; the metadata store
    is not written and no callback is called. *)
Definition staysWithBasePairs (X : Type) (e : Eff X) : bool :=
  match e with
  | DbGet key =>
      bool_decide (key ∈ (λ c, getPairKey c BASE_CURRENCY) <$> FETCH_CURRENCIES)
  | DbPut value =>
      bool_decide (stored_pair value ∈ (λ c, getPairKey c BASE_CURRENCY) <$> FETCH_CURRENCIES)
  | FetchProvider from to => bool_decide (from ∈ FETCH_CURRENCIES ∧ to = BASE_CURRENCY)
  | FetchBackendRates from to _ _ =>
      bool_decide ((from, to) ∈ (λ c, (code c, code BASE_CURRENCY)) <$> FETCH_CURRENCIES)
  | MetaPut _ _ | OnProgress _ _ _ | OnComplete _ _ _ => false
  | _ => true
  end.

(** The reports of a load over [currencies], labelled by pair, when [done]
    items were reported before: [(done + 1, total, "c1/USD")], ... *)
Fixpoint pairReportsFrom (done total : Z) (currencies : list CurrencyCode)
  : list (Z * Z * string) :=
  match currencies with
  | [] => []
  | currency :: currencies =>
      (done + 1, total, code currency +:+ "/" +:+ code BASE_CURRENCY)
      :: pairReportsFrom (done + 1) total currencies
  end.

(** The currencies whose pair against the base the cache does not hold. *)
Definition notResident (w : World) (currencies : list CurrencyCode) : list CurrencyCode :=
  filter (λ c, hasRates (cachedData c BASE_CURRENCY w) = false) currencies.

(** The rows a cached pair is uploaded as. *)
Definition uploadRows (cachedData : CachedPair.t) : list UploadRate.t :=
  toUploadRate (CachedPair.from cachedData) (CachedPair.to cachedData)
    <$> CachedPair.rates cachedData.

(** The pairs [getAllCachedPairs] lists in a world. *)
Definition listedPairs (w : World) : list CachedPair.t :=
  (λ item, {| CachedPair.from := split "/" (stored_pair item) !! 0%nat;
              CachedPair.to := split "/" (stored_pair item) !! 1%nat;
              CachedPair.rates := stored_rates item;
              CachedPair.lastUpdated := stored_lastUpdated item |})
    <$> getAll (currencyData w).

(** The reports of an upload of [pairs] when [done] were reported before. *)
Fixpoint uploadReportsFrom (done total : Z) (pairs : list CachedPair.t)
  : list (Z * Z * string) :=
  match pairs with
  | [] => []
  | cachedData :: pairs =>
      (done + 1, total,
       templateText (CachedPair.from cachedData) +:+ "/"
       +:+ templateText (CachedPair.to cachedData))
      :: uploadReportsFrom (done + 1) total pairs
  end.

(** The backend answers the status request with an OK status, and accepts
    every post. *)
Definition backendIsUp (env : WideEnv) : Prop :=
  ∀ t, ∃ response, backendStatus env t = Some response ∧ ok response = true.

Definition acceptsUploads (env : WideEnv) : Prop :=
  ∀ t rows, ∃ response result,
    uploadSave env t rows = Some response ∧ ok response = true
    ∧ json response = Some result ∧ SaveResult.success result = true.

(** Between two worlds nothing was stored, no request went to the provider
    and no progress was reported. *)
Definition untouched (w w' : World) : Prop :=
  currencyData w' = currencyData w ∧ metadata w' = metadata w
  ∧ localStorage w' = localStorage w
  ∧ providerRequests (trace w') = providerRequests (trace w)
  ∧ progressReports (trace w') = progressReports (trace w).

(** * More sample inputs *)

(** The counter at the ceiling, written the day before. *)
Definition staleDayWorld : World :=
  mkWorld ∅ ∅ {[ STORAGE_KEY := RateLimitData.mk "2024-04-30" 24 1714460000000 ]} 0 [].

(** EUR/USD cached, and the counter at the ceiling since the day before. *)
Definition exhaustedYesterdayWorld : World :=
  mkWorld {[ "EUR/USD" := {| stored_pair := "EUR/USD";
                             stored_rates := seriesD123;
                             stored_lastUpdated := 1714000000000 |} ]}
          ∅
          {[ STORAGE_KEY := RateLimitData.mk "2024-04-30" 24 1714460000000 ]}
          0 [].

(** A body of the provider whose entries come latest first. *)
Definition latestFirstBody : AlphaVantageResponse :=
  {| TimeSeriesFXDaily :=
       Some [("2024-05-03", {| open_1 := "1.07"; high_2 := "1.08";
                               low_3 := "1.06"; close_4 := "1.07" |});
             ("2024-05-02", {| open_1 := "1.07"; high_2 := "1.07";
                               low_3 := "1.06"; close_4 := "1.07" |});
             ("2024-05-01", {| open_1 := "1.06"; high_2 := "1.07";
                               low_3 := "1.06"; close_4 := "1.07" |})];
     Note := None;
     ErrorMessage := None |}.

(** The provider is unreachable; the backend holds two days of every pair. *)
Definition allBackendEnv : Env :=
  {| parseFloat := λ _, 0%float;
     localeCompare := λ a b, if String.ltb a b then -1 else if String.eqb a b then 0 else 1;
     now := λ t, 1714550400000 + Z.of_nat t;
     todayIso := λ _, "2024-05-01";
     provider := λ _ _ _, None;
     backendRates := λ _ from to _ _,
       Some (mkResponse true 200
               (Some (RatesResponse.mk true
                        [ExchangeRateRecord.mk from to "2024-04-29" 1.5 2 1.25 1.75;
                         ExchangeRateRecord.mk from to "2024-04-30" 1.75 2 1.5 1.75] 2)));
     backendSave := λ _ _, None;
     firstLegResumes := λ _, true |}.

(** The backend is up and accepts every post; everything else is offline. *)
Definition uploadEnv : WideEnv :=
  {| core := offlineEnv;
     backendStatus := λ _, Some (mkResponse true 200 None);
     uploadSave := λ _ _, Some (mkResponse true 200 (Some (SaveResult.mk true))) |}.

(** GBP/USD cached with 1200 records, and CHF/USD with none. *)
Definition longWorld : World :=
  mkWorld {[ "GBP/USD" := {| stored_pair := "GBP/USD";
                             stored_rates :=
                               replicate 1200 (mkDailyRate "2024-01-01" 1.5 2 1.25 1.75);
                             stored_lastUpdated := 1714000000000 |};
             "CHF/USD" := {| stored_pair := "CHF/USD";
                             stored_rates := [];
                             stored_lastUpdated := 1713000000000 |} ]}
          ∅ ∅ 0 [].


(** * Series keyed by date *)

(** A series keyed by date: no date twice. *)
Definition keyedByDate (rates : list DailyRate) : Prop := NoDup (date <$> rates).

(** The cache holds only series keyed by date. *)
Definition cacheKeyedByDate (w : World) : Prop :=
  ∀ key item, currencyData w !! key = Some item → keyedByDate (stored_rates item).

(** The two sources answer with series keyed by date. A payload of the
    provider is a JSON object, whose keys are its dates; the backend reads
    the rows of one pair from a table declared with
    [UNIQUE (from_currency, to_currency, date)] (database/schema.sql). *)
Definition sourcesKeyedByDate (env : Env) : Prop :=
  (∀ t from to response data timeSeries,
     provider env t from to = Some response → json response = Some data →
     TimeSeriesFXDaily data = Some timeSeries → NoDup timeSeries.*1)
  ∧ (∀ t from to startDate endDate response result,
       backendRates env t from to startDate endDate = Some response →
       json response = Some result →
       NoDup (ExchangeRateRecord.date <$> RatesResponse.data result)).

(** What a program guarantees whatever runs between its awaits, as long as
    that keeps [inv]: every effect it asks for keeps [inv], and the value it
    returns satisfies [Q]. *)
Fixpoint guarantees (env : Env) (inv : World → Prop) {A} (Q : A → Prop) (p : Prog A)
  : Prop :=
  match p with
  | Ret a => Q a
  | Throw _ => True
  | Vis e k =>
      ∀ w, inv w → inv (handle env e w).2 ∧ guarantees env inv Q (k (handle env e w).1)
  end.

(** * The attempts of a batch *)

Definition isReturned {A} (outcome : Outcome A) : bool :=
  match outcome with Returned _ => true | Thrown _ => false end.

(** [fetchFromApi] refused the call: the budget was exhausted. *)
Definition refused {A} (outcome : Outcome A) : bool :=
  match outcome with Thrown BudgetExceeded => true | _ => false end.

(** What one item of the batch leaves behind, given how its call of
    [fetchFromApi] ended and the world it ended in: a series that was
    returned is stored under [(currency, base)]; then the item is reported
    as number [current], if a callback was passed. *)
Definition afterAttempt (env : Env) (onProgress : bool) (total current : Z)
    (currency : CurrencyCode) (attempt : Outcome (list DailyRate) * World) : World :=
  let w2 := match attempt.1 with
            | Returned rates => afterCacheWrite env currency BASE_CURRENCY rates attempt.2
            | Thrown _ => attempt.2
            end in
  if onProgress then log (Progress current total (code currency)) w2 else w2.

(** The attempts of a batch over [currencies] that starts in [w] with
    [current] items reported: each currency in turn is given to
    [fetchFromApi] against the base, once, in the world the item before it
    left. The result is the currencies with the outcomes of their calls, and
    the world the last item leaves. *)
Fixpoint attempts (env : Env) (onProgress : bool) (total current : Z)
    (currencies : list CurrencyCode) (w : World)
  : list (CurrencyCode * Outcome (list DailyRate)) * World :=
  match currencies with
  | [] => ([], w)
  | currency :: currencies =>
      let attempt := run env (fetchFromApi env currency BASE_CURRENCY) w in
      let rest := attempts env onProgress total (current + 1) currencies
                    (afterAttempt env onProgress total (current + 1) currency attempt) in
      ((currency, attempt.1) :: rest.1, rest.2)
  end.
(** * Properties *)

(** ** [calculateCrossRate] *)

Section CrossRate.
Implicit Types fromToUsd toToUsd : list DailyRate.

Lemma buildDateMap_nil : buildDateMap [] = ∅.
Proof. done. Qed.

Lemma buildDateMap_snoc toToUsd rate :
  buildDateMap (toToUsd ++ [rate]) = <[date rate := rate]> (buildDateMap toToUsd).
Proof. unfold buildDateMap. by rewrite foldl_app. Qed.

(** The map has a date exactly when some record of the to-leg carries it. *)
Lemma buildDateMap_is_Some toToUsd d :
  is_Some (buildDateMap toToUsd !! d) ↔ d ∈ date <$> toToUsd.
Proof.
  induction toToUsd as [|rate toToUsd IH] using rev_ind.
  - rewrite buildDateMap_nil, lookup_empty, fmap_nil, elem_of_nil.
    split; [by intros [??] | done].
  - rewrite buildDateMap_snoc, fmap_app, elem_of_app, <- IH.
    rewrite fmap_cons, fmap_nil, list_elem_of_singleton.
    destruct (decide (date rate = d)) as [->|Hne].
    + rewrite lookup_insert_eq. split; eauto.
    + rewrite lookup_insert_ne by done. split; [tauto|].
      by intros [?|?].
Qed.

(** What the map holds for a date is a record of the to-leg of that date. *)
Lemma buildDateMap_lookup_Some toToUsd d toRate :
  buildDateMap toToUsd !! d = Some toRate → toRate ∈ toToUsd ∧ date toRate = d.
Proof.
  revert toRate. induction toToUsd as [|rate toToUsd IH] using rev_ind; intros toRate.
  - by rewrite buildDateMap_nil, lookup_empty.
  - rewrite buildDateMap_snoc, elem_of_app, list_elem_of_singleton.
    destruct (decide (date rate = d)) as [<-|Hne].
    + rewrite lookup_insert_eq. intros [= <-]. auto.
    + rewrite lookup_insert_ne by done. intros [??]%IH. auto.
Qed.

(** With no date twice in the to-leg, the map holds the one record of a date. *)
Lemma buildDateMap_lookup_NoDup toToUsd d :
  NoDup (date <$> toToUsd) →
  filter (λ toRate, date toRate = d) toToUsd = option_list (buildDateMap toToUsd !! d).
Proof.
  induction toToUsd as [|rate toToUsd IH] using rev_ind; intros Hnd; [done|].
  rewrite fmap_app in Hnd. apply NoDup_app in Hnd as (Hnd & Hfresh & _).
  rewrite buildDateMap_snoc, filter_app, IH by done.
  destruct (decide (date rate = d)) as [<-|Hne].
  - rewrite lookup_insert_eq, filter_cons_True by done.
    destruct (buildDateMap toToUsd !! date rate) eqn:Hl; [|done].
    exfalso. apply (Hfresh (date rate)).
    + apply buildDateMap_is_Some. by rewrite Hl.
    + rewrite fmap_cons. apply list_elem_of_here.
  - rewrite lookup_insert_ne, filter_cons_False by done.
    by rewrite app_nil_r.
Qed.

Lemma calculateCrossRate_cons fromRate fromToUsd toToUsd :
  calculateCrossRate (fromRate :: fromToUsd) toToUsd
  = match buildDateMap toToUsd !! date fromRate with
    | Some toRate => crossRecord fromRate toRate :: calculateCrossRate fromToUsd toToUsd
    | None => calculateCrossRate fromToUsd toToUsd
    end.
Proof.
  unfold calculateCrossRate. cbv zeta. rewrite filter_cons.
  destruct (buildDateMap toToUsd !! date fromRate) as [toRate|] eqn:Hl.
  - rewrite decide_True by eauto. simpl. by rewrite Hl.
  - rewrite decide_False; [done|]. by intros [??].
Qed.

(** The [.map] loses no record the [.filter] kept: the output is, record for
    record, the kept from-records divided by what the map holds for their
    dates. *)
Lemma calculateCrossRate_map fromToUsd toToUsd :
  Forall2 (λ fromRate out,
             ∃ toRate, buildDateMap toToUsd !! date fromRate = Some toRate
                       ∧ out = crossRecord fromRate toRate)
    (filter (λ fromRate, is_Some (buildDateMap toToUsd !! date fromRate)) fromToUsd)
    (calculateCrossRate fromToUsd toToUsd).
Proof.
  induction fromToUsd as [|fromRate fromToUsd IH]; [constructor|].
  rewrite calculateCrossRate_cons, filter_cons.
  destruct (buildDateMap toToUsd !! date fromRate) as [toRate|] eqn:Hl.
  - rewrite decide_True by eauto. constructor; eauto.
  - rewrite decide_False; [done|]. by intros [??].
Qed.

Lemma calculateCrossRate_dates fromToUsd toToUsd :
  date <$> calculateCrossRate fromToUsd toToUsd
  = filter (λ d, d ∈ date <$> toToUsd) (date <$> fromToUsd).
Proof.
  induction fromToUsd as [|fromRate fromToUsd IH]; [done|].
  rewrite calculateCrossRate_cons, fmap_cons, filter_cons.
  destruct (buildDateMap toToUsd !! date fromRate) as [toRate|] eqn:Hl.
  - rewrite decide_True by (apply buildDateMap_is_Some; by rewrite Hl).
    rewrite fmap_cons. simpl. by rewrite IH.
  - rewrite decide_False; [done|].
    rewrite <- buildDateMap_is_Some, Hl. by intros [??].
Qed.

Lemma calculateCrossRate_elem_of fromToUsd toToUsd out :
  out ∈ calculateCrossRate fromToUsd toToUsd →
  ∃ fromRate toRate, fromRate ∈ fromToUsd ∧ toRate ∈ toToUsd
                     ∧ date toRate = date fromRate ∧ out = crossRecord fromRate toRate.
Proof.
  induction fromToUsd as [|fromRate fromToUsd IH]; [by intros ?%elem_of_nil|].
  rewrite calculateCrossRate_cons.
  assert (out ∈ calculateCrossRate fromToUsd toToUsd →
          ∃ fromRate0 toRate, fromRate0 ∈ fromRate :: fromToUsd ∧ toRate ∈ toToUsd
            ∧ date toRate = date fromRate0 ∧ out = crossRecord fromRate0 toRate) as Htail.
  { intros (f & t & ? & ? & ? & ?)%IH. exists f, t. rewrite elem_of_cons. auto. }
  destruct (buildDateMap toToUsd !! date fromRate) as [toRate|] eqn:Hl; [|done].
  intros [->|?]%elem_of_cons; [|auto].
  apply buildDateMap_lookup_Some in Hl as [??].
  exists fromRate, toRate. rewrite elem_of_cons. auto.
Qed.

Lemma calculateCrossRate_nil_r fromToUsd : calculateCrossRate fromToUsd [] = [].
Proof.
  induction fromToUsd as [|fromRate fromToUsd IH]; [done|].
  by rewrite calculateCrossRate_cons, buildDateMap_nil, lookup_empty.
Qed.

Lemma calculateCrossRate_innerJoin fromToUsd toToUsd :
  NoDup (date <$> toToUsd) →
  calculateCrossRate fromToUsd toToUsd = innerJoinOnDate fromToUsd toToUsd.
Proof.
  intros Hnd. unfold innerJoinOnDate.
  induction fromToUsd as [|fromRate fromToUsd IH]; [done|].
  rewrite calculateCrossRate_cons, bind_cons, <- IH, buildDateMap_lookup_NoDup by done.
  by destruct (buildDateMap toToUsd !! date fromRate).
Qed.

Lemma dateBefore_trans : Transitive dateBefore.
Proof.
  assert (∀ a b, dateBefore a b ↔ strict String.le a b) as Hstrict.
  { intros a b. unfold dateBefore, strict, String.le, String.ltb, String.leb.
    rewrite (String.compare_antisym b a).
    destruct (String.compare a b); simpl; intuition discriminate. }
  intros a b c. rewrite !Hstrict. intros ??. by etrans.
Qed.

Lemma dateBefore_irrefl d : ¬ dateBefore d d.
Proof.
  unfold dateBefore, String.ltb.
  pose proof (String.compare_antisym d d) as Hopp.
  by destruct (String.compare d d).
Qed.

Lemma StronglySorted_filter {A} (R : relation A) (P : A → Prop) `{!∀ x, Decision (P x)} l :
  StronglySorted R l → StronglySorted R (filter P l).
Proof.
  induction 1 as [|x l Hl IH Hx]; [constructor|].
  rewrite filter_cons. case_decide; [|done].
  constructor; [done|].
  apply Forall_forall. intros y [_ Hy]%list_elem_of_filter.
  rewrite Forall_forall in Hx. auto.
Qed.

Lemma StronglySorted_NoDup {A} (R : relation A) l :
  (∀ x, ¬ R x x) → StronglySorted R l → NoDup l.
Proof.
  intros Hirr. induction 1 as [|x l Hl IH Hx]; constructor; [|done].
  intros Hin. rewrite Forall_forall in Hx. by apply (Hirr x), Hx.
Qed.

End CrossRate.

(** C10. For every pair of series, the dates of [calculateCrossRate]'s result
    are the dates of its first argument (the from-leg) that also occur in the
    second, in the from-leg's order; and when the from-leg is ascending by
    date with no date twice, so is the result. *)
Theorem calculateCrossRate_keeps_from_order (fromToUsd toToUsd : list DailyRate) :
  date <$> calculateCrossRate fromToUsd toToUsd
    = filter (λ d, d ∈ date <$> toToUsd) (date <$> fromToUsd)
  ∧ (ascendingByDate fromToUsd →
     ascendingByDate (calculateCrossRate fromToUsd toToUsd)
     ∧ NoDup (date <$> calculateCrossRate fromToUsd toToUsd)).
Proof.
  split; [apply calculateCrossRate_dates|].
  unfold ascendingByDate. intros Hasc.
  apply (Sorted.Sorted_StronglySorted dateBefore_trans) in Hasc.
  assert (StronglySorted dateBefore (date <$> calculateCrossRate fromToUsd toToUsd)) as Hout.
  { rewrite calculateCrossRate_dates. by apply StronglySorted_filter. }
  split.
  - by apply StronglySorted_Sorted.
  - eapply StronglySorted_NoDup; [apply dateBefore_irrefl|done].
Qed.

Lemma calculateCrossRate_keeps_from_order_witness :
  ascendingByDate seriesD123
  ∧ date <$> calculateCrossRate seriesD123 seriesD234 = ["2024-01-02"; "2024-01-03"]
  ∧ ascendingByDate (calculateCrossRate seriesD123 seriesD234)
  ∧ NoDup (date <$> calculateCrossRate seriesD123 seriesD234).
Proof.
  assert (ascendingByDate seriesD123) as Hasc by (repeat constructor).
  destruct (calculateCrossRate_keeps_from_order seriesD123 seriesD234) as [Hdates Hsorted].
  destruct (Hsorted Hasc) as [Hout Hnd].
  split; [exact Hasc|]. split; [|split; [exact Hout|exact Hnd]].
  rewrite Hdates. reflexivity.
Defined.

(** ** Running programs *)

Section RunLaws.
Variable env : Env.

Lemma run_bind {A B} (p : Prog A) (f : A → Prog B) w :
  run env (p ≫= f) w
  = match run env p w with
    | (Returned a, w') => run env (f a) w'
    | (Thrown err, w') => (Thrown err, w')
    end.
Proof.
  unfold mbind, Prog_bind.
  revert w. induction p as [a|err|X e k IH]; intros w; simpl; [done..|].
  destruct (handle env e w) as [x w']. apply IH.
Qed.

Lemma run_tryCatch {A} (p : Prog A) handler w :
  run env (tryCatch p handler) w
  = match run env p w with
    | (Returned a, w') => (Returned a, w')
    | (Thrown err, w') => run env (handler err) w'
    end.
Proof.
  revert w. induction p as [a|err|X e k IH]; intros w; simpl; [done..|].
  destruct (handle env e w) as [x w']. apply IH.
Qed.

Lemma run_perform {X} (e : Eff X) w :
  run env (perform e) w = (Returned (handle env e w).1, (handle env e w).2).
Proof. unfold perform. simpl. by destruct (handle env e w). Qed.

Lemma run_forOf_cons {A S} (item : A) items (body : A → S → Prog S) s w :
  run env (forOf (item :: items) body s) w
  = match run env (body item s) w with
    | (Returned s', w') => run env (forOf items body s') w'
    | (Thrown err, w') => (Thrown err, w')
    end.
Proof. simpl. apply run_bind. Qed.

End RunLaws.

(** ** [getCurrencyPairData]: the three derived cases *)

Lemma getCurrencyPairData_same env X forceRefresh :
  getCurrencyPairData env X X forceRefresh = Ret [].
Proof.
  rewrite getCurrencyPairData_equation_1.
  by destruct (decide (X = X)).
Qed.

Lemma getCurrencyPairData_inverse env X forceRefresh :
  X ≠ BASE_CURRENCY →
  getCurrencyPairData env BASE_CURRENCY X forceRefresh
  = (directRate ← getCurrencyPairData env X BASE_CURRENCY forceRefresh;
     if bool_decide (length directRate = 0%nat) then Ret []
     else Ret (invertRate <$> directRate)).
Proof.
  intros HX. rewrite getCurrencyPairData_equation_1 at 1.
  destruct (decide (BASE_CURRENCY = X)) as [|?]; [done|]. simpl.
  by destruct (decide (BASE_CURRENCY = BASE_CURRENCY ∧ X ≠ BASE_CURRENCY)) as [|[]].
Qed.

Lemma getCurrencyPairData_cross env X Y forceRefresh :
  X ≠ BASE_CURRENCY → Y ≠ BASE_CURRENCY → X ≠ Y →
  getCurrencyPairData env X Y forceRefresh
  = ('(fromToUsd, toToUsd) ←
       all2 (getCurrencyPairData env X BASE_CURRENCY forceRefresh)
            (getCurrencyPairData env Y BASE_CURRENCY forceRefresh);
     if bool_decide (length fromToUsd = 0%nat) || bool_decide (length toToUsd = 0%nat)
     then Ret []
     else Ret (calculateCrossRate fromToUsd toToUsd)).
Proof.
  intros HX HY HXY. rewrite getCurrencyPairData_equation_1 at 1.
  destruct (decide (X = Y)) as [|?]; [done|]. simpl.
  destruct (decide (X = BASE_CURRENCY ∧ Y ≠ BASE_CURRENCY)) as [[]|?]; [done|]. simpl.
  by destruct (decide (X ≠ BASE_CURRENCY ∧ Y ≠ BASE_CURRENCY)) as [|[]].
Qed.

Lemma getCurrencyPairData_direct env X forceRefresh :
  X ≠ BASE_CURRENCY →
  getCurrencyPairData env X BASE_CURRENCY forceRefresh
  = directLookup env X BASE_CURRENCY forceRefresh.
Proof.
  intros HX. rewrite getCurrencyPairData_equation_1.
  destruct (decide (X = BASE_CURRENCY)) as [|?]; [done|]. simpl.
  destruct (decide (X = BASE_CURRENCY ∧ BASE_CURRENCY ≠ BASE_CURRENCY)) as [[]|?]; [done|].
  simpl.
  by destruct (decide (X ≠ BASE_CURRENCY ∧ BASE_CURRENCY ≠ BASE_CURRENCY)) as [[]|?].
Qed.

(** C9. For every currency [X] and either value of [forceRefresh],
    [getCurrencyPairData X X forceRefresh] is the program that returns the
    empty series at once: run in any world it returns [[]], throws nothing
    and leaves the world as it was, trace included (no cache read, no
    backend call, no provider call). *)
Theorem same_currency_is_empty env (X : CurrencyCode) (forceRefresh : bool) (w : World) :
  getCurrencyPairData env X X forceRefresh = Ret []
  ∧ run env (getCurrencyPairData env X X forceRefresh) w = (Returned [], w).
Proof. by rewrite getCurrencyPairData_same. Qed.

(** C3. For every currency [X] other than the base,
    [getCurrencyPairData base X f] runs [getCurrencyPairData X base f] and
    returns its series with every record inverted by [invertRate]
    (open 1/open, high 1/low, low 1/high, close 1/close), dates and their
    order unchanged; it throws what the direct call throws. *)
Theorem inverse_pair_inverts_direct env (X : CurrencyCode) (f : bool) (w : World) :
  X ≠ BASE_CURRENCY →
  run env (getCurrencyPairData env BASE_CURRENCY X f) w
  = match run env (getCurrencyPairData env X BASE_CURRENCY f) w with
    | (Returned directRate, w') => (Returned (invertRate <$> directRate), w')
    | (Thrown err, w') => (Thrown err, w')
    end
  ∧ ∀ directRate : list DailyRate,
      date <$> (invertRate <$> directRate) = date <$> directRate
      ∧ Forall2 (λ rate inverted,
                   date inverted = date rate
                   ∧ open inverted = (1 / open rate)%float
                   ∧ high inverted = (1 / low rate)%float
                   ∧ low inverted = (1 / high rate)%float
                   ∧ close inverted = (1 / close rate)%float)
                directRate (invertRate <$> directRate).
Proof.
  intros HX. split.
  - rewrite getCurrencyPairData_inverse, run_bind by done.
    destruct (run env _ w) as [[directRate|err] w']; [|done].
    by destruct directRate.
  - intros directRate. split.
    + rewrite <- list_fmap_compose. by apply list_fmap_ext.
    + induction directRate; constructor; auto.
Qed.

Lemma inverse_pair_inverts_direct_witness :
  EUR ≠ BASE_CURRENCY
  ∧ run offlineEnv (getCurrencyPairData offlineEnv BASE_CURRENCY EUR false) crossWorld
    = match run offlineEnv (getCurrencyPairData offlineEnv EUR BASE_CURRENCY false)
              crossWorld with
      | (Returned directRate, w') => (Returned (invertRate <$> directRate), w')
      | (Thrown err, w') => (Thrown err, w')
      end
  ∧ (run offlineEnv (getCurrencyPairData offlineEnv BASE_CURRENCY EUR false) crossWorld).1
    = Returned (invertRate <$> seriesD123).
Proof.
  split; [done|].
  split; [|by vm_compute].
  exact (proj1 (inverse_pair_inverts_direct offlineEnv EUR false crossWorld ltac:(done))).
Defined.

(** The scenario of the specification: with EUR/USD cached for D1 D2 D3 and
    JPY/USD for D2 D3 D4, the cross series has exactly D2 and D3. *)
Example cross_pair_scenario :
  (run offlineEnv (all2 (getCurrencyPairData offlineEnv EUR BASE_CURRENCY false)
                        (getCurrencyPairData offlineEnv JPY BASE_CURRENCY false))
       crossWorld).1 = Returned (seriesD123, seriesD234)
  ∧ (run offlineEnv (getCurrencyPairData offlineEnv EUR JPY false) crossWorld).1
    = Returned [ mkDailyRate "2024-01-02" 3.5 10 1.5 4;
                 mkDailyRate "2024-01-03" 4 6 (1.75 / 0.75) 4 ]%float.
Proof. by vm_compute. Qed.

(** ** What a program may ask for *)

Section Footprint.
Variable env : Env.
Variable allowed : ∀ X, Eff X → bool.

Lemma asksOnly_bind {A B} (p : Prog A) (f : A → Prog B) :
  asksOnly allowed p → (∀ a, asksOnly allowed (f a)) → asksOnly allowed (p ≫= f).
Proof.
  unfold mbind, Prog_bind. intros Hp Hf.
  induction p as [a|err|X e k IH]; simpl; [done..|].
  destruct Hp as [He Hk]. split; [done|]. intros x. by apply IH.
Qed.

Lemma asksOnly_tryCatch {A} (p : Prog A) handler :
  asksOnly allowed p → (∀ err, asksOnly allowed (handler err)) →
  asksOnly allowed (tryCatch p handler).
Proof.
  intros Hp Hh. induction p as [a|err|X e k IH]; simpl; [done..|].
  destruct Hp as [He Hk]. split; [done|]. intros x. by apply IH.
Qed.

Lemma asksOnly_forOf {A S} (items : list A) (body : A → S → Prog S) s :
  (∀ item s, asksOnly allowed (body item s)) → asksOnly allowed (forOf items body s).
Proof.
  intros Hbody. revert s. induction items as [|item items IH]; intros s; [done|].
  simpl. apply asksOnly_bind; auto.
Qed.

Lemma asksOnly_perform {X} (e : Eff X) : allowed X e = true → asksOnly allowed (perform e).
Proof. by split. Qed.

(** A relation between worlds that every allowed effect respects holds
    between the first and the last world of a run. *)
Lemma run_respects {A} (R : relation World) (p : Prog A) w :
  Reflexive R → Transitive R →
  (∀ X (e : Eff X) w, allowed X e = true → R w (handle env e w).2) →
  asksOnly allowed p → R w (run env p w).2.
Proof.
  intros Hrefl Htrans Hstep. revert w.
  induction p as [a|err|X e k IH]; intros w; simpl; [done..|].
  intros [He Hk]. specialize (Hstep X e w He).
  destruct (handle env e w) as [x w']. simpl in Hstep.
  etrans; [exact Hstep|]. by apply IH.
Qed.

End Footprint.

(** Solves [asksOnly] goals by walking the program. *)
Ltac asks :=
  repeat first
    [ done
    | progress intros
    | match goal with
      | |- asksOnly _ (forOf _ _ _) => apply asksOnly_forOf
      | |- asksOnly _ (tryCatch _ _) => apply asksOnly_tryCatch
      | |- asksOnly _ (mbind _ _) => apply asksOnly_bind
      | |- asksOnly _ (perform _) => apply asksOnly_perform
      | |- asksOnly _ (Vis _ _) => split
      | |- asksOnly _ (Ret _) => exact I
      | |- asksOnly _ (Throw _) => exact I
      | |- asksOnly _ (match ?x with _ => _ end) => destruct x
      end ].

(** ** rateLimiter.ts, cacheManager.ts, backendApi.ts *)

Section ServiceLaws.
Variable env : Env.

Lemma run_loadData w : run env loadData w = (Returned (currentData env w), w).
Proof.
  unfold loadData, currentData. simpl.
  destruct (localStorage w !! STORAGE_KEY) as [data|]; simpl; [|done].
  by case_bool_decide.
Qed.

Lemma run_canMakeApiCall w :
  run env canMakeApiCall w
  = (Returned (bool_decide (RateLimitData.calls (currentData env w) < SAFE_LIMIT)), w).
Proof. unfold canMakeApiCall. by rewrite run_bind, run_loadData. Qed.

Lemma run_getCallsToday w :
  run env getCallsToday w = (Returned (RateLimitData.calls (currentData env w)), w).
Proof. unfold getCallsToday. by rewrite run_bind, run_loadData. Qed.

Lemma run_getTimeUntilNextCall minIntervalMs w :
  run env (getTimeUntilNextCall minIntervalMs) w
  = (Returned (Z.max 0 (minIntervalMs
                        - (now env (tick w) - RateLimitData.lastCall (currentData env w)))),
     w).
Proof. unfold getTimeUntilNextCall. by rewrite run_bind, run_loadData. Qed.

Lemma run_recordApiCall w :
  run env recordApiCall w
  = (Returned tt,
     setItem STORAGE_KEY
       (RateLimitData.mk (RateLimitData.date (currentData env w))
                         (RateLimitData.calls (currentData env w) + 1)
                         (now env (tick w))) w).
Proof. unfold recordApiCall. by rewrite run_bind, run_loadData. Qed.

Lemma run_getCurrencyData from to w :
  run env (getCurrencyData from to) w
  = (Returned (cachedData from to w), afterCacheRead from to w).
Proof.
  unfold getCurrencyData, cachedData, afterCacheRead. simpl.
  by destruct (currencyData w !! getPairKey from to).
Qed.

Lemma run_hasCachedData from to w :
  run env (hasCachedData from to) w
  = (Returned (hasRates (cachedData from to w)), afterCacheRead from to w).
Proof. unfold hasCachedData. by rewrite run_bind, run_getCurrencyData. Qed.

Lemma run_saveCurrencyData from to rates w :
  run env (saveCurrencyData from to rates) w
  = (Returned tt, afterCacheWrite env from to rates w).
Proof. done. Qed.

Lemma cachedData_afterCacheWrite from to rates w :
  cachedData from to (afterCacheWrite env from to rates w)
  = Some {| pair := (from, to); rates := rates;
            lastUpdated := now env (S (tick w)) |}.
Proof. unfold cachedData, afterCacheWrite. simpl. by rewrite lookup_insert_eq. Qed.

Lemma cachedData_afterCacheRead from to from' to' w :
  cachedData from to (afterCacheRead from' to' w) = cachedData from to w.
Proof. done. Qed.

(** The backend adapter never throws. *)
Lemma fetchRatesFromBackend_returns from to startDate endDate w :
  ∃ rows, (run env (fetchRatesFromBackend from to startDate endDate) w).1 = Returned rows.
Proof.
  unfold fetchRatesFromBackend. rewrite run_tryCatch.
  destruct (run env _ w) as [[rows|err] w']; simpl; eauto.
Qed.

Lemma saveRatesToBackend_returns rates w :
  ∃ saved, (run env (saveRatesToBackend rates) w).1 = Returned saved.
Proof.
  unfold saveRatesToBackend. rewrite run_tryCatch.
  destruct (run env _ w) as [[saved|err] w']; simpl; eauto.
Qed.

(** Footprints. *)

Lemma fetchFromApi_sparesCache from to : asksOnly sparesCache (fetchFromApi env from to).
Proof.
  unfold fetchFromApi, canMakeApiCall, getTimeUntilNextCall, recordApiCall, loadData,
    freshData, getTodayDate, saveData.
  asks.
Qed.

Lemma fetchFromApi_sparesMetadata from to :
  asksOnly sparesMetadata (fetchFromApi env from to).
Proof.
  unfold fetchFromApi, canMakeApiCall, getTimeUntilNextCall, recordApiCall, loadData,
    freshData, getTodayDate, saveData.
  asks.
Qed.

Lemma fetchRatesFromBackend_sparesCache from to startDate endDate :
  asksOnly sparesCache (fetchRatesFromBackend from to startDate endDate).
Proof. unfold fetchRatesFromBackend. asks. Qed.

Lemma fetchRatesFromBackend_sparesBudget from to startDate endDate :
  asksOnly sparesBudget (fetchRatesFromBackend from to startDate endDate).
Proof. unfold fetchRatesFromBackend. asks. Qed.

Lemma saveRatesToBackend_sparesCache rates : asksOnly sparesCache (saveRatesToBackend rates).
Proof. unfold saveRatesToBackend. asks. Qed.

Lemma saveRatesToBackend_sparesBudget rates : asksOnly sparesBudget (saveRatesToBackend rates).
Proof. unfold saveRatesToBackend. asks. Qed.

Lemma hasCachedData_sparesBudget from to : asksOnly sparesBudget (hasCachedData from to).
Proof. unfold hasCachedData, getCurrencyData. asks. Qed.

Lemma saveCurrencyData_sparesBudget from to rates :
  asksOnly sparesBudget (saveCurrencyData from to rates).
Proof. unfold saveCurrencyData. asks. Qed.

(** What the footprints keep. *)

Lemma sparesCache_keeps {A} (p : Prog A) w :
  asksOnly sparesCache p → currencyData (run env p w).2 = currencyData w.
Proof.
  intros Hp. symmetry.
  apply (run_respects env sparesCache (λ w w', currencyData w = currencyData w'));
    [done|by intros ??? -> |..|done].
  by intros X [] w0.
Qed.

Lemma sparesMetadata_keeps {A} (p : Prog A) w :
  asksOnly sparesMetadata p → metadata (run env p w).2 = metadata w.
Proof.
  intros Hp. symmetry.
  apply (run_respects env sparesMetadata (λ w w', metadata w = metadata w'));
    [done|by intros ??? -> |..|done].
  by intros X [] w0.
Qed.

Lemma sparesBudget_keeps_localStorage {A} (p : Prog A) w :
  asksOnly sparesBudget p → localStorage (run env p w).2 = localStorage w.
Proof.
  intros Hp. symmetry.
  apply (run_respects env sparesBudget (λ w w', localStorage w = localStorage w'));
    [done|by intros ??? -> |..|done].
  by intros X [] w0.
Qed.

End ServiceLaws.

(** ** [fetchFromApi] and the budget *)

(** With the day's count at the ceiling or above, [fetchFromApi] throws
    [BudgetExceeded] and the world is what it was: no request went out, the
    counter was not written. *)
Lemma fetchFromApi_over_budget env from to w :
  SAFE_LIMIT ≤ RateLimitData.calls (currentData env w) →
  run env (fetchFromApi env from to) w = (Thrown BudgetExceeded, w).
Proof.
  intros Hcalls. unfold fetchFromApi.
  rewrite run_bind, run_canMakeApiCall.
  by rewrite bool_decide_false by lia.
Qed.

Lemma canMakeApiCall_false env w :
  (run env canMakeApiCall w).1 = Returned false ↔
  SAFE_LIMIT ≤ RateLimitData.calls (currentData env w).
Proof.
  rewrite run_canMakeApiCall. simpl. case_bool_decide; split; (done || lia).
Qed.

Lemma run_Ret env {A} (a : A) w : run env (Ret a) w = (Returned a, w).
Proof. done. Qed.

Lemma run_Throw env {A} err w : run env (Throw err : Prog A) w = (Thrown err, w).
Proof. done. Qed.

(** One step of a run, by the laws above. *)
Ltac run_step :=
  first [ rewrite run_bind | rewrite run_tryCatch | rewrite run_Ret | rewrite run_Throw
        | rewrite run_getCurrencyData | rewrite run_hasCachedData
        | rewrite run_saveCurrencyData | rewrite run_canMakeApiCall
        | rewrite run_recordApiCall | rewrite run_getTimeUntilNextCall
        | rewrite run_getCallsToday | rewrite run_loadData ];
  cbv beta iota.

(** ** Case 3 of [getCurrencyPairData] *)

(** C1, as amended. For a base-relative pair [(X, base)] whose budget is
    exhausted when the cache has been read, a forced refresh sends no request
    and does not write the counter (the world only records the cache read);
    it throws [BudgetExceeded] when the cache holds no non-empty series for
    the pair, and returns the cached series when it does. *)
Theorem forced_refresh_over_budget env (X : CurrencyCode) (w : World) :
  X ≠ BASE_CURRENCY →
  (run env canMakeApiCall (afterCacheRead X BASE_CURRENCY w)).1 = Returned false →
  run env (getCurrencyPairData env X BASE_CURRENCY true) w
  = (match cachedData X BASE_CURRENCY w with
     | Some cached =>
         if bool_decide (0 < length (rates cached))%nat
         then Returned (rates cached) else Thrown BudgetExceeded
     | None => Thrown BudgetExceeded
     end,
     afterCacheRead X BASE_CURRENCY w).
Proof.
  intros HX Hbudget%canMakeApiCall_false.
  rewrite getCurrencyPairData_direct by done. unfold directLookup.
  do 2 run_step. rewrite andb_false_r. simpl negb. cbv iota. do 2 run_step.
  simpl orb. cbv iota. do 2 run_step.
  rewrite fetchFromApi_over_budget by done. cbv iota.
  destruct (cachedData X BASE_CURRENCY w) as [cached|]; simpl; [|done].
  by case_bool_decide.
Qed.

Lemma forced_refresh_over_budget_witness :
  EUR ≠ BASE_CURRENCY
  ∧ (run offlineEnv canMakeApiCall (afterCacheRead EUR BASE_CURRENCY exhaustedEmptyWorld)).1
    = Returned false
  ∧ run offlineEnv (getCurrencyPairData offlineEnv EUR BASE_CURRENCY true) exhaustedEmptyWorld
    = (Thrown BudgetExceeded, afterCacheRead EUR BASE_CURRENCY exhaustedEmptyWorld).
Proof.
  split; [done|]. split; [reflexivity|].
  exact (forced_refresh_over_budget offlineEnv EUR exhaustedEmptyWorld
           ltac:(done) ltac:(reflexivity)).
Defined.

(** C1, as stated, fails: with the counter at the ceiling and a series cached
    for EUR/USD, the forced refresh of EUR/USD returns the cached series
    instead of throwing [BudgetExceeded]. *)
Lemma forced_refresh_serves_stale_cache :
  (run offlineEnv canMakeApiCall exhaustedWorld).1 = Returned false
  ∧ (run offlineEnv (hasCachedData EUR BASE_CURRENCY) exhaustedWorld).1 = Returned true
  ∧ (run offlineEnv (getCurrencyPairData offlineEnv EUR BASE_CURRENCY true) exhaustedWorld).1
    = Returned seriesD123
  ∧ (run offlineEnv (getCurrencyPairData offlineEnv EUR BASE_CURRENCY true) exhaustedWorld).1
    ≠ Thrown BudgetExceeded.
Proof. by vm_compute. Qed.

(** C8. When the cache has no data for a base-relative pair, refresh is not
    forced and the backend adapter returns a non-empty series, the resolution
    returns exactly that series: one record for every row, in the order of
    the rows, with the row's date, open, high, low and close. It stores that
    series under the pair, so that [hasCachedData] of the pair is true
    afterwards. *)
Theorem backend_rows_are_adopted env (X : CurrencyCode) (w : World)
    (rows : list ExchangeRateRecord.t) :
  X ≠ BASE_CURRENCY →
  (run env (hasCachedData X BASE_CURRENCY) w).1 = Returned false →
  (run env (fetchRatesFromBackend (code X) (code BASE_CURRENCY) None None)
       (afterCacheRead X BASE_CURRENCY w)).1 = Returned rows →
  rows ≠ [] →
  ∃ w',
    run env (getCurrencyPairData env X BASE_CURRENCY false) w
    = (Returned ((λ row, {| date := ExchangeRateRecord.date row;
                            open := ExchangeRateRecord.open row;
                            high := ExchangeRateRecord.high row;
                            low := ExchangeRateRecord.low row;
                            close := ExchangeRateRecord.close row |}) <$> rows), w')
    ∧ (run env (hasCachedData X BASE_CURRENCY) w').1 = Returned true
    ∧ rates <$> cachedData X BASE_CURRENCY w'
      = Some ((λ row, {| date := ExchangeRateRecord.date row;
                         open := ExchangeRateRecord.open row;
                         high := ExchangeRateRecord.high row;
                         low := ExchangeRateRecord.low row;
                         close := ExchangeRateRecord.close row |}) <$> rows).
Proof.
  intros HX Hmiss Hrows Hne.
  rewrite run_hasCachedData in Hmiss. simpl in Hmiss. injection Hmiss as Hmiss.
  rewrite getCurrencyPairData_direct by done. unfold directLookup.
  do 2 run_step. rewrite Hmiss. simpl andb. simpl negb. cbv iota.
  do 3 run_step.
  destruct (run env (fetchRatesFromBackend _ _ _ _) _) as [[rows'|err] w2]; [|done].
  simpl in Hrows. injection Hrows as ->. cbv iota.
  rewrite bool_decide_true by (destruct rows; [done|simpl; lia]).
  cbv zeta. do 4 run_step.
  eexists. split; [reflexivity|].
  rewrite run_hasCachedData, cachedData_afterCacheWrite. simpl.
  split; [|done]. f_equal. apply bool_decide_true.
  rewrite length_fmap. destruct rows; [done|simpl; lia].
Qed.

Lemma backend_rows_are_adopted_witness :
  length backendRows100 = 100%nat
  ∧ ∃ w',
      run backendEnv (getCurrencyPairData backendEnv EUR BASE_CURRENCY false) emptyWorld
      = (Returned ((λ row, {| date := ExchangeRateRecord.date row;
                              open := ExchangeRateRecord.open row;
                              high := ExchangeRateRecord.high row;
                              low := ExchangeRateRecord.low row;
                              close := ExchangeRateRecord.close row |})
                     <$> backendRows100), w')
      ∧ (run backendEnv (hasCachedData EUR BASE_CURRENCY) w').1 = Returned true
      ∧ rates <$> cachedData EUR BASE_CURRENCY w'
        = Some ((λ row, {| date := ExchangeRateRecord.date row;
                           open := ExchangeRateRecord.open row;
                           high := ExchangeRateRecord.high row;
                           low := ExchangeRateRecord.low row;
                           close := ExchangeRateRecord.close row |})
                  <$> backendRows100).
Proof.
  split; [reflexivity|].
  apply (backend_rows_are_adopted backendEnv EUR emptyWorld backendRows100).
  - done.
  - reflexivity.
  - vm_compute. reflexivity.
  - done.
Defined.

(** ** Counting the requests of a run *)

Section Counting.
Variable env : Env.

Lemma sparesBudget_keeps_providerCount {A} (p : Prog A) w :
  asksOnly sparesBudget p → providerCount (run env p w).2 = providerCount w.
Proof.
  intros Hp. symmetry.
  apply (run_respects env sparesBudget (λ w w', providerCount w = providerCount w'));
    [done|by intros ??? -> |..|done].
  by intros X [] w0.
Qed.

Lemma sparesBackendReads_keeps_count {A} (p : Prog A) w :
  asksOnly sparesBackendReads p → backendReadCount (run env p w).2 = backendReadCount w.
Proof.
  intros Hp. symmetry.
  apply (run_respects env sparesBackendReads
           (λ w w', backendReadCount w = backendReadCount w'));
    [done|by intros ??? -> |..|done].
  by intros X [] w0.
Qed.

Lemma fetchFromApi_sparesBackendReads from to :
  asksOnly sparesBackendReads (fetchFromApi env from to).
Proof.
  unfold fetchFromApi, canMakeApiCall, getTimeUntilNextCall, recordApiCall, loadData,
    freshData, getTodayDate, saveData.
  asks.
Qed.

Lemma saveRatesToBackend_sparesBackendReads rates :
  asksOnly sparesBackendReads (saveRatesToBackend rates).
Proof. unfold saveRatesToBackend. asks. Qed.

(** [fetchFromApi] sends at most one request. *)
Lemma fetchFromApi_providerCount from to w :
  (providerCount (run env (fetchFromApi env from to) w).2 ≤ providerCount w + 1)%nat.
Proof.
  unfold providerCount, fetchFromApi, canMakeApiCall, getTimeUntilNextCall, recordApiCall,
    loadData, freshData, getTodayDate, saveData. simpl.
  repeat (case_match; simpl; try lia).
Qed.

(** [fetchRatesFromBackend] reads the backend once. *)
Lemma fetchRatesFromBackend_backendReadCount from to startDate endDate w :
  backendReadCount (run env (fetchRatesFromBackend from to startDate endDate) w).2
  = S (backendReadCount w).
Proof.
  unfold backendReadCount, fetchRatesFromBackend. simpl.
  repeat (case_match; simpl; try lia).
Qed.

End Counting.

(** ** The first call and the second *)

Section Repeated.
Variable env : Env.

(** The copy to the backend after an external fetch changes neither the
    cache nor the counts, and does not throw. *)
Lemma backend_copy_frame (from to : CurrencyCode) (rates : list DailyRate) w :
  let r := run env
             (if bool_decide (0 < length rates)%nat then
                tryCatch (saveRatesToBackend (toBackendRate from to <$> rates);; Ret tt)
                         (λ backendError, Ret tt)
              else Ret tt) w in
  r.1 = Returned tt ∧ currencyData r.2 = currencyData w
  ∧ providerCount r.2 = providerCount w ∧ backendReadCount r.2 = backendReadCount w.
Proof.
  cbv zeta. split; [|split; [|split]].
  - case_bool_decide; [|done]. rewrite run_tryCatch, run_bind.
    destruct (saveRatesToBackend_returns env (toBackendRate from to <$> rates) w) as [b Hb].
    destruct (run env (saveRatesToBackend _) w) as [o w']. simpl in Hb. by subst o.
  - apply sparesCache_keeps. case_bool_decide; [|done].
    unfold saveRatesToBackend. asks.
  - apply sparesBudget_keeps_providerCount. case_bool_decide; [|done].
    unfold saveRatesToBackend. asks.
  - apply sparesBackendReads_keeps_count. case_bool_decide; [|done].
    unfold saveRatesToBackend. asks.
Qed.

(** The external tier of Case 3, entered without a usable cached series:
    when it returns, the series is in the cache, one request at most went to
    the provider and none to the backend's reader. *)
Lemma external_tier_fills_cache (X : CurrencyCode) (cached : option CurrencyData)
    w rates1 w1 :
  hasRates cached = false →
  run env
    (tryCatch
       (rates ← fetchFromApi env X BASE_CURRENCY;
        saveCurrencyData X BASE_CURRENCY rates;;
        (if bool_decide (0 < length rates)%nat then
           tryCatch (saveRatesToBackend (toBackendRate X BASE_CURRENCY <$> rates);; Ret tt)
                    (λ backendError, Ret tt)
         else Ret tt);;
        Ret rates)
       (λ error, if hasRates cached then Ret (default [] (rates <$> cached))
                 else Throw error)) w
  = (Returned rates1, w1) →
  rates <$> cachedData X BASE_CURRENCY w1 = Some rates1
  ∧ (providerCount w1 ≤ providerCount w + 1)%nat
  ∧ backendReadCount w1 = backendReadCount w.
Proof.
  intros Hmiss. do 2 run_step.
  pose proof (fetchFromApi_providerCount env X BASE_CURRENCY w) as Hp.
  pose proof (sparesBackendReads_keeps_count env _ w
                (fetchFromApi_sparesBackendReads env X BASE_CURRENCY)) as Hb.
  destruct (run env (fetchFromApi env X BASE_CURRENCY) w) as [[rates2|err] w2];
    simpl in Hp, Hb; cbv iota.
  - do 3 run_step.
    destruct (backend_copy_frame X BASE_CURRENCY rates2
                (afterCacheWrite env X BASE_CURRENCY rates2 w2)) as (Ho & Hc & Hp' & Hb').
    destruct (run env _ (afterCacheWrite env X BASE_CURRENCY rates2 w2)) as [o w3].
    cbn [fst snd] in Ho, Hc, Hp', Hb'. subst o. cbv iota. run_step.
    intros [= <- <-]. split; [|split].
    + unfold cachedData. rewrite Hc.
      change (rates <$> cachedData X BASE_CURRENCY
                          (afterCacheWrite env X BASE_CURRENCY rates2 w2) = Some rates2).
      by rewrite cachedData_afterCacheWrite.
    + by rewrite Hp'.
    + by rewrite Hb'.
  - rewrite Hmiss. by run_step.
Qed.

(** A call without forced refresh that returns a non-empty series leaves it
    in the cache, having read the backend at most once and asked the provider
    at most once. *)
Lemma first_call_fills_cache (X : CurrencyCode) w rates1 w1 :
  run env (directLookup env X BASE_CURRENCY false) w = (Returned rates1, w1) →
  rates1 ≠ [] →
  rates <$> cachedData X BASE_CURRENCY w1 = Some rates1
  ∧ (providerCount w1 ≤ providerCount w + 1)%nat
  ∧ (backendReadCount w1 ≤ backendReadCount w + 1)%nat.
Proof.
  unfold directLookup. do 2 run_step.
  destruct (hasRates (cachedData X BASE_CURRENCY w)) eqn:Hhit.
  - simpl andb. cbv iota. run_step. intros [= <- <-] _.
    destruct (cachedData X BASE_CURRENCY w) as [cached|] eqn:Hc; [|done].
    rewrite cachedData_afterCacheRead, Hc. unfold providerCount, backendReadCount.
    simpl. split; [done|lia].
  - simpl andb. simpl negb. cbv iota. do 3 run_step.
    pose proof (sparesCache_keeps env _ (afterCacheRead X BASE_CURRENCY w)
                  (fetchRatesFromBackend_sparesCache
                     (code X) (code BASE_CURRENCY) None None)) as Hc2.
    pose proof (sparesBudget_keeps_providerCount env _ (afterCacheRead X BASE_CURRENCY w)
                  (fetchRatesFromBackend_sparesBudget
                     (code X) (code BASE_CURRENCY) None None)) as Hp2.
    pose proof (fetchRatesFromBackend_backendReadCount env
                  (code X) (code BASE_CURRENCY) None None
                  (afterCacheRead X BASE_CURRENCY w)) as Hb2.
    destruct (run env (fetchRatesFromBackend _ _ _ _) _) as [o2 w2].
    cbn [fst snd] in Hc2, Hp2, Hb2.
    assert (providerCount w2 = providerCount w) as Hp2' by (by rewrite Hp2).
    assert (backendReadCount w2 = S (backendReadCount w)) as Hb2' by (by rewrite Hb2).
    clear Hp2 Hb2.
    destruct o2 as [rows|err]; cbv iota.
    + case_bool_decide as Hrows; cbv zeta.
      * repeat run_step. intros [= <- <-] _. rewrite cachedData_afterCacheWrite.
        unfold providerCount, backendReadCount in *. simpl. split; [done|]. simpl in *. lia.
      * run_step. simpl orb. cbv iota.
        intros Hrun Hne.
        destruct (external_tier_fills_cache X None w2 rates1 w1 eq_refl Hrun) as (? & ? & ?).
        split; [done|]. lia.
    + run_step. simpl orb. cbv iota.
      intros Hrun Hne.
      destruct (external_tier_fills_cache X None w2 rates1 w1 eq_refl Hrun) as (? & ? & ?).
      split; [done|]. lia.
Qed.

(** With a non-empty series cached, a call without forced refresh only
    reads the cache. *)
Lemma cache_hit (X : CurrencyCode) w rates1 :
  rates <$> cachedData X BASE_CURRENCY w = Some rates1 → rates1 ≠ [] →
  run env (directLookup env X BASE_CURRENCY false) w
  = (Returned rates1, afterCacheRead X BASE_CURRENCY w).
Proof.
  intros Hc Hne. unfold directLookup. do 2 run_step.
  destruct (cachedData X BASE_CURRENCY w) as [cached|]; [|done].
  simpl in Hc. injection Hc as Hc. simpl.
  rewrite bool_decide_true; [by rewrite Hc|].
  rewrite Hc. destruct rates1; [done|simpl; lia].
Qed.

End Repeated.

(** C4, as amended. For every currency [X] other than the base: when
    [getCurrencyPairData X base false] returns a non-empty series, the same
    call made next returns the same series and only reads the cache (its
    world differs from the one before by the two awaits of the cache read),
    so that over both calls the provider was asked at most once and the
    backend read at most once. *)
Theorem repeated_call_hits_cache env (X : CurrencyCode) (w w1 : World)
    (rates1 : list DailyRate) :
  X ≠ BASE_CURRENCY →
  run env (getCurrencyPairData env X BASE_CURRENCY false) w = (Returned rates1, w1) →
  rates1 ≠ [] →
  run env (getCurrencyPairData env X BASE_CURRENCY false) w1
  = (Returned rates1, afterCacheRead X BASE_CURRENCY w1)
  ∧ trace (afterCacheRead X BASE_CURRENCY w1)
    = [CacheRead (getPairKey X BASE_CURRENCY); DbOpened] ++ trace w1
  ∧ (providerCount (afterCacheRead X BASE_CURRENCY w1) ≤ providerCount w + 1)%nat
  ∧ (backendReadCount (afterCacheRead X BASE_CURRENCY w1) ≤ backendReadCount w + 1)%nat.
Proof.
  intros HX Hfirst Hne. rewrite getCurrencyPairData_direct in * by done.
  destruct (first_call_fills_cache env X w rates1 w1 Hfirst Hne) as (Hc & Hp & Hb).
  split; [by apply cache_hit|]. split; [done|]. done.
Qed.

Lemma repeated_call_hits_cache_witness :
  EUR ≠ BASE_CURRENCY
  ∧ toDailyRate <$> backendRows100 ≠ []
  ∧ run backendEnv (getCurrencyPairData backendEnv EUR BASE_CURRENCY false)
        (run backendEnv (getCurrencyPairData backendEnv EUR BASE_CURRENCY false)
             emptyWorld).2
    = (Returned (toDailyRate <$> backendRows100),
       afterCacheRead EUR BASE_CURRENCY
         (run backendEnv (getCurrencyPairData backendEnv EUR BASE_CURRENCY false)
              emptyWorld).2).
Proof.
  split; [done|]. split; [done|].
  eapply (repeated_call_hits_cache backendEnv EUR emptyWorld).
  - done.
  - vm_compute. reflexivity.
  - done.
Defined.

(** C4, as stated, fails: the provider answers the first call with a body
    that has no series, so the call returns (and stores) the empty series;
    the next call finds no usable cached series, reads the backend and asks
    the provider again, and returns a different series. *)
Lemma repeated_call_fetches_again :
  (run recoveringEnv (getCurrencyPairData recoveringEnv EUR BASE_CURRENCY false)
       emptyWorld).1 = Returned []
  ∧ (run recoveringEnv (getCurrencyPairData recoveringEnv EUR BASE_CURRENCY false)
         (run recoveringEnv (getCurrencyPairData recoveringEnv EUR BASE_CURRENCY false)
              emptyWorld).2).1
    = Returned [mkDailyRate "2024-04-30" 1.5 1.5 1.5 1.5]
  ∧ providerCount
      (run recoveringEnv (getCurrencyPairData recoveringEnv EUR BASE_CURRENCY false)
         (run recoveringEnv (getCurrencyPairData recoveringEnv EUR BASE_CURRENCY false)
              emptyWorld).2).2 = 2%nat
  ∧ backendReadCount
      (run recoveringEnv (getCurrencyPairData recoveringEnv EUR BASE_CURRENCY false)
         (run recoveringEnv (getCurrencyPairData recoveringEnv EUR BASE_CURRENCY false)
              emptyWorld).2).2 = 2%nat.
Proof. by vm_compute. Qed.

(** ** A cross pair over cached legs *)

(** With both legs cached and non-empty, the two resolutions run together
    return the cached series in whatever order the event loop answers their
    cache reads. *)
Lemma cached_legs_any_schedule env (X Y : CurrencyCode) w fromLeg toLeg :
  rates <$> cachedData X BASE_CURRENCY w = Some fromLeg → fromLeg ≠ [] →
  rates <$> cachedData Y BASE_CURRENCY w = Some toLeg → toLeg ≠ [] →
  (run env (all2 (directLookup env X BASE_CURRENCY false)
                 (directLookup env Y BASE_CURRENCY false)) w).1
  = Returned (fromLeg, toLeg).
Proof.
  unfold cachedData. intros HX HfromLeg HY HtoLeg.
  destruct (currencyData w !! getPairKey X BASE_CURRENCY) as [dx|] eqn:Ex; [|done].
  destruct (currencyData w !! getPairKey Y BASE_CURRENCY) as [dy|] eqn:Ey; [|done].
  simpl in HX, HY. injection HX as HX. injection HY as HY.
  assert (bool_decide (0 < length (stored_rates dx))%nat = true) as Hx.
  { apply bool_decide_true. rewrite HX. destruct fromLeg; [done|simpl; lia]. }
  assert (bool_decide (0 < length (stored_rates dy))%nat = true) as Hy.
  { apply bool_decide_true. rewrite HY. destruct toLeg; [done|simpl; lia]. }
  unfold directLookup, getCurrencyData. simpl.
  repeat (first [ rewrite Ex | rewrite Ey | rewrite Hx | rewrite Hy
                | match goal with
                  | |- context [firstLegResumes env ?t] => destruct (firstLegResumes env t)
                  end ]; simpl).
  all: by rewrite ?HX, ?HY.
Qed.

(** So the cross pair of two cached legs is [calculateCrossRate] of what each
    leg returns when resolved alone. *)
Lemma cross_pair_of_cached_legs env (X Y : CurrencyCode) w fromLeg toLeg :
  X ≠ BASE_CURRENCY → Y ≠ BASE_CURRENCY → X ≠ Y →
  rates <$> cachedData X BASE_CURRENCY w = Some fromLeg → fromLeg ≠ [] →
  rates <$> cachedData Y BASE_CURRENCY w = Some toLeg → toLeg ≠ [] →
  (run env (getCurrencyPairData env X BASE_CURRENCY false) w).1 = Returned fromLeg
  ∧ (run env (getCurrencyPairData env Y BASE_CURRENCY false) w).1 = Returned toLeg
  ∧ (run env (getCurrencyPairData env X Y false) w).1
    = Returned (calculateCrossRate fromLeg toLeg).
Proof.
  intros HX HY HXY Hfrom HfromLeg Hto HtoLeg.
  rewrite (getCurrencyPairData_cross env X Y false), run_bind by done.
  rewrite !getCurrencyPairData_direct by done.
  rewrite (cache_hit env X w fromLeg), (cache_hit env Y w toLeg) by done.
  split; [done|]. split; [done|].
  pose proof (cached_legs_any_schedule env X Y w fromLeg toLeg
                Hfrom HfromLeg Hto HtoLeg) as Hlegs.
  destruct (run env (all2 _ _) w) as [o w']. simpl in Hlegs. subst o. cbv iota.
  destruct fromLeg; [done|]. by destruct toLeg.
Qed.

(** ** The blocking batch refresh *)

Section Batch.
Variable env : Env.

Lemma fetchFromApi_sparesCallbacks from to :
  asksOnly sparesCallbacks (fetchFromApi env from to).
Proof.
  unfold fetchFromApi, canMakeApiCall, getTimeUntilNextCall, recordApiCall, loadData,
    freshData, getTodayDate, saveData.
  asks.
Qed.

Lemma sparesCallbacks_keeps_progress {A} (p : Prog A) w :
  asksOnly sparesCallbacks p →
  progressReports (trace (run env p w).2) = progressReports (trace w).
Proof.
  intros Hp. symmetry.
  apply (run_respects env sparesCallbacks
           (λ w w', progressReports (trace w) = progressReports (trace w')));
    [done|by intros ??? -> |..|done].
  by intros X [] w0.
Qed.

Lemma sparesCallbacks_keeps_completions {A} (p : Prog A) w :
  asksOnly sparesCallbacks p →
  completions (trace (run env p w).2) = completions (trace w).
Proof.
  intros Hp. symmetry.
  apply (run_respects env sparesCallbacks
           (λ w w', completions (trace w) = completions (trace w')));
    [done|by intros ??? -> |..|done].
  by intros X [] w0.
Qed.

(** [fetchFromApi from to] asks the provider at most once, for [(from, to)]. *)
Lemma fetchFromApi_providerRequests from to w :
  ∃ asked, providerRequests (trace (run env (fetchFromApi env from to) w).2)
           = asked ++ providerRequests (trace w)
           ∧ (asked = [] ∨ asked = [(from, to)]).
Proof.
  unfold fetchFromApi, canMakeApiCall, getTimeUntilNextCall, recordApiCall,
    loadData, freshData, getTodayDate, saveData. simpl.
  repeat (case_match; simpl);
    first [ by exists []; auto | by exists [(from, to)]; auto ].
Qed.

(** One item of the batch: it does not throw, reports once, and counts the
    item as a success or as a failure. *)
Lemma batch_item (onProgress : bool) (total : Z) (currency : CurrencyCode)
    (current success failed : Z) w :
  ∃ success' failed' w' asked,
    run env
      (tryCatch
         (rates ← fetchFromApi env currency BASE_CURRENCY;
          saveCurrencyData currency BASE_CURRENCY rates;;
          let success := success + 1 in
          let current := current + 1 in
          reportProgress onProgress current total (code currency);;
          Ret (current, success, failed))
         (λ error,
            let failed := failed + 1 in
            let current := current + 1 in
            reportProgress onProgress current total (code currency);;
            Ret (current, success, failed))) w
    = (Returned (current + 1, success', failed'), w')
    ∧ (success' = success + 1 ∧ failed' = failed
       ∨ success' = success ∧ failed' = failed + 1)
    ∧ metadata w' = metadata w
    ∧ progressReports (trace w')
      = (if onProgress then [(current + 1, total, code currency)] else [])
        ++ progressReports (trace w)
    ∧ providerRequests (trace w') = asked ++ providerRequests (trace w)
    ∧ (asked = [] ∨ asked = [(currency, BASE_CURRENCY)]).
Proof.
  do 2 run_step.
  pose proof (sparesMetadata_keeps env _ w
                (fetchFromApi_sparesMetadata env currency BASE_CURRENCY)) as Hm.
  pose proof (sparesCallbacks_keeps_progress _ w
                (fetchFromApi_sparesCallbacks currency BASE_CURRENCY)) as Hr.
  destruct (fetchFromApi_providerRequests currency BASE_CURRENCY w) as (asked & Hq & Hasked).
  destruct (run env (fetchFromApi env currency BASE_CURRENCY) w) as [[rates1|err] w1];
    cbn [fst snd] in Hm, Hr, Hq; cbv iota.
  - do 2 run_step. cbv zeta. run_step.
    destruct onProgress; simpl; eexists _, _, _, asked;
      (split; [reflexivity|]); simpl; rewrite ?Hr, ?Hq; auto 10.
  - cbv zeta. run_step.
    destruct onProgress; simpl; eexists _, _, _, asked;
      (split; [reflexivity|]); simpl; rewrite ?Hr, ?Hq; auto 10.
Qed.

(** The loop: every item is taken once, in order. *)
Lemma batch_loop (onProgress : bool) (total : Z)
    (body : CurrencyCode → Z * Z * Z → Prog (Z * Z * Z)) :
  (∀ currency current success failed w, ∃ success' failed' w' asked,
      run env (body currency (current, success, failed)) w
      = (Returned (current + 1, success', failed'), w')
      ∧ (success' = success + 1 ∧ failed' = failed
         ∨ success' = success ∧ failed' = failed + 1)
      ∧ metadata w' = metadata w
      ∧ progressReports (trace w')
        = (if onProgress then [(current + 1, total, code currency)] else [])
          ++ progressReports (trace w)
      ∧ providerRequests (trace w') = asked ++ providerRequests (trace w)
      ∧ (asked = [] ∨ asked = [(currency, BASE_CURRENCY)])) →
  ∀ currencies current success failed w, ∃ success' failed' w' asked,
    run env (forOf currencies body (current, success, failed)) w
    = (Returned (current + Z.of_nat (length currencies), success', failed'), w')
    ∧ success' + failed' = success + failed + Z.of_nat (length currencies)
    ∧ success ≤ success' ∧ failed ≤ failed'
    ∧ metadata w' = metadata w
    ∧ progressReports (trace w')
      = (if onProgress then reverse (reportsFrom current total currencies) else [])
        ++ progressReports (trace w)
    ∧ providerRequests (trace w') = asked ++ providerRequests (trace w)
    ∧ sublist (reverse asked) ((λ c, (c, BASE_CURRENCY)) <$> currencies).
Proof.
  intros Hbody currencies.
  induction currencies as [|currency currencies IH]; intros current success failed w.
  - exists success, failed, w, []. simpl. rewrite Z.add_0_r.
    repeat split; try done; try lia. by destruct onProgress.
  - rewrite run_forOf_cons.
    destruct (Hbody currency current success failed w)
      as (success1 & failed1 & w1 & asked1 & -> & Hcount & Hm & Hr & Hq & Ha).
    destruct (IH (current + 1) success1 failed1 w1)
      as (success2 & failed2 & w2 & asked2 & -> & Hsum & Hs & Hf & Hm2 & Hr2 & Hq2 & Ha2).
    exists success2, failed2, w2, (asked2 ++ asked1).
    rewrite length_cons, Nat2Z.inj_succ.
    assert (current + 1 + Z.of_nat (length currencies)
            = current + Z.succ (Z.of_nat (length currencies))) as -> by lia.
    split; [done|]. repeat split; try lia.
    + congruence.
    + rewrite Hr2, Hr. destruct onProgress; [|done].
      simpl. rewrite reverse_cons, <- app_assoc. done.
    + rewrite Hq2, Hq. by rewrite app_assoc.
    + rewrite reverse_app, fmap_cons. destruct Ha as [-> | ->]; simpl.
      * by apply sublist_cons.
      * by apply sublist_skip.
Qed.

End Batch.

(** Two runs of the batch: with two calls left, two currencies are fetched
    and six fail on the budget, every one is reported and the marker stays
    unset; with the whole budget, all eight succeed and the marker is set. *)
Example batch_refresh_with_two_calls_left :
  (run alternatingEnv (prefetchBasePairs alternatingEnv true true) twoCallsLeftWorld).1
  = Returned (2, 6)
  ∧ metadata (run alternatingEnv (prefetchBasePairs alternatingEnv true true)
                  twoCallsLeftWorld).2 !! "lastBatchUpdateDate" = None
  ∧ reverse (providerRequests
               (trace (run alternatingEnv (prefetchBasePairs alternatingEnv true true)
                           twoCallsLeftWorld).2))
    = [(EUR, USD); (GBP, USD)]
  ∧ length (progressReports
              (trace (run alternatingEnv (prefetchBasePairs alternatingEnv true true)
                          twoCallsLeftWorld).2)) = 8%nat.
Proof. by vm_compute. Qed.

Example batch_refresh_with_full_budget :
  (run alternatingEnv (prefetchBasePairs alternatingEnv true true) emptyWorld).1
  = Returned (8, 0)
  ∧ metadata (run alternatingEnv (prefetchBasePairs alternatingEnv true true)
                  emptyWorld).2 !! "lastBatchUpdateDate" = Some "2024-05-01".
Proof. by vm_compute. Qed.

(** ** The background sync *)

Section Background.
Variable env : Env.

Lemma getPairKey_base_inj (c c' : CurrencyCode) :
  getPairKey c BASE_CURRENCY = getPairKey c' BASE_CURRENCY → c = c'.
Proof. by destruct c, c'. Qed.

Lemma cachedData_afterCacheWrite_ne (c c' : CurrencyCode) rates w :
  c' ≠ c →
  cachedData c' BASE_CURRENCY (afterCacheWrite env c BASE_CURRENCY rates w)
  = cachedData c' BASE_CURRENCY w.
Proof.
  intros Hne. unfold cachedData, afterCacheWrite. simpl.
  rewrite lookup_insert_ne; [done|]. by intros ?%getPairKey_base_inj.
Qed.


Lemma filter_agree {A} (P1 P2 : A → Prop)
    `{!∀ x, Decision (P1 x), !∀ x, Decision (P2 x)} (l : list A) :
  (∀ x, x ∈ l → P1 x ↔ P2 x) → filter P1 l = filter P2 l.
Proof.
  induction l as [|a l IH]; intros Hiff; [done|].
  rewrite !filter_cons, IH by (intros x Hx; apply Hiff; by right).
  destruct (decide (P1 a)) as [H1|H1], (decide (P2 a)) as [H2|H2]; try done;
    exfalso; apply (Hiff a) in H1 || apply (Hiff a) in H2; try done; by left.
Qed.


End Background.


(** A run of the background sync, JPY first: EUR/USD and JPY/USD are
    resident, the backend has nothing for the six others. *)
Example background_sync_with_two_resident :
  completions (trace (run backendEnv (backgroundSyncFromBackend true (Some JPY))
                          crossWorld).2) = [(2, 6, 0)]
  ∧ backendReadCount (run backendEnv (backgroundSyncFromBackend true (Some JPY))
                          crossWorld).2 = 6%nat
  ∧ providerCount (run backendEnv (backgroundSyncFromBackend true (Some JPY))
                       crossWorld).2 = 0%nat.
Proof. by vm_compute. Qed.

(** ** The ceiling *)

(** Calls of [fetchFromApi] that do not overlap keep the day's count at or
    below the ceiling, as long as the day does not change meanwhile. *)
Lemma fetchFromApi_keeps_ceiling env from to w :
  (∀ t, todayIso env t = todayIso env 0%nat) →
  RateLimitData.calls (currentData env w) ≤ SAFE_LIMIT →
  RateLimitData.calls (currentData env (run env (fetchFromApi env from to) w).2)
  ≤ SAFE_LIMIT.
Proof.
  intros Hday Hinv. unfold fetchFromApi. do 2 run_step.
  case_bool_decide as Hroom; simpl negb; cbv iota; [|by run_step].
  do 3 run_step.
  assert (∀ w', localStorage w' = localStorage w → currentData env w' = currentData env w)
    as Hsame.
  { intros w' Hls. unfold currentData. by rewrite Hls, !(Hday (tick _)). }
  assert (∀ (w' : World) (d : RateLimitData.t),
            RateLimitData.date d = todayIso env 0%nat →
            localStorage w' !! STORAGE_KEY = Some d →
            currentData env w' = d) as Hstored.
  { intros w' d Hd Hl. unfold currentData. rewrite Hl, (Hday (tick _)).
    by rewrite bool_decide_false by (by rewrite Hd; intros []). }
  assert (RateLimitData.date (currentData env w) = todayIso env 0%nat) as Hdate.
  { unfold currentData. rewrite (Hday (tick _)).
    destruct (localStorage w !! STORAGE_KEY) as [d|]; [|done].
    by case_bool_decide. }
  assert (∃ w2, localStorage w2 = localStorage w
                ∧ run env (if bool_decide
                                (0 < Z.max 0 (12000 - (now env (tick w)
                                      - RateLimitData.lastCall (currentData env w))))
                           then perform (SetTimeout (Z.max 0 (12000 - (now env (tick w)
                                      - RateLimitData.lastCall (currentData env w)))))
                           else Ret tt) w = (Returned tt, w2)) as (w2 & Hls2 & ->).
  { case_bool_decide; eexists; (split; [|reflexivity]); done. }
  cbv iota. run_step. rewrite run_perform. cbv iota. simpl handle. cbn [fst snd].
  destruct (provider env (tick w2) from to) as [response|]; [|by rewrite Hsame].
  do 2 run_step. rewrite (Hsame (answered _)) by done.
  match goal with
  | |- context [setItem STORAGE_KEY ?d ?w0] => set (w3 := setItem STORAGE_KEY d w0)
  end.
  assert (∀ w', localStorage w' = localStorage w3 →
                RateLimitData.calls (currentData env w') ≤ SAFE_LIMIT) as Hdone.
  { intros w' Hls. erewrite Hstored; [..|rewrite Hls; apply lookup_insert_eq]; simpl; [lia|done]. }
  destruct (ok response); simpl negb; cbv iota; [|by apply Hdone].
  run_step. rewrite run_perform. cbv iota. simpl handle. cbn [fst snd].
  destruct (json response) as [body|]; [|by apply Hdone].
  destruct (truthy (Note body)); [by apply Hdone|].
  destruct (truthy (ErrorMessage body)); by apply Hdone.
Qed.

(** C5, first part. When the day's count equals the ceiling (or is above
    it), [fetchFromApi] throws [BudgetExceeded] and leaves the world as it
    was, trace and counter included: no request was sent, no call recorded. *)
Lemma fetchFromApi_at_ceiling env (from to : CurrencyCode) (w : World) (n : Z) :
  (run env getCallsToday w).1 = Returned n → SAFE_LIMIT ≤ n →
  run env (fetchFromApi env from to) w = (Thrown BudgetExceeded, w).
Proof.
  rewrite run_getCallsToday. intros [= <-] Hn. by apply fetchFromApi_over_budget.
Qed.

(** C5, second part, fails on the code. With one call left (23 of 24), a
    forced refresh of the cross pair EUR/GBP runs its two legs together:
    each leg checks the budget when its cache read is answered, before the
    other leg's response has been recorded, so both pass the check, both
    requests go out, and the day's count ends at 25, above the ceiling. *)
Theorem concurrent_legs_pass_the_ceiling :
  SAFE_LIMIT = 24
  ∧ (run alternatingEnv getCallsToday oneCallLeftWorld).1 = Returned 23
  ∧ (run alternatingEnv getCallsToday
       (run alternatingEnv (getCurrencyPairData alternatingEnv EUR GBP true)
            oneCallLeftWorld).2).1 = Returned 25
  ∧ providerRequests
      (trace (run alternatingEnv (getCurrencyPairData alternatingEnv EUR GBP true)
                  oneCallLeftWorld).2)
    = [(GBP, USD); (EUR, USD)].
Proof. by vm_compute. Qed.

(** The same refresh with the legs one after the other (the first leg's
    awaits all answered before the second leg's first): the second leg finds
    the budget used up and the count stays at the ceiling. *)
Lemma sequential_legs_stop_at_the_ceiling :
  (run offlineEnv getCallsToday oneCallLeftWorld).1 = Returned 23
  ∧ (run alternatingEnv getCallsToday
       (run alternatingEnv
            (getCurrencyPairData alternatingEnv EUR USD true;;
             getCurrencyPairData alternatingEnv GBP USD true)
            oneCallLeftWorld).2).1 = Returned 24.
Proof. by vm_compute. Qed.

(** * The rest of the services: properties *)

(** ** rateLimiter.ts *)

Section RateLimiterLaws.
Variable env : Env.

Lemma run_getRemainingCalls w :
  run env getRemainingCalls w
  = (Returned (Z.max 0 (SAFE_LIMIT - RateLimitData.calls (currentData env w))), w).
Proof. unfold getRemainingCalls. by rewrite run_bind, run_loadData. Qed.

Lemma run_getLastCallTime w :
  run env getLastCallTime w = (Returned (RateLimitData.lastCall (currentData env w)), w).
Proof. unfold getLastCallTime. by rewrite run_bind, run_loadData. Qed.

Lemma run_canCallNow minIntervalMs w :
  run env (canCallNow minIntervalMs) w
  = (Returned (bool_decide (minIntervalMs
                            ≤ now env (tick w) - RateLimitData.lastCall (currentData env w))),
     w).
Proof. unfold canCallNow. by rewrite run_bind, run_loadData. Qed.

Lemma run_resetDailyCounter w :
  run env resetDailyCounter w
  = (Returned tt, setItem STORAGE_KEY (RateLimitData.mk (todayIso env (tick w)) 0 0) w).
Proof. done. Qed.

(** The item written by this code on a day is what [loadData] returns for
    the rest of the turn (no await in between, so the day is the same). *)
Lemma currentData_setItem d w :
  RateLimitData.date d = todayIso env (tick w) →
  currentData env (setItem STORAGE_KEY d w) = d.
Proof.
  intros Hd. unfold currentData. simpl. rewrite lookup_insert_eq.
  rewrite bool_decide_false; [done|]. by intros [].
Qed.

Lemma currentData_date w : RateLimitData.date (currentData env w) = todayIso env (tick w).
Proof.
  unfold currentData. destruct (localStorage w !! STORAGE_KEY) as [d|]; [|done].
  by case_bool_decide.
Qed.

End RateLimiterLaws.

(** X1. [recordApiCall] counts one call. With the day's count [calls] in
    the range where [+= 1] is exact on a binary64 number (from -2^53 up to,
    not including, 2^53), it stores
    [{ date: today, calls: calls + 1, lastCall: Date.now() }] and writes
    nothing else. In every later world that still holds that item, on the
    same day, [getCallsToday] reads [calls + 1] and [getLastCallTime] the
    clock's reading at the call; with [elapsed] the time on the clock since
    that reading, [getTimeUntilNextCall m] is [max(0, m - elapsed)] and
    [canCallNow m] tells whether [m <= elapsed]. *)
Theorem recordApiCall_counts_one_call env (w later : World) (calls minIntervalMs : Z) :
  (run env getCallsToday w).1 = Returned calls →
  - 2 ^ 53 ≤ calls < 2 ^ 53 →
  ∃ w',
    run env recordApiCall w = (Returned tt, w')
    ∧ localStorage w'
      = <[STORAGE_KEY := RateLimitData.mk (todayIso env (tick w)) (calls + 1)
                                          (now env (tick w))]> (localStorage w)
    ∧ currencyData w' = currencyData w ∧ metadata w' = metadata w
    ∧ trace w' = trace w ∧ tick w' = tick w
    ∧ (localStorage later !! STORAGE_KEY = localStorage w' !! STORAGE_KEY →
       todayIso env (tick later) = todayIso env (tick w) →
       run env getCallsToday later = (Returned (calls + 1), later)
       ∧ run env getLastCallTime later = (Returned (now env (tick w)), later)
       ∧ run env (getTimeUntilNextCall minIntervalMs) later
         = (Returned (Z.max 0 (minIntervalMs - (now env (tick later) - now env (tick w)))),
            later)
       ∧ run env (canCallNow minIntervalMs) later
         = (Returned (bool_decide (minIntervalMs
                                   ≤ now env (tick later) - now env (tick w))), later)).
Proof.
  rewrite run_getCallsToday. intros [= <-] _.
  rewrite run_recordApiCall. eexists. split; [reflexivity|].
  cbn [localStorage currencyData metadata trace tick setItem].
  rewrite currentData_date.
  split; [done|]. split; [done|]. split; [done|]. split; [done|]. split; [done|].
  rewrite lookup_insert_eq. intros Hitem Hday.
  assert (currentData env later
          = RateLimitData.mk (todayIso env (tick w))
              (RateLimitData.calls (currentData env w) + 1) (now env (tick w))) as Hcur.
  { unfold currentData at 1. rewrite Hitem. cbn [RateLimitData.date].
    by rewrite bool_decide_false by (intros Hne; by apply Hne). }
  by rewrite run_getCallsToday, run_getLastCallTime, run_getTimeUntilNextCall,
    run_canCallNow, Hcur.
Qed.

Lemma recordApiCall_counts_one_call_witness :
  (run offlineEnv getCallsToday twoCallsLeftWorld).1 = Returned 22
  ∧ (run offlineEnv getCallsToday (run offlineEnv recordApiCall twoCallsLeftWorld).2).1
    = Returned 23
  ∧ (run offlineEnv (getTimeUntilNextCall 12000)
       (run offlineEnv recordApiCall twoCallsLeftWorld).2).1 = Returned 12000.
Proof.
  destruct (recordApiCall_counts_one_call offlineEnv twoCallsLeftWorld
              (run offlineEnv recordApiCall twoCallsLeftWorld).2 22 12000
              ltac:(reflexivity) ltac:(lia))
    as (w' & Hrun & _ & _ & _ & _ & _ & Hlater).
  split; [reflexivity|].
  destruct Hlater as (Hcalls & _ & Hwait & _).
  - by rewrite Hrun.
  - reflexivity.
  - rewrite Hcalls, Hwait. by split.
Defined.

(** X2. On a new day the stored count is void: when the item's date is not
    today's, the day's count reads 0 whatever was stored, a call is allowed,
    the whole budget remains, the last call time reads 0, and nothing is
    written until a call is recorded, which then counts as the first of the
    day. *)
Theorem new_day_voids_the_count env (w : World) (stored : RateLimitData.t) :
  localStorage w !! STORAGE_KEY = Some stored →
  RateLimitData.date stored ≠ todayIso env (tick w) →
  run env getCallsToday w = (Returned 0, w)
  ∧ run env canMakeApiCall w = (Returned true, w)
  ∧ run env getRemainingCalls w = (Returned SAFE_LIMIT, w)
  ∧ run env getLastCallTime w = (Returned 0, w)
  ∧ (run env getCallsToday (run env recordApiCall w).2).1 = Returned 1
  ∧ localStorage (run env recordApiCall w).2 !! STORAGE_KEY
    = Some (RateLimitData.mk (todayIso env (tick w)) 1 (now env (tick w))).
Proof.
  intros Hstored Hdate.
  assert (currentData env w = RateLimitData.mk (todayIso env (tick w)) 0 0) as Hcur.
  { unfold currentData. rewrite Hstored. by rewrite bool_decide_true. }
  rewrite run_recordApiCall. cbn [snd].
  rewrite !run_getCallsToday, run_canMakeApiCall, run_getRemainingCalls, run_getLastCallTime.
  rewrite Hcur, currentData_setItem by done. simpl.
  by rewrite lookup_insert_eq.
Qed.

Lemma new_day_voids_the_count_witness :
  run offlineEnv getCallsToday staleDayWorld = (Returned 0, staleDayWorld)
  ∧ run offlineEnv canMakeApiCall staleDayWorld = (Returned true, staleDayWorld)
  ∧ (run offlineEnv getCallsToday (run offlineEnv recordApiCall staleDayWorld).2).1
    = Returned 1.
Proof.
  pose proof (new_day_voids_the_count offlineEnv staleDayWorld
                (RateLimitData.mk "2024-04-30" 24 1714460000000)
                ltac:(reflexivity) ltac:(vm_compute; discriminate)) as H.
  split; [apply H|]. split; apply H.
Defined.

(** X3. [resetDailyCounter] gives the whole budget back: read right after
    it, the count is 0, [SAFE_LIMIT] calls remain, a call is allowed and the
    last call time is 0. The caches are not touched. *)
Theorem resetDailyCounter_restores_the_budget env (w : World) :
  ∃ w',
    run env resetDailyCounter w = (Returned tt, w')
    ∧ run env getCallsToday w' = (Returned 0, w')
    ∧ run env getRemainingCalls w' = (Returned SAFE_LIMIT, w')
    ∧ run env canMakeApiCall w' = (Returned true, w')
    ∧ run env getLastCallTime w' = (Returned 0, w')
    ∧ currencyData w' = currencyData w ∧ metadata w' = metadata w.
Proof.
  rewrite run_resetDailyCounter. eexists. split; [reflexivity|].
  rewrite run_getCallsToday, run_getRemainingCalls, run_canMakeApiCall, run_getLastCallTime.
  by rewrite currentData_setItem.
Qed.

(** X4. The readings of the budget agree. In every world
    [getRateLimitStatus] is the readings taken at once: its fields are what
    [getCallsToday], [getRemainingCalls], [getLastCallTime] and
    [getTimeUntilNextCall] return, and [canCall] is [canMakeApiCall] and
    [canCallNow] together. The calls remaining are never negative,
    [canMakeApiCall] is true exactly when some remain, the calls made and
    the calls remaining add up to [SAFE_LIMIT] as long as the count has not
    passed it, and nothing remains once it has. For every interval the wait
    is never negative, and no wait is left exactly when [canCallNow] is
    true. None of the readings writes anything. *)
Theorem budget_readings_agree env (w : World) :
  ∃ st allowed ready,
    run env getRateLimitStatus w = (Returned st, w)
    ∧ run env getCallsToday w = (Returned (RateLimitStatus.callsToday st), w)
    ∧ run env getRemainingCalls w = (Returned (RateLimitStatus.remainingCalls st), w)
    ∧ run env getLastCallTime w = (Returned (RateLimitStatus.lastCallTime st), w)
    ∧ run env (getTimeUntilNextCall 12000) w = (Returned (RateLimitStatus.nextCallIn st), w)
    ∧ run env canMakeApiCall w = (Returned allowed, w)
    ∧ run env (canCallNow 12000) w = (Returned ready, w)
    ∧ RateLimitStatus.canCall st = allowed && ready
    ∧ 0 ≤ RateLimitStatus.remainingCalls st
    ∧ (allowed = true ↔ 0 < RateLimitStatus.remainingCalls st)
    ∧ (RateLimitStatus.callsToday st ≤ SAFE_LIMIT →
       RateLimitStatus.callsToday st + RateLimitStatus.remainingCalls st = SAFE_LIMIT)
    ∧ (SAFE_LIMIT ≤ RateLimitStatus.callsToday st → RateLimitStatus.remainingCalls st = 0)
    ∧ ∀ minIntervalMs, ∃ wait callable,
        run env (getTimeUntilNextCall minIntervalMs) w = (Returned wait, w)
        ∧ run env (canCallNow minIntervalMs) w = (Returned callable, w)
        ∧ 0 ≤ wait
        ∧ (callable = true ↔ wait = 0).
Proof.
  eexists _, _, _.
  split; [unfold getRateLimitStatus; rewrite run_bind, run_loadData; reflexivity|].
  split; [by rewrite run_getCallsToday|].
  split; [by rewrite run_getRemainingCalls|].
  split; [by rewrite run_getLastCallTime|].
  split; [by rewrite run_getTimeUntilNextCall|].
  split; [by rewrite run_canMakeApiCall|].
  split; [by rewrite run_canCallNow|].
  split; [simpl; f_equal; apply bool_decide_ext; lia|].
  split; [simpl; lia|].
  split; [simpl; rewrite bool_decide_eq_true; lia|].
  split; [simpl; lia|].
  split; [simpl; lia|].
  intros minIntervalMs. rewrite run_getTimeUntilNextCall, run_canCallNow.
  eexists _, _. split; [reflexivity|]. split; [reflexivity|]. split; [lia|].
  rewrite bool_decide_eq_true. lia.
Qed.

(** ** cacheManager.ts *)

Lemma getPairKey_inj (from to from' to' : CurrencyCode) :
  getPairKey from to = getPairKey from' to' → from = from' ∧ to = to'.
Proof.
  destruct from, from'; try discriminate; destruct to, to'; try discriminate; done.
Qed.

Section CacheLaws.
Variable env : Env.

Lemma run_getMetadata key w :
  run env (getMetadata key) w = (Returned (metadata w !! key), afterMetaRead key w).
Proof. done. Qed.

Lemma run_getLastBatchUpdateDate w :
  run env getLastBatchUpdateDate w
  = (Returned (metadata w !! "lastBatchUpdateDate"), afterMetaRead "lastBatchUpdateDate" w).
Proof. done. Qed.

Lemma run_areAllBasePairsUpdatedToday w :
  run env areAllBasePairsUpdatedToday w
  = (Returned (bool_decide (metadata w !! "lastBatchUpdateDate"
                            = Some (todayIso env (2 + tick w)))),
     afterMetaRead "lastBatchUpdateDate" w).
Proof. done. Qed.

Lemma run_needsDailyUpdate w :
  run env needsDailyUpdate w
  = (Returned (negb (bool_decide (metadata w !! "lastBatchUpdateDate"
                                  = Some (todayIso env (2 + tick w))))),
     afterMetaRead "lastBatchUpdateDate" w).
Proof. done. Qed.

Lemma run_markBatchUpdateComplete w :
  run env markBatchUpdateComplete w = (Returned tt, afterMark env w).
Proof. done. Qed.

End CacheLaws.

(** X5. What [saveCurrencyData] stores for a pair is what [getCurrencyData]
    reads back for it: the same series, under the pair, stamped with the
    clock's reading at the write. [hasCachedData] is then true exactly when
    the series is not empty. Every other pair reads as before, and neither
    the marker nor the call counter is touched. *)
Theorem saved_series_is_read_back env (from to : CurrencyCode) (rates : list DailyRate)
    (w : World) :
  ∃ w',
    run env (saveCurrencyData from to rates) w = (Returned tt, w')
    ∧ (run env (getCurrencyData from to) w').1
      = Returned (Some {| pair := (from, to); rates := rates;
                          lastUpdated := now env (S (tick w)) |})
    ∧ (run env (hasCachedData from to) w').1 = Returned (bool_decide (rates ≠ []))
    ∧ (∀ from' to', (from', to') ≠ (from, to) →
         (run env (getCurrencyData from' to') w').1
         = (run env (getCurrencyData from' to') w).1)
    ∧ metadata w' = metadata w ∧ localStorage w' = localStorage w.
Proof.
  rewrite run_saveCurrencyData. eexists. split; [reflexivity|].
  rewrite run_getCurrencyData, run_hasCachedData, cachedData_afterCacheWrite.
  split; [done|]. split; [|split; [|done]].
  - simpl. f_equal. apply bool_decide_ext.
    destruct rates; simpl; (split; [first [lia | done]|first [lia | done]]).
  - intros from' to' Hne. rewrite !run_getCurrencyData. simpl. f_equal.
    unfold cachedData, afterCacheWrite. simpl. rewrite lookup_insert_ne; [done|].
    intros [-> ->]%getPairKey_inj. done.
Qed.

(** X6. The batch marker round trip: what [markBatchUpdateComplete] writes,
    [getLastBatchUpdateDate] reads back; in every later world that still has
    that marker, [areAllBasePairsUpdatedToday] is true exactly when the day
    read then is the day that was marked, and [needsDailyUpdate] is its
    negation. The marking touches neither the series nor the call counter. *)
Theorem batch_marker_round_trip env (w later : World) :
  ∃ w',
    run env markBatchUpdateComplete w = (Returned tt, w')
    ∧ (run env getLastBatchUpdateDate w').1 = Returned (Some (todayIso env (tick w)))
    ∧ currencyData w' = currencyData w ∧ localStorage w' = localStorage w
    ∧ (metadata later = metadata w' →
       (run env areAllBasePairsUpdatedToday later).1
       = Returned (bool_decide (todayIso env (2 + tick later) = todayIso env (tick w)))
       ∧ (run env needsDailyUpdate later).1
         = Returned (negb (bool_decide (todayIso env (2 + tick later)
                                        = todayIso env (tick w))))).
Proof.
  rewrite run_markBatchUpdateComplete. eexists. split; [reflexivity|].
  rewrite run_getLastBatchUpdateDate, run_areAllBasePairsUpdatedToday, run_needsDailyUpdate.
  split; [simpl; by rewrite lookup_insert_eq|]. split; [done|]. split; [done|].
  intros ->. simpl. rewrite lookup_insert_eq.
  assert (bool_decide (Some (todayIso env (tick w)) = Some (todayIso env (S (S (tick later)))))
          = bool_decide (todayIso env (S (S (tick later))) = todayIso env (tick w))) as ->; [|done].
  apply bool_decide_ext. split; [by intros [= ->]|by intros ->].
Qed.

(** ** currencyApi.ts: the checks before a load *)

Section Checks.
Variable env : Env.

Lemma hasRates_afterCacheRead c c' to w :
  hasRates (cachedData c BASE_CURRENCY (afterCacheRead c' to w))
  = hasRates (cachedData c BASE_CURRENCY w).
Proof. done. Qed.

Lemma needsInitialLoadFrom_cons c currencies :
  needsInitialLoadFrom (c :: currencies)
  = (hasData ← hasCachedData c BASE_CURRENCY;
     if negb hasData then Ret true else needsInitialLoadFrom currencies).
Proof. done. Qed.

(** The early-return loop: it stops at the first currency that is not
    resident, and only reads the cache. *)
Lemma run_needsInitialLoadFrom currencies w :
  ∃ w',
    run env (needsInitialLoadFrom currencies) w
    = (Returned (bool_decide (Exists (λ c, hasRates (cachedData c BASE_CURRENCY w) = false)
                                     currencies)), w')
    ∧ currencyData w' = currencyData w ∧ metadata w' = metadata w
    ∧ localStorage w' = localStorage w
    ∧ providerCount w' = providerCount w ∧ backendReadCount w' = backendReadCount w
    ∧ (length (trace w') ≤ length (trace w) + 2 * length currencies)%nat.
Proof.
  revert w. induction currencies as [|c currencies IH]; intros w.
  - exists w. split; [|repeat split; lia].
    simpl needsInitialLoadFrom. by rewrite run_Ret.
  - rewrite needsInitialLoadFrom_cons, run_bind, run_hasCachedData. cbv iota.
    destruct (hasRates (cachedData c BASE_CURRENCY w)) eqn:Hc; simpl negb; cbv iota.
    + destruct (IH (afterCacheRead c BASE_CURRENCY w)) as (w' & -> & ? & ? & ? & ? & ? & Hlen).
      exists w'. split; [|repeat split; try done; simpl in *; lia].
      do 2 f_equal. apply bool_decide_ext. rewrite Exists_cons.
      split; [by right|]. intros [Hhere|?]; [|done]. by rewrite Hc in Hhere.
    + exists (afterCacheRead c BASE_CURRENCY w). split; [|repeat split; simpl; lia].
      rewrite run_Ret. do 2 f_equal. symmetry. apply bool_decide_true.
      by apply Exists_cons_hd.
Qed.

End Checks.

(** X7. [needsInitialLoad] is true exactly when some currency of
    [FETCH_CURRENCIES] has no non-empty series cached against the base. It
    never throws and only reads the cache: the series, the marker, the call
    counter and the numbers of provider and backend requests stay as they
    were. *)
Theorem needsInitialLoad_iff_a_pair_is_missing env (w : World) :
  ∃ needed w',
    run env needsInitialLoad w = (Returned needed, w')
    ∧ (needed = true ↔ ∃ c, c ∈ FETCH_CURRENCIES
                            ∧ (run env (hasCachedData c BASE_CURRENCY) w).1 = Returned false)
    ∧ currencyData w' = currencyData w ∧ metadata w' = metadata w
    ∧ localStorage w' = localStorage w
    ∧ providerCount w' = providerCount w ∧ backendReadCount w' = backendReadCount w.
Proof.
  destruct (run_needsInitialLoadFrom env FETCH_CURRENCIES w)
    as (w' & Hrun & ? & ? & ? & ? & ? & _).
  eexists _, w'. split; [exact Hrun|]. split; [|done].
  rewrite bool_decide_eq_true, Exists_exists.
  split; intros (c & Hc & Hmiss); exists c; (split; [done|]);
    rewrite run_hasCachedData in *; simpl in *; congruence.
Qed.

(** X8. [getRealtimeRate] never throws. It resolves the pair without forced
    refresh and returns the close of the last record of the series; when the
    series is empty, or the resolution throws, it returns [null]. *)
Theorem getRealtimeRate_never_throws env (from to : CurrencyCode) (w : World) :
  match run env (getCurrencyPairData env from to false) w with
  | (Returned rates, w') =>
      run env (getRealtimeRate env from to) w = (Returned (close <$> last rates), w')
  | (Thrown err, w') =>
      run env (getRealtimeRate env from to) w = (Returned None, w')
  end.
Proof.
  unfold getRealtimeRate. rewrite run_tryCatch, run_bind.
  destruct (run env (getCurrencyPairData env from to false) w) as [[rates|err] w']; [|done].
  case_bool_decide as Hlen.
  - rewrite run_Ret. by rewrite last_lookup, Nat.sub_1_r.
  - rewrite run_Ret. destruct rates; [done|simpl in Hlen; lia].
Qed.

(** ** currencyApi.ts: the batch refresh without forced refresh *)

(** A forced batch that reports no failure has written the marker. *)
Lemma forced_batch_marks env (onProgress : bool) w success failure w' :
  run env (prefetchBasePairs env onProgress true) w = (Returned (success, failure), w') →
  failure = 0 →
  ∃ t, metadata w' !! "lastBatchUpdateDate" = Some (todayIso env t).
Proof.
  unfold prefetchBasePairs. simpl negb. cbv iota. do 2 run_step. cbv zeta. run_step.
  match goal with
  | |- context [run env (forOf ?cs ?body (?c0, ?s0, ?f0)) w] =>
      destruct (batch_loop env onProgress (Z.of_nat (length FETCH_CURRENCIES)) body
                  (λ c cur suc fai w1, batch_item env onProgress _ c cur suc fai w1)
                  cs c0 s0 f0 w)
        as (success1 & failure1 & w1 & asked & -> & _)
  end.
  cbv iota. run_step.
  case_bool_decide as Hfail.
  - rewrite run_markBatchUpdateComplete. cbv iota. run_step.
    intros [= <- <- <-] _. eexists. simpl. by rewrite lookup_insert_eq.
  - run_step. intros [= <- <- <-] ?. done.
Qed.

(** X9. Without forced refresh, [prefetchBasePairs] first reads the batch
    marker. When the marker is today's it returns [{success: 8, failed: 0}]
    at once: nothing but the marker was read, so no request went out, no
    progress was reported and the call counter is as it was. Otherwise it
    goes on exactly as a forced refresh does from there. *)
Theorem prefetch_skips_a_day_already_updated env (onProgress : bool) (w : World) :
  ∃ updated,
    run env areAllBasePairsUpdatedToday w
    = (Returned updated, afterMetaRead "lastBatchUpdateDate" w)
    ∧ run env (prefetchBasePairs env onProgress false) w
      = (if updated
         then (Returned (Z.of_nat (length FETCH_CURRENCIES), 0),
               afterMetaRead "lastBatchUpdateDate" w)
         else run env (prefetchBasePairs env onProgress true)
                (afterMetaRead "lastBatchUpdateDate" w))
    ∧ providerRequests (trace (afterMetaRead "lastBatchUpdateDate" w))
      = providerRequests (trace w)
    ∧ progressReports (trace (afterMetaRead "lastBatchUpdateDate" w))
      = progressReports (trace w)
    ∧ localStorage (afterMetaRead "lastBatchUpdateDate" w) = localStorage w
    ∧ currencyData (afterMetaRead "lastBatchUpdateDate" w) = currencyData w.
Proof.
  rewrite run_areAllBasePairsUpdatedToday. eexists. split; [reflexivity|].
  split; [|done].
  unfold prefetchBasePairs. simpl negb. cbv iota.
  rewrite !run_bind, run_areAllBasePairsUpdatedToday, run_Ret. cbv iota.
  by case_bool_decide.
Qed.

(** X10. A batch refresh that completed is not repeated the same day: after
    a forced [prefetchBasePairs] that reports no failure, and as long as the
    day does not change, [needsDailyUpdate] is false and
    [prefetchBasePairs] without forced refresh returns
    [{success: 8, failed: 0}] having read nothing but the marker. *)
Theorem completed_batch_is_not_repeated env (onProgress again : bool) (w w' : World)
    (success : Z) :
  (∀ t, todayIso env t = todayIso env 0%nat) →
  run env (prefetchBasePairs env onProgress true) w = (Returned (success, 0), w') →
  run env needsDailyUpdate w' = (Returned false, afterMetaRead "lastBatchUpdateDate" w')
  ∧ run env (prefetchBasePairs env again false) w'
    = (Returned (8, 0), afterMetaRead "lastBatchUpdateDate" w').
Proof.
  intros Hday Hrun.
  destruct (forced_batch_marks env onProgress w success 0 w' Hrun eq_refl) as [t Hmark].
  rewrite run_needsDailyUpdate. unfold prefetchBasePairs. simpl negb. cbv iota.
  rewrite !run_bind, run_areAllBasePairsUpdatedToday. cbv iota.
  rewrite Hmark, (Hday t), (Hday (S (S (tick w')))), (Hday (2 + tick w')%nat).
  by rewrite (bool_decide_true (Some (todayIso env 0%nat) = Some (todayIso env 0%nat))).
Qed.

Lemma completed_batch_is_not_repeated_witness :
  run alternatingEnv (prefetchBasePairs alternatingEnv true true) emptyWorld
  = (Returned (8, 0),
     (run alternatingEnv (prefetchBasePairs alternatingEnv true true) emptyWorld).2)
  ∧ (run alternatingEnv needsDailyUpdate
       (run alternatingEnv (prefetchBasePairs alternatingEnv true true) emptyWorld).2).1
    = Returned false
  ∧ (run alternatingEnv (prefetchBasePairs alternatingEnv false false)
       (run alternatingEnv (prefetchBasePairs alternatingEnv true true) emptyWorld).2).1
    = Returned (8, 0).
Proof.
  assert (run alternatingEnv (prefetchBasePairs alternatingEnv true true) emptyWorld
          = (Returned (8, 0),
             (run alternatingEnv (prefetchBasePairs alternatingEnv true true) emptyWorld).2))
    as Hrun by (vm_compute; reflexivity).
  split; [exact Hrun|].
  pose proof (completed_batch_is_not_repeated alternatingEnv true false emptyWorld _ 8
                ltac:(reflexivity) Hrun) as [Hneeds Hagain].
  split; [by rewrite Hneeds|by rewrite Hagain].
Defined.

(** ** currencyApi.ts: [fetchFromApi], case by case *)

Section FetchLaws.
Variable env : Env.

(** What [fetchFromApi] does when the budget allows the call. *)
Lemma run_fetchFromApi from to w :
  RateLimitData.calls (currentData env w) < SAFE_LIMIT →
  run env (fetchFromApi env from to) w
  = match provider env (tick (afterWait env w)) from to with
    | None => (Thrown FetchRejected, afterRequest env from to w)
    | Some response =>
        if negb (ok response)
        then (Thrown (RequestFailed (status response)), afterRecord env from to w)
        else
          match json response with
          | None => (Thrown JsonRejected, answered (log BodyRead (afterRecord env from to w)))
          | Some data =>
              (if truthy (Note data) then Thrown RateLimitNotice
               else if truthy (ErrorMessage data)
                    then Thrown (ProviderMessage (default "" (ErrorMessage data)))
                    else Returned (parseRates env data),
               answered (log BodyRead (afterRecord env from to w)))
          end
    end.
Proof.
  intros Hroom. unfold fetchFromApi. do 2 run_step.
  rewrite bool_decide_true by done. simpl negb. cbv iota. do 3 run_step.
  assert (run env (if bool_decide
                        (0 < Z.max 0 (12000 - (now env (tick w)
                              - RateLimitData.lastCall (currentData env w))))
                   then perform (SetTimeout (Z.max 0 (12000 - (now env (tick w)
                              - RateLimitData.lastCall (currentData env w)))))
                   else Ret tt) w = (Returned tt, afterWait env w)) as ->.
  { unfold afterWait, waitBefore. by case_bool_decide. }
  cbv iota. run_step. rewrite run_perform. cbv iota. simpl handle. cbn [fst snd].
  destruct (provider env (tick (afterWait env w)) from to) as [response|]; [|done].
  do 2 run_step.
  change (setItem STORAGE_KEY _ _) with (afterRecord env from to w).
  destruct (ok response); simpl negb; cbv iota; [|done].
  run_step. rewrite run_perform. cbv iota. simpl handle. cbn [fst snd].
  destruct (json response) as [data|]; [|done].
  destruct (truthy (Note data)); [done|]. by destruct (truthy (ErrorMessage data)).
Qed.

Lemma localStorage_afterRequest from to w :
  localStorage (afterRequest env from to w) = localStorage w.
Proof. unfold afterRequest, afterWait. by case_bool_decide. Qed.

Lemma providerRequests_afterRequest from to w :
  providerRequests (trace (afterRequest env from to w))
  = (from, to) :: providerRequests (trace w).
Proof. unfold afterRequest, afterWait. by case_bool_decide. Qed.

Lemma providerCount_afterRequest from to w :
  providerCount (afterRequest env from to w) = S (providerCount w).
Proof. unfold afterRequest, afterWait, providerCount. by case_bool_decide. Qed.

Lemma trace_afterRecord from to w :
  trace (afterRecord env from to w)
  = ProviderRequest from to
    :: (if bool_decide (0 < waitBefore env w) then [Waited (waitBefore env w)] else [])
    ++ trace w.
Proof. unfold afterRecord, afterRequest, afterWait. by case_bool_decide. Qed.

Lemma trace_afterCacheWrite from to rates w :
  trace (afterCacheWrite env from to rates w)
  = CacheWrite (getPairKey from to) :: DbOpened :: trace w.
Proof. done. Qed.

Lemma currencyData_afterRecord from to w :
  currencyData (afterRecord env from to w) = currencyData w.
Proof. unfold afterRecord, afterRequest, afterWait. by case_bool_decide. Qed.

(** As long as the day does not change, the day's count depends on
    [localStorage] only. *)
Lemma currentData_same_day w w' :
  (∀ t, todayIso env t = todayIso env 0%nat) →
  localStorage w' = localStorage w → currentData env w' = currentData env w.
Proof. intros Hday Hls. unfold currentData. by rewrite Hls, !(Hday (tick _)). Qed.

Lemma calls_afterRecord from to w :
  (∀ t, todayIso env t = todayIso env 0%nat) →
  RateLimitData.calls (currentData env (afterRecord env from to w))
  = RateLimitData.calls (currentData env w) + 1.
Proof.
  intros Hday. unfold afterRecord. cbv zeta.
  rewrite currentData_setItem by (simpl; apply currentData_date). simpl.
  by rewrite (currentData_same_day w) by (done || apply localStorage_afterRequest).
Qed.

End FetchLaws.

(** X11. What [fetchFromApi] costs, as long as the day does not change. When
    it throws [BudgetExceeded] nothing has happened. Otherwise exactly one
    request went to the provider; when that request failed at the network
    (the promise of [fetch] rejected) the day's count is as it was, and in
    every other case (a series, an HTTP error status, an unreadable body, a
    rate-limit [Note], an [Error Message]) the count is one more. *)
Theorem answered_requests_are_counted env (from to : CurrencyCode) (w : World) :
  (∀ t, todayIso env t = todayIso env 0%nat) →
  match run env (fetchFromApi env from to) w with
  | (Thrown BudgetExceeded, w') => w' = w
  | (Thrown FetchRejected, w') =>
      providerRequests (trace w') = (from, to) :: providerRequests (trace w)
      ∧ localStorage w' = localStorage w
  | (_, w') =>
      providerRequests (trace w') = (from, to) :: providerRequests (trace w)
      ∧ (run env getCallsToday w').1
        = Returned (RateLimitData.calls (currentData env w) + 1)
  end.
Proof.
  intros Hday.
  destruct (decide (RateLimitData.calls (currentData env w) < SAFE_LIMIT)) as [Hroom|Hfull];
    [|by rewrite fetchFromApi_over_budget by lia].
  rewrite run_fetchFromApi by done.
  assert (∀ w', localStorage w' = localStorage (afterRecord env from to w) →
                trace w' = trace (afterRecord env from to w) ∨
                trace w' = BodyRead :: trace (afterRecord env from to w) →
                providerRequests (trace w') = (from, to) :: providerRequests (trace w)
                ∧ (run env getCallsToday w').1
                  = Returned (RateLimitData.calls (currentData env w) + 1)) as Hcounted.
  { intros w' Hls Htr. rewrite run_getCallsToday. simpl. split.
    - destruct Htr as [-> | ->]; simpl; apply providerRequests_afterRequest.
    - by rewrite (currentData_same_day env (afterRecord env from to w)),
        calls_afterRecord. }
  destruct (provider env _ from to) as [response|].
  - destruct (ok response); simpl negb; cbv iota; [|by apply Hcounted; auto].
    destruct (json response) as [data|]; [|by apply Hcounted; auto].
    destruct (truthy (Note data)); [by apply Hcounted; auto|].
    destruct (truthy (ErrorMessage data)); by apply Hcounted; auto.
  - split; [apply providerRequests_afterRequest|apply localStorage_afterRequest].
Qed.

Lemma answered_requests_are_counted_witness :
  providerRequests
    (trace (run alternatingEnv (fetchFromApi alternatingEnv EUR USD) twoCallsLeftWorld).2)
  = [(EUR, USD)]
  ∧ (run alternatingEnv getCallsToday
       (run alternatingEnv (fetchFromApi alternatingEnv EUR USD) twoCallsLeftWorld).2).1
    = Returned 23.
Proof.
  pose proof (answered_requests_are_counted alternatingEnv EUR USD twoCallsLeftWorld
                ltac:(reflexivity)) as H.
  vm_compute in H. exact H.
Defined.

(** ** The ceiling on the paths that do not overlap *)

Section Keeps.
Variable env : Env.
Variable P : World → Prop.

Lemma keeps_bind {A B} (p : Prog A) (f : A → Prog B) :
  keeps env P p → (∀ a, keeps env P (f a)) → keeps env P (p ≫= f).
Proof.
  intros Hp Hf w Hw. rewrite run_bind. specialize (Hp w Hw).
  destruct (run env p w) as [[a|err] w']; [by apply Hf|done].
Qed.

Lemma keeps_tryCatch {A} (p : Prog A) handler :
  keeps env P p → (∀ err, keeps env P (handler err)) → keeps env P (tryCatch p handler).
Proof.
  intros Hp Hh w Hw. rewrite run_tryCatch. specialize (Hp w Hw).
  destruct (run env p w) as [[a|err] w']; [done|by apply Hh].
Qed.

Lemma keeps_forOf {A S} (items : list A) (body : A → S → Prog S) s :
  (∀ item s, keeps env P (body item s)) → keeps env P (forOf items body s).
Proof.
  intros Hbody. revert s. induction items as [|item items IH]; intros s; [by intros ?|].
  simpl. apply keeps_bind; auto.
Qed.

Lemma keeps_Ret {A} (a : A) : keeps env P (Ret a).
Proof. by intros w. Qed.

Lemma keeps_Throw {A} err : keeps env P (Throw err : Prog A).
Proof. by intros w. Qed.

End Keeps.

Section Ceiling.
Variable env : Env.
Hypothesis Hday : ∀ t, todayIso env t = todayIso env 0%nat.

Lemma sparesBudget_keeps_ceiling {A} (p : Prog A) :
  asksOnly sparesBudget p → keeps env (underCeiling env) p.
Proof using Hday.
  intros Hp w Hw. unfold underCeiling.
  by rewrite (currentData_same_day env w) by (done || by apply sparesBudget_keeps_localStorage).
Qed.

Lemma fetchFromApi_keeps from to : keeps env (underCeiling env) (fetchFromApi env from to).
Proof using Hday. intros w Hw. by apply fetchFromApi_keeps_ceiling. Qed.

Lemma directLookup_keeps from to forceRefresh :
  keeps env (underCeiling env) (directLookup env from to forceRefresh).
Proof using Hday.
  unfold directLookup.
  apply keeps_bind; [apply sparesBudget_keeps_ceiling; unfold getCurrencyData; asks|].
  intros cached. destruct (hasRates cached && negb forceRefresh); [apply keeps_Ret|].
  apply keeps_bind.
  { apply sparesBudget_keeps_ceiling. destruct forceRefresh; simpl negb; cbv iota zeta; asks;
      unfold fetchRatesFromBackend, saveCurrencyData; asks. }
  intros [rates|]; [apply keeps_Ret|].
  destruct (forceRefresh || negb (hasRates cached)); [|apply keeps_Ret].
  apply keeps_tryCatch.
  - apply keeps_bind; [apply fetchFromApi_keeps|]. intros rates.
    apply sparesBudget_keeps_ceiling. asks; unfold saveCurrencyData, saveRatesToBackend; asks.
  - intros err. destruct (hasRates cached); [apply keeps_Ret|apply keeps_Throw].
Qed.

Lemma prefetchBasePairs_keeps onProgress forceRefresh :
  keeps env (underCeiling env) (prefetchBasePairs env onProgress forceRefresh).
Proof using Hday.
  unfold prefetchBasePairs.
  apply keeps_bind.
  { apply sparesBudget_keeps_ceiling. destruct forceRefresh; simpl negb; cbv iota; asks;
      unfold areAllBasePairsUpdatedToday, getMetadata, getTodayDate; asks. }
  intros [|]; [apply keeps_Ret|]. cbv zeta.
  apply keeps_bind.
  - apply keeps_forOf. intros currency [[current success] failed].
    apply keeps_tryCatch.
    + apply keeps_bind; [apply fetchFromApi_keeps|]. intros rates.
      apply sparesBudget_keeps_ceiling. cbv zeta. unfold saveCurrencyData, reportProgress.
      destruct onProgress; asks.
    + intros err. apply sparesBudget_keeps_ceiling. cbv zeta. unfold reportProgress.
      destruct onProgress; asks.
  - intros [[current success] failed].
    apply sparesBudget_keeps_ceiling.
    asks; unfold markBatchUpdateComplete, saveMetadata, getTodayDate; asks.
Qed.

End Ceiling.

(** X12. The batch refresh keeps the ceiling: as long as the day does not
    change, a run of [prefetchBasePairs] (forced or not) that starts with
    the day's count at or below [SAFE_LIMIT] ends with it at or below
    [SAFE_LIMIT]. Its calls of [fetchFromApi] come one after the other, each
    recorded before the next one checks. *)
Theorem batch_refresh_keeps_the_ceiling env (onProgress forceRefresh : bool) (w : World)
    (calls : Z) :
  (∀ t, todayIso env t = todayIso env 0%nat) →
  (run env getCallsToday w).1 = Returned calls → calls ≤ SAFE_LIMIT →
  ∃ calls',
    (run env getCallsToday (run env (prefetchBasePairs env onProgress forceRefresh) w).2).1
    = Returned calls'
    ∧ calls' ≤ SAFE_LIMIT.
Proof.
  intros Hday. rewrite !run_getCallsToday. intros [= <-] Hle.
  eexists. split; [reflexivity|]. by apply prefetchBasePairs_keeps.
Qed.

Lemma batch_refresh_keeps_the_ceiling_witness :
  (run alternatingEnv getCallsToday twoCallsLeftWorld).1 = Returned 22
  ∧ ∃ calls',
      (run alternatingEnv getCallsToday
         (run alternatingEnv (prefetchBasePairs alternatingEnv true true)
              twoCallsLeftWorld).2).1 = Returned calls'
      ∧ calls' ≤ SAFE_LIMIT.
Proof.
  split; [reflexivity|].
  apply (batch_refresh_keeps_the_ceiling alternatingEnv true true twoCallsLeftWorld 22).
  - reflexivity.
  - reflexivity.
  - vm_compute. discriminate.
Defined.

(** X13. A pair with the base on one side keeps the ceiling: as long as the
    day does not change, a run of [getCurrencyPairData] for [(X, base)] or
    [(base, X)], forced or not, that starts with the day's count at or below
    [SAFE_LIMIT] ends with it at or below [SAFE_LIMIT]. (Only the two legs
    of a cross pair run together.) *)
Theorem base_pairs_keep_the_ceiling env (from to : CurrencyCode) (forceRefresh : bool)
    (w : World) (calls : Z) :
  (∀ t, todayIso env t = todayIso env 0%nat) →
  from = BASE_CURRENCY ∨ to = BASE_CURRENCY →
  (run env getCallsToday w).1 = Returned calls → calls ≤ SAFE_LIMIT →
  ∃ calls',
    (run env getCallsToday
       (run env (getCurrencyPairData env from to forceRefresh) w).2).1 = Returned calls'
    ∧ calls' ≤ SAFE_LIMIT.
Proof.
  intros Hday Hbase. rewrite !run_getCallsToday. intros [= <-] Hle.
  eexists. split; [reflexivity|].
  assert (∀ X, keeps env (underCeiling env)
                 (getCurrencyPairData env X BASE_CURRENCY forceRefresh)) as Hdirect.
  { intros X. destruct (decide (X = BASE_CURRENCY)) as [->|HX].
    - rewrite getCurrencyPairData_same. apply keeps_Ret.
    - rewrite getCurrencyPairData_direct by done. by apply directLookup_keeps. }
  destruct Hbase as [-> | ->]; [|by apply Hdirect].
  destruct (decide (to = BASE_CURRENCY)) as [->|HX]; [by apply Hdirect|].
  rewrite getCurrencyPairData_inverse by done.
  apply keeps_bind; [apply Hdirect| |done].
  intros directRate. case_bool_decide; apply keeps_Ret.
Qed.

Lemma base_pairs_keep_the_ceiling_witness :
  (run alternatingEnv getCallsToday oneCallLeftWorld).1 = Returned 23
  ∧ ∃ calls',
      (run alternatingEnv getCallsToday
         (run alternatingEnv (getCurrencyPairData alternatingEnv USD EUR true)
              oneCallLeftWorld).2).1 = Returned calls'
      ∧ calls' ≤ SAFE_LIMIT.
Proof.
  split; [reflexivity|].
  apply (base_pairs_keep_the_ceiling alternatingEnv USD EUR true oneCallLeftWorld 23).
  - reflexivity.
  - by left.
  - reflexivity.
  - vm_compute. discriminate.
Defined.

(** ** backendApi.ts *)

(** X14. [fetchRatesFromBackend] never throws. It sends one request, for the
    pair and for the dates that are not empty strings, and returns the rows
    of the answer when the request succeeds with an OK status, the body can
    be read and it says [success]; in every other case it returns the empty
    list. It writes nothing. *)
Theorem fetchRatesFromBackend_never_throws env (from to : string)
    (startDate endDate : option string) (w : World) :
  ∃ w',
    run env (fetchRatesFromBackend from to startDate endDate) w
    = (Returned
         match backendRates env (tick w) from to
                 (if truthy startDate then startDate else None)
                 (if truthy endDate then endDate else None) with
         | Some response =>
             match json response with
             | Some result =>
                 if ok response && RatesResponse.success result
                 then RatesResponse.data result else []
             | None => []
             end
         | None => []
         end, w')
    ∧ backendReads (trace w') = (from, to) :: backendReads (trace w)
    ∧ currencyData w' = currencyData w ∧ metadata w' = metadata w
    ∧ localStorage w' = localStorage w
    ∧ providerRequests (trace w') = providerRequests (trace w).
Proof.
  unfold fetchRatesFromBackend. rewrite run_tryCatch, run_bind, run_perform.
  simpl handle. cbn [fst snd]. cbv iota.
  destruct (backendRates env (tick w) from to _ _) as [response|]; [|by eexists].
  destruct (ok response); simpl negb; cbv iota.
  - rewrite run_bind, run_perform. simpl handle. cbn [fst snd]. cbv iota.
    destruct (json response) as [result|]; [|by eexists].
    destruct (RatesResponse.success result); by eexists.
  - destruct (json response); by eexists.
Qed.

(** X15. [saveRatesToBackend] never throws. It posts the rows it is given,
    once, and returns [true] only when the request succeeds with an OK
    status and the body that can be read says [success]; in every other case
    it returns [false]. It writes nothing locally. *)
Theorem saveRatesToBackend_never_throws env (rates : list BackendRate.t) (w : World) :
  ∃ w',
    run env (saveRatesToBackend rates) w
    = (Returned
         match backendSave env (tick w) rates with
         | Some response =>
             match json response with
             | Some result => ok response && SaveResult.success result
             | None => false
             end
         | None => false
         end, w')
    ∧ backendWrites (trace w') = rates :: backendWrites (trace w)
    ∧ currencyData w' = currencyData w ∧ metadata w' = metadata w
    ∧ localStorage w' = localStorage w
    ∧ providerRequests (trace w') = providerRequests (trace w)
    ∧ backendReads (trace w') = backendReads (trace w).
Proof.
  unfold saveRatesToBackend. rewrite run_tryCatch, run_bind, run_perform.
  simpl handle. cbn [fst snd]. cbv iota.
  destruct (backendSave env (tick w) rates) as [response|]; [|by eexists].
  destruct (ok response); simpl negb; cbv iota.
  - rewrite run_bind, run_perform. simpl handle. cbn [fst snd]. cbv iota.
    destruct (json response) as [result|]; by eexists.
  - destruct (json response); by eexists.
Qed.

(** ** Case 3 of [getCurrencyPairData]: the tiers *)

Section Tiers.
Variable env : Env.

Lemma saveRatesToBackend_posts rates w :
  ∃ saved w',
    run env (saveRatesToBackend rates) w = (Returned saved, w')
    ∧ backendWrites (trace w') = rates :: backendWrites (trace w)
    ∧ currencyData w' = currencyData w ∧ localStorage w' = localStorage w
    ∧ providerRequests (trace w') = providerRequests (trace w)
    ∧ backendReads (trace w') = backendReads (trace w).
Proof.
  unfold saveRatesToBackend. rewrite run_tryCatch, run_bind, run_perform.
  simpl handle. cbn [fst snd]. cbv iota.
  destruct (backendSave env (tick w) rates) as [response|]; [|by eexists _, _].
  destruct (ok response); simpl negb; cbv iota; [|by eexists _, _].
  rewrite run_bind, run_perform. simpl handle. cbn [fst snd]. cbv iota.
  destruct (json response) as [result|]; by eexists _, _.
Qed.

Lemma fetchRatesFromBackend_reads from to startDate endDate w :
  ∃ rows w',
    run env (fetchRatesFromBackend from to startDate endDate) w = (Returned rows, w')
    ∧ backendReads (trace w') = (from, to) :: backendReads (trace w)
    ∧ backendWrites (trace w') = backendWrites (trace w)
    ∧ providerRequests (trace w') = providerRequests (trace w)
    ∧ currencyData w' = currencyData w ∧ localStorage w' = localStorage w
    ∧ progressReports (trace w') = progressReports (trace w).
Proof.
  unfold fetchRatesFromBackend. rewrite run_tryCatch, run_bind, run_perform.
  simpl handle. cbn [fst snd]. cbv iota.
  destruct (backendRates env (tick w) from to _ _) as [response|]; [|by eexists _, _].
  destruct (ok response); simpl negb; cbv iota; [|by eexists _, _].
  rewrite run_bind, run_perform. simpl handle. cbn [fst snd]. cbv iota.
  destruct (json response) as [result|]; [|by eexists _, _].
  destruct (RatesResponse.success result); by eexists _, _.
Qed.

(** The copy to the backend after an external fetch: the rows go out once
    when there are any, and whatever the backend answers the copy ends
    normally. *)
Lemma backend_copy_posts (from to : CurrencyCode) (rates : list DailyRate) w :
  ∃ w',
    run env
      (if bool_decide (0 < length rates)%nat then
         tryCatch (saveRatesToBackend (toBackendRate from to <$> rates);; Ret tt)
                  (λ backendError, Ret tt)
       else Ret tt) w = (Returned tt, w')
    ∧ backendWrites (trace w')
      = (if bool_decide (0 < length rates)%nat then [toBackendRate from to <$> rates] else [])
        ++ backendWrites (trace w)
    ∧ currencyData w' = currencyData w ∧ localStorage w' = localStorage w
    ∧ providerRequests (trace w') = providerRequests (trace w)
    ∧ backendReads (trace w') = backendReads (trace w).
Proof.
  case_bool_decide; [|by exists w].
  rewrite run_tryCatch, run_bind.
  destruct (saveRatesToBackend_posts (toBackendRate from to <$> rates) w)
    as (saved & w' & -> & ? & ? & ? & ? & ?).
  by exists w'.
Qed.

End Tiers.

(** X16. A forced refresh that the provider answers with a series. For a
    pair [(X, base)], with a call allowed once the cache has been read and a
    provider that answers OK with a body without [Note] and without
    [Error Message], [getCurrencyPairData X base true] returns the parsed
    series of that body, whatever the cache held and whatever the backend
    answers; the series is then what the cache holds for the pair, one
    request went to the provider and none to the backend's reader, and,
    unless the series is empty, one list of rows was posted to the backend:
    a row for every record of the series, in order, with [from] the code of
    [X], [to] the code of the base, and the record's date, open, high, low
    and close. *)
Theorem forced_refresh_adopts_the_fresh_series env (X : CurrencyCode) (w : World)
    (response : Response AlphaVantageResponse) (data : AlphaVantageResponse) :
  X ≠ BASE_CURRENCY →
  (run env canMakeApiCall (afterCacheRead X BASE_CURRENCY w)).1 = Returned true →
  (∀ t, provider env t X BASE_CURRENCY = Some response) →
  ok response = true → json response = Some data →
  truthy (Note data) = false → truthy (ErrorMessage data) = false →
  ∃ w',
    run env (getCurrencyPairData env X BASE_CURRENCY true) w
    = (Returned (parseRates env data), w')
    ∧ rates <$> cachedData X BASE_CURRENCY w' = Some (parseRates env data)
    ∧ providerRequests (trace w') = (X, BASE_CURRENCY) :: providerRequests (trace w)
    ∧ backendReads (trace w') = backendReads (trace w)
    ∧ backendWrites (trace w')
      = (if bool_decide (0 < length (parseRates env data))%nat
         then [(λ rate, {| BackendRate.from := code X;
                           BackendRate.to := code BASE_CURRENCY;
                           BackendRate.date := date rate;
                           BackendRate.open := open rate;
                           BackendRate.high := high rate;
                           BackendRate.low := low rate;
                           BackendRate.close := close rate |}) <$> parseRates env data]
         else [])
        ++ backendWrites (trace w).
Proof.
  intros HX Hroom Hprovider Hok Hjson Hnote Herr.
  rewrite run_canMakeApiCall in Hroom. simpl in Hroom.
  injection Hroom as Hroom. apply bool_decide_eq_true in Hroom.
  rewrite getCurrencyPairData_direct by done. unfold directLookup.
  do 2 run_step. rewrite andb_false_r. simpl negb. cbv iota. do 2 run_step.
  simpl orb. cbv iota. do 2 run_step.
  rewrite run_fetchFromApi, Hprovider, Hok, Hjson, Hnote, Herr by done.
  simpl negb. cbv iota. do 3 run_step.
  match goal with
  | |- context [run env (if bool_decide _ then tryCatch _ _ else Ret tt) ?w0] =>
      destruct (backend_copy_posts env X BASE_CURRENCY (parseRates env data) w0)
        as (w' & -> & Hwrites & Hcache & _ & Hrequests & Hreads)
  end.
  cbv iota. run_step. exists w'. split; [done|].
  split; [|split; [|split]].
  - unfold cachedData. rewrite Hcache.
    match goal with
    | |- context [afterCacheWrite env X BASE_CURRENCY ?r ?w0] =>
        change (rates <$> cachedData X BASE_CURRENCY (afterCacheWrite env X BASE_CURRENCY r w0)
                = Some r)
    end.
    by rewrite cachedData_afterCacheWrite.
  - rewrite Hrequests, trace_afterCacheWrite.
    cbn [trace answered log providerRequests]. rewrite trace_afterRecord.
    by destruct (bool_decide (0 < waitBefore env _)).
  - rewrite Hreads, trace_afterCacheWrite.
    cbn [trace answered log backendReads]. rewrite trace_afterRecord.
    by destruct (bool_decide (0 < waitBefore env _)).
  - rewrite Hwrites, trace_afterCacheWrite. f_equal.
    cbn [trace answered log backendWrites]. rewrite trace_afterRecord.
    by destruct (bool_decide (0 < waitBefore env _)).
Qed.

Lemma forced_refresh_adopts_the_fresh_series_witness :
  ∃ w',
    run alternatingEnv (getCurrencyPairData alternatingEnv EUR BASE_CURRENCY true)
        exhaustedYesterdayWorld
    = (Returned [mkDailyRate "2024-04-30" 1.5 1.5 1.5 1.5], w')
    ∧ rates <$> cachedData EUR BASE_CURRENCY w'
      = Some [mkDailyRate "2024-04-30" 1.5 1.5 1.5 1.5]
    ∧ backendWrites (trace w')
      = [[BackendRate.mk "EUR" "USD" "2024-04-30" 1.5 1.5 1.5 1.5]].
Proof.
  destruct (forced_refresh_adopts_the_fresh_series alternatingEnv EUR exhaustedYesterdayWorld
              (mkResponse true 200
                 (Some {| TimeSeriesFXDaily :=
                            Some [("2024-04-30",
                                   {| open_1 := "1.5"; high_2 := "1.5";
                                      low_3 := "1.5"; close_4 := "1.5" |})];
                          Note := None; ErrorMessage := None |}))
              {| TimeSeriesFXDaily :=
                   Some [("2024-04-30",
                          {| open_1 := "1.5"; high_2 := "1.5";
                             low_3 := "1.5"; close_4 := "1.5" |})];
                 Note := None; ErrorMessage := None |}
              ltac:(done) ltac:(reflexivity) ltac:(reflexivity) ltac:(reflexivity)
              ltac:(reflexivity) ltac:(reflexivity) ltac:(reflexivity))
    as (w' & Hrun & Hcache & _ & _ & Hposted).
  exists w'. split; [exact Hrun|]. split; [exact Hcache|exact Hposted].
Defined.

(** X17. A pair [(X, base)] with a non-empty series in the cache never
    throws, forced refresh or not. Without forced refresh the cached series
    is returned at once. With it, the call returns the fresh series, which
    the cache then holds, or, when the external fetch fails for any reason
    (budget, network, status, notice, error message), the cached series. *)
Theorem cached_pair_never_throws env (X : CurrencyCode) (forceRefresh : bool) (w : World)
    (cached : list DailyRate) :
  X ≠ BASE_CURRENCY →
  rates <$> cachedData X BASE_CURRENCY w = Some cached → cached ≠ [] →
  ∃ result w',
    run env (getCurrencyPairData env X BASE_CURRENCY forceRefresh) w = (Returned result, w')
    ∧ (forceRefresh = false → result = cached ∧ w' = afterCacheRead X BASE_CURRENCY w)
    ∧ (result = cached ∨ rates <$> cachedData X BASE_CURRENCY w' = Some result).
Proof.
  intros HX Hcached Hne.
  destruct forceRefresh.
  - rewrite getCurrencyPairData_direct by done. unfold directLookup.
    do 2 run_step. rewrite andb_false_r. simpl negb. cbv iota. do 2 run_step.
    simpl orb. cbv iota.
    assert (hasRates (cachedData X BASE_CURRENCY w) = true) as Hhas.
    { destruct (cachedData X BASE_CURRENCY w) as [c|]; [|done]. simpl in *.
      injection Hcached as ->. apply bool_decide_true. destruct cached; [done|simpl; lia]. }
    run_step. run_step.
    destruct (run env (fetchFromApi env X BASE_CURRENCY) _) as [[fresh|err] w1]; cbv iota.
    + do 3 run_step.
      match goal with
      | |- context [run env (if bool_decide _ then tryCatch _ _ else Ret tt) ?w0] =>
          destruct (backend_copy_posts env X BASE_CURRENCY fresh w0)
            as (w' & -> & _ & Hcache & _)
      end.
      cbv iota. run_step. exists fresh, w'. split; [done|]. split; [done|]. right.
      unfold cachedData. rewrite Hcache.
      match goal with
      | |- context [afterCacheWrite env X BASE_CURRENCY ?r ?w0] =>
          change (rates <$> cachedData X BASE_CURRENCY
                              (afterCacheWrite env X BASE_CURRENCY r w0) = Some r)
      end.
      by rewrite cachedData_afterCacheWrite.
    + rewrite Hhas. run_step. eexists _, _. split; [reflexivity|]. split; [done|]. left.
      destruct (cachedData X BASE_CURRENCY w); simpl in *; congruence.
  - rewrite getCurrencyPairData_direct by done.
    rewrite (cache_hit env X w cached) by done.
    eexists _, _. split; [reflexivity|]. auto.
Qed.

Lemma cached_pair_never_throws_witness :
  ∃ result w',
    run offlineEnv (getCurrencyPairData offlineEnv EUR BASE_CURRENCY true) crossWorld
    = (Returned result, w')
    ∧ (result = seriesD123 ∨ rates <$> cachedData EUR BASE_CURRENCY w' = Some result).
Proof.
  destruct (cached_pair_never_throws offlineEnv EUR true crossWorld seriesD123
              ltac:(done) ltac:(reflexivity) ltac:(done))
    as (result & w' & Hrun & _ & Hresult).
  by exists result, w'.
Defined.

(** X18. A backend hit spares the provider. For a pair [(X, base)] that the
    cache does not hold, without forced refresh, when the backend returns a
    non-empty series the resolution returns one record for every row, in
    order, with the row's date, open, high, low and close; it reads the
    backend once, sends nothing to the provider, posts nothing to the
    backend and leaves the call counter as it was. *)
Theorem backend_hit_spares_the_provider env (X : CurrencyCode) (w : World)
    (rows : list ExchangeRateRecord.t) :
  X ≠ BASE_CURRENCY →
  (run env (hasCachedData X BASE_CURRENCY) w).1 = Returned false →
  (run env (fetchRatesFromBackend (code X) (code BASE_CURRENCY) None None)
       (afterCacheRead X BASE_CURRENCY w)).1 = Returned rows →
  rows ≠ [] →
  ∃ w',
    run env (getCurrencyPairData env X BASE_CURRENCY false) w
    = (Returned ((λ row, {| date := ExchangeRateRecord.date row;
                            open := ExchangeRateRecord.open row;
                            high := ExchangeRateRecord.high row;
                            low := ExchangeRateRecord.low row;
                            close := ExchangeRateRecord.close row |}) <$> rows), w')
    ∧ backendReads (trace w') = (code X, code BASE_CURRENCY) :: backendReads (trace w)
    ∧ providerRequests (trace w') = providerRequests (trace w)
    ∧ backendWrites (trace w') = backendWrites (trace w)
    ∧ localStorage w' = localStorage w.
Proof.
  intros HX Hmiss Hrows Hne.
  rewrite run_hasCachedData in Hmiss. simpl in Hmiss. injection Hmiss as Hmiss.
  rewrite getCurrencyPairData_direct by done. unfold directLookup.
  do 2 run_step. rewrite Hmiss. simpl andb. simpl negb. cbv iota.
  do 3 run_step.
  destruct (fetchRatesFromBackend_reads env (code X) (code BASE_CURRENCY) None None
              (afterCacheRead X BASE_CURRENCY w))
    as (rows' & w2 & Hrun & Hreads & Hwr & Hreq & _ & Hls & _).
  rewrite Hrun in Hrows |- *.
  simpl in Hrows. injection Hrows as ->. cbv iota.
  rewrite bool_decide_true by (destruct rows; [done|simpl; lia]).
  cbv zeta. do 4 run_step.
  eexists. split; [reflexivity|]. cbn [fst snd] in *.
  rewrite trace_afterCacheWrite. simpl. by rewrite Hreads, Hreq, Hwr, Hls.
Qed.

Lemma backend_hit_spares_the_provider_witness :
  ∃ w',
    run backendEnv (getCurrencyPairData backendEnv EUR BASE_CURRENCY false) emptyWorld
    = (Returned ((λ row, {| date := ExchangeRateRecord.date row;
                            open := ExchangeRateRecord.open row;
                            high := ExchangeRateRecord.high row;
                            low := ExchangeRateRecord.low row;
                            close := ExchangeRateRecord.close row |})
                   <$> backendRows100), w')
    ∧ backendReads (trace w') = [("EUR", "USD")]
    ∧ providerRequests (trace w') = [].
Proof.
  destruct (backend_hit_spares_the_provider backendEnv EUR emptyWorld backendRows100
              ltac:(done) ltac:(reflexivity) ltac:(vm_compute; reflexivity) ltac:(done))
    as (w' & Hrun & Hreads & Hreq & _).
  by exists w'.
Defined.

(** ** Pairs against the base only *)

Lemma all2_Vis_l {A B X} (e : Eff X) (k : X → Prog A) (q : Prog B) :
  all2 (Vis e k) q
  = if awaited e then
      match q with
      | Ret b => bind (Vis e k) (λ a, Ret (a, b))
      | Throw err => drain (Vis e k) err
      | Vis e' k' =>
          if awaited e' then
            Vis PickLeg (λ first : bool,
              if first then Vis e (λ x, all2 (k x) q)
              else Vis e' (λ y, all2 (Vis e k) (k' y)))
          else Vis e' (λ y, all2 (Vis e k) (k' y))
      end
    else Vis e (λ x, all2 (k x) q).
Proof. by destruct q. Qed.

Section BasePairsOnly.
Variable allowed : ∀ X, Eff X → bool.
Hypothesis allowed_PickLeg : allowed bool PickLeg = true.

Lemma asksOnly_drain {A C} (p : Prog A) err :
  asksOnly allowed p → asksOnly allowed (drain p err : Prog C).
Proof.
  induction p as [a|err'|X e k IH]; simpl; [done..|].
  intros [He Hk]. split; [done|]. intros x. by apply IH.
Qed.

Lemma asksOnly_all2 {A B} (p : Prog A) (q : Prog B) :
  asksOnly allowed p → asksOnly allowed q → asksOnly allowed (all2 p q).
Proof using allowed_PickLeg.
  revert q. induction p as [a|err|X e k IHp]; intros q Hp Hq.
  - destruct q; simpl; [done..|]. apply (asksOnly_bind allowed (Vis e k)); done.
  - destruct q; simpl; [done..|]. by apply (asksOnly_drain (Vis e k)).
  - induction q as [b|err|Y e' k' IHq]; rewrite all2_Vis_l.
    + destruct (awaited e).
      * apply (asksOnly_bind allowed (Vis e k)); done.
      * destruct Hp as [He Hk]. split; [done|]. intros x. by apply IHp.
    + destruct (awaited e).
      * by apply (asksOnly_drain (Vis e k)).
      * destruct Hp as [He Hk]. split; [done|]. intros x. by apply IHp.
    + destruct Hp as [He Hk], Hq as [He' Hk'].
      destruct (awaited e).
      * destruct (awaited e').
        -- split; [done|]. intros [|]; (split; [done|]).
           ++ intros x. apply IHp; [done|by split].
           ++ intros y. by apply IHq.
        -- split; [done|]. intros y. by apply IHq.
      * split; [done|]. intros x. apply IHp; [done|by split].
Qed.

End BasePairsOnly.

Lemma directLookup_staysWithBasePairs env (X : CurrencyCode) forceRefresh :
  X ≠ BASE_CURRENCY →
  asksOnly staysWithBasePairs (directLookup env X BASE_CURRENCY forceRefresh).
Proof.
  intros HX.
  unfold directLookup, getCurrencyData, fetchRatesFromBackend, saveCurrencyData,
    fetchFromApi, canMakeApiCall, getTimeUntilNextCall, recordApiCall, loadData,
    freshData, getTodayDate, saveData, saveRatesToBackend.
  cbv zeta. asks; by destruct X.
Qed.

Lemma getCurrencyPairData_staysWithBasePairs env (from to : CurrencyCode) forceRefresh :
  asksOnly staysWithBasePairs (getCurrencyPairData env from to forceRefresh).
Proof.
  assert (∀ X, asksOnly staysWithBasePairs
                 (getCurrencyPairData env X BASE_CURRENCY forceRefresh)) as Hdirect.
  { intros X. destruct (decide (X = BASE_CURRENCY)) as [->|HX].
    - by rewrite getCurrencyPairData_same.
    - rewrite getCurrencyPairData_direct by done. by apply directLookup_staysWithBasePairs. }
  destruct (decide (from = to)) as [->|Hne]; [by rewrite getCurrencyPairData_same|].
  destruct (decide (to = BASE_CURRENCY)) as [->|Hto]; [apply Hdirect|].
  destruct (decide (from = BASE_CURRENCY)) as [->|Hfrom].
  - rewrite getCurrencyPairData_inverse by done.
    apply asksOnly_bind; [apply Hdirect|]. intros directRate. by case_bool_decide.
  - rewrite getCurrencyPairData_cross by done.
    apply asksOnly_bind; [by apply asksOnly_all2|].
    intros [fromToUsd toToUsd]. by destruct (_ || _).
Qed.

(** X19. Everything is kept against the base. Whatever the pair and the
    forced-refresh flag, and in whatever order the two legs of a cross pair
    are answered, [getCurrencyPairData] reads and writes the cache, and asks
    the provider and the backend, only under [(c, base)] for a currency [c]
    of [FETCH_CURRENCIES]. So a run leaves every other cache entry as it
    was (a derived pair such as EUR/JPY or USD/EUR is never stored), does
    not write the batch marker and calls no callback. *)
Theorem pair_resolution_stays_with_base_pairs env (from to : CurrencyCode)
    (forceRefresh : bool) (w : World) :
  asksOnly staysWithBasePairs (getCurrencyPairData env from to forceRefresh)
  ∧ (∀ key, key ∉ (λ c, getPairKey c BASE_CURRENCY) <$> FETCH_CURRENCIES →
       currencyData (run env (getCurrencyPairData env from to forceRefresh) w).2 !! key
       = currencyData w !! key)
  ∧ (∀ asked, asked ∈ providerRequests
                        (trace (run env (getCurrencyPairData env from to forceRefresh) w).2) →
       asked ∈ providerRequests (trace w) ∨ asked.1 ∈ FETCH_CURRENCIES ∧ asked.2 = BASE_CURRENCY)
  ∧ metadata (run env (getCurrencyPairData env from to forceRefresh) w).2 = metadata w
  ∧ progressReports (trace (run env (getCurrencyPairData env from to forceRefresh) w).2)
    = progressReports (trace w).
Proof.
  pose proof (getCurrencyPairData_staysWithBasePairs env from to forceRefresh) as Hasks.
  split; [done|].
  apply (run_respects env staysWithBasePairs
           (λ w w',
              (∀ key, key ∉ (λ c, getPairKey c BASE_CURRENCY) <$> FETCH_CURRENCIES →
                 currencyData w' !! key = currencyData w !! key)
              ∧ (∀ asked, asked ∈ providerRequests (trace w') →
                   asked ∈ providerRequests (trace w)
                   ∨ asked.1 ∈ FETCH_CURRENCIES ∧ asked.2 = BASE_CURRENCY)
              ∧ metadata w' = metadata w
              ∧ progressReports (trace w') = progressReports (trace w)));
    [by intros ?; auto| | |done].
  - intros w1 w2 w3 (Hc & Hp & Hm & Hr) (Hc' & Hp' & Hm' & Hr').
    split; [|split; [|split]]; [| |congruence..].
    + intros key Hkey. by rewrite Hc', Hc.
    + intros asked [Hin|?]%Hp'; [by apply Hp|by right].
  - intros X e w0 He.
    destruct e; simpl in *; try discriminate;
      (split; [|split; [|split]]); try done; try (by intros asked ?; left).
    + apply bool_decide_eq_true in He.
      intros key Hkey. rewrite lookup_insert_ne; [done|]. by intros <-.
    + apply bool_decide_eq_true in He.
      intros asked [->|?]%elem_of_cons; [by right|by left].
Qed.

(** ** currencyApi.ts: [parseRates] *)

Section SortLaws.
Context {A : Type} (compareFn : A → A → Z).

Lemma insertSorted_Permutation x l : insertSorted compareFn x l ≡ₚ x :: l.
Proof.
  induction l as [|y l IH]; simpl; [done|].
  case_bool_decide; [done|]. rewrite IH. apply Permutation_swap.
Qed.

Lemma sortWith_Permutation l : sortWith compareFn l ≡ₚ l.
Proof.
  induction l as [|x l IH]; [done|].
  unfold sortWith in *. simpl. by rewrite insertSorted_Permutation, IH.
Qed.

(** When the comparator is a total preorder [R] on the elements at hand,
    inserting keeps a sorted list sorted. *)
Lemma insertSorted_StronglySorted (R : relation A) (known : A → Prop) x l :
  Transitive R → (∀ a b, known a → known b → R a b ∨ R b a) →
  (∀ a b, known a → known b → compareFn a b ≤ 0 ↔ R a b) →
  known x → Forall known l →
  StronglySorted R l → StronglySorted R (insertSorted compareFn x l).
Proof.
  intros Htrans Htotal Hcmp Hx Hl Hsorted.
  induction Hsorted as [|y l Hsorted IH Hy]; simpl; [by repeat constructor|].
  apply Forall_cons in Hl as [Hky Hl].
  case_bool_decide as Hxy.
  - apply Hcmp in Hxy; [|done..]. constructor; [by constructor|].
    constructor; [done|]. eapply Forall_impl; [exact Hy|]. intros z Hz. by etrans.
  - constructor; [by apply IH|].
    rewrite insertSorted_Permutation. constructor; [|done].
    destruct (Htotal x y Hx Hky) as [Hle|Hle]; [|done].
    by apply Hcmp in Hle.
Qed.

Lemma sortWith_StronglySorted (R : relation A) (known : A → Prop) l :
  Transitive R → (∀ a b, known a → known b → R a b ∨ R b a) →
  (∀ a b, known a → known b → compareFn a b ≤ 0 ↔ R a b) →
  Forall known l → StronglySorted R (sortWith compareFn l).
Proof.
  intros Htrans Htotal Hcmp. induction 1 as [|x l Hx Hl IH]; [constructor|].
  unfold sortWith in *. simpl.
  apply (insertSorted_StronglySorted R known); try done.
  change (foldr _ _ l) with (sortWith compareFn l).
  by rewrite sortWith_Permutation.
Qed.

End SortLaws.

Lemma dateBefore_strict a b : dateBefore a b ↔ strict String.le a b.
Proof.
  unfold dateBefore, strict, String.le, String.ltb, String.leb.
  rewrite (String.compare_antisym b a).
  destruct (String.compare a b); simpl; intuition discriminate.
Qed.

(** Sorted by [≤] without a date twice is sorted by [<]. *)
Lemma StronglySorted_le_NoDup (dates : list string) :
  StronglySorted String.le dates → NoDup dates → Sorted dateBefore dates.
Proof.
  intros Hsorted Hnd. apply StronglySorted_Sorted.
  induction Hsorted as [|d dates Hsorted IH Hd]; [constructor|].
  apply NoDup_cons in Hnd as [Hfresh Hnd]. constructor; [by apply IH|].
  apply Forall_forall. intros d' Hin. rewrite Forall_forall in Hd.
  apply dateBefore_strict. split; [by apply Hd|].
  intros Hback. assert (d = d') as -> by (apply (anti_symm String.le); auto). done.
Qed.

(** X20. [parseRates] returns the entries of the time series, each with its
    four numbers parsed, no entry lost and none added, ascending by date:
    provided [localeCompare] orders the dates of the payload as their code
    units do (as it does for dates of the one format YYYY-MM-DD), and the
    payload, being an object, has no date twice. *)
Theorem parseRates_is_ascending env (data : AlphaVantageResponse)
    (timeSeries : list (string * TimeSeriesValues)) :
  TimeSeriesFXDaily data = Some timeSeries →
  NoDup timeSeries.*1 →
  (∀ a b, a ∈ timeSeries.*1 → b ∈ timeSeries.*1 →
          localeCompare env a b ≤ 0 ↔ String.le a b) →
  parseRates env data
  ≡ₚ (λ '(date, values),
        {| date := date;
           open := parseFloat env (open_1 values);
           high := parseFloat env (high_2 values);
           low := parseFloat env (low_3 values);
           close := parseFloat env (close_4 values) |}) <$> timeSeries
  ∧ ascendingByDate (parseRates env data).
Proof.
  intros Hseries Hnd Hcmp. unfold parseRates. rewrite Hseries.
  set (entry := λ '(date, values), _).
  assert (date <$> (entry <$> timeSeries) = timeSeries.*1) as Hdates.
  { rewrite <- list_fmap_compose. apply list_fmap_ext. by intros i [d v] _. }
  split; [apply sortWith_Permutation|].
  unfold ascendingByDate. apply StronglySorted_le_NoDup.
  - apply (StronglySorted_fmap date (λ a b, String.le (date a) (date b))); [done|].
    apply (sortWith_StronglySorted _ (λ a b, String.le (date a) (date b))
             (λ a, date a ∈ timeSeries.*1)).
    + intros a b c ??. by etrans.
    + intros a b _ _. apply (total String.le).
    + intros a b Ha Hb. by apply Hcmp.
    + apply Forall_forall. intros a Ha. rewrite <- Hdates. by apply list_elem_of_fmap_2.
  - by rewrite sortWith_Permutation, Hdates.
Qed.

Lemma codeUnitCompare_le (a b : string) :
  (if String.ltb a b then -1 else if String.eqb a b then 0 else 1) ≤ 0 ↔ String.le a b.
Proof.
  unfold String.le, String.ltb, String.leb.
  destruct (String.compare a b) eqn:Hcmp; simpl.
  - apply String.compare_eq_iff in Hcmp as ->. rewrite String.eqb_refl. done.
  - done.
  - destruct (String.eqb_spec a b) as [->|Hne].
    + pose proof (String.compare_antisym b b) as Hopp. rewrite Hcmp in Hopp. done.
    + split; [lia|done].
Qed.

Lemma parseRates_is_ascending_witness :
  date <$> parseRates offlineEnv latestFirstBody = ["2024-05-01"; "2024-05-02"; "2024-05-03"]
  ∧ ascendingByDate (parseRates offlineEnv latestFirstBody).
Proof.
  split; [reflexivity|].
  refine (proj2 (parseRates_is_ascending offlineEnv latestFirstBody _ eq_refl _ _)).
  - apply (bool_decide_unpack _). vm_compute. exact I.
  - intros a b _ _. apply codeUnitCompare_le.
Defined.

(** ** currencyApi.ts: [calculatePercentageChange] *)

Section FloatLaws.
Local Open Scope float_scope.

(** [x - x] is +0 for a finite [x] and NaN for an infinity or NaN. *)
Lemma Prim2SF_sub_diag (x : float) :
  Prim2SF (x - x)
  = match Prim2SF x with
    | S754_zero _ | S754_finite _ _ _ => S754_zero false
    | _ => S754_nan
    end.
Proof.
  rewrite sub_spec. unfold SF64sub, SFsub.
  destruct (Prim2SF x) as [[]|[]| |s m e]; try done.
  assert (∀ a, IntDef.Z.sub a a = 0%Z) as -> by (intros a; apply Z.sub_diag).
  done.
Qed.

Lemma Prim2SF_100 : Prim2SF 100 = S754_finite false 7036874417766400 (-46).
Proof. reflexivity. Qed.

(** [(x - x) / x * 100] *)
Lemma Prim2SF_change_of_base (x : float) :
  Prim2SF ((x - x) / x * 100)
  = match Prim2SF x with
    | S754_finite s _ _ => S754_zero s
    | _ => S754_nan
    end.
Proof.
  rewrite mul_spec, div_spec, Prim2SF_sub_diag, Prim2SF_100.
  by destruct (Prim2SF x) as [[]|[]| |[] m e].
Qed.

(** [(y - 0) / 0 * 100] is an infinity or NaN. *)
Lemma Prim2SF_change_of_zero (x y : float) s :
  Prim2SF x = S754_zero s →
  Prim2SF ((y - x) / x * 100) = S754_nan
  ∨ ∃ s', Prim2SF ((y - x) / x * 100) = S754_infinity s'.
Proof.
  intros Hx. rewrite mul_spec, div_spec, sub_spec, Prim2SF_100, Hx.
  destruct (Prim2SF y) as [[]|[]| |[] m e], s; simpl; eauto.
Qed.

End FloatLaws.

(** X21. [calculatePercentageChange] keeps the dates, in order, and measures
    every close against the first: the result has one point for every
    record, with the record's date and the value
    [(close - first close) / first close * 100], computed in binary64 in that
    order. Its first value is a zero (with the sign of the first close) when
    the first close is a finite number other than 0, and NaN when the first
    close is 0, an infinity or NaN. When the first close is 0 no value of
    the series is finite: each is an infinity or NaN. The empty series gives
    the empty series, and nothing is thrown. *)
Theorem percentage_change_is_measured_from_the_first (first : DailyRate)
    (rest : list DailyRate) :
  calculatePercentageChange (first :: rest)
  = (λ rate, {| PercentagePoint.date := date rate;
                PercentagePoint.value :=
                  ((close rate - close first) / close first * 100)%float |})
      <$> (first :: rest)
  ∧ Forall2 (λ point rate,
               Prim2SF (PercentagePoint.value point)
               = SF64mul (SF64div (SF64sub (Prim2SF (close rate)) (Prim2SF (close first)))
                                  (Prim2SF (close first)))
                         (Prim2SF 100%float))
            (calculatePercentageChange (first :: rest)) (first :: rest)
  ∧ PercentagePoint.date <$> calculatePercentageChange (first :: rest)
    = date <$> (first :: rest)
  ∧ (∃ value,
       head (calculatePercentageChange (first :: rest))
       = Some (PercentagePoint.mk (date first) value)
       ∧ Prim2SF value = match Prim2SF (close first) with
                         | S754_finite s _ _ => S754_zero s
                         | _ => S754_nan
                         end)
  ∧ (∀ s point, Prim2SF (close first) = S754_zero s →
       point ∈ calculatePercentageChange (first :: rest) →
       Prim2SF (PercentagePoint.value point) = S754_nan
       ∨ ∃ s', Prim2SF (PercentagePoint.value point) = S754_infinity s')
  ∧ calculatePercentageChange [] = [].
Proof.
  split; [done|]. split; [|split; [|split; [|split; [|done]]]].
  - unfold calculatePercentageChange. cbv zeta.
    apply Forall2_fmap_l, Forall_Forall2_diag, Forall_forall. intros rate _.
    simpl. by rewrite mul_spec, div_spec, sub_spec.
  - unfold calculatePercentageChange. cbv zeta.
    rewrite <- list_fmap_compose. by apply list_fmap_ext.
  - eexists. split; [reflexivity|]. apply Prim2SF_change_of_base.
  - intros s point Hzero. unfold calculatePercentageChange. cbv zeta.
    intros (rate & -> & _)%list_elem_of_fmap. simpl.
    by apply (Prim2SF_change_of_zero _ _ s).
Qed.

(** ** currencyApi.ts: [filterRatesByDateRange] *)

Section DateRange.
Implicit Types rates : list DailyRate.


Lemma filterRatesByDateRange_cons rate rates startDate endDate :
  filterRatesByDateRange (rate :: rates) startDate endDate
  = if String.leb startDate (date rate) && String.leb (date rate) endDate
    then rate :: filterRatesByDateRange rates startDate endDate
    else filterRatesByDateRange rates startDate endDate.
Proof.
  unfold filterRatesByDateRange. rewrite filter_cons.
  case_decide as Hin;
    destruct (String.leb startDate (date rate) && String.leb (date rate) endDate);
    first [done | by destruct Hin].
Qed.


End DateRange.



(** X23. Date ranges compose. Filtering by two ranges gives the same series
    in either order; a range inside another makes the outer one redundant
    (so filtering twice by one range changes nothing); and a range whose
    end is before its start gives the empty series. *)
Theorem date_ranges_compose (rates : list DailyRate) (start1 end1 start2 end2 : string) :
  filterRatesByDateRange (filterRatesByDateRange rates start1 end1) start2 end2
  = filterRatesByDateRange (filterRatesByDateRange rates start2 end2) start1 end1
  ∧ (String.le start1 start2 → String.le end2 end1 →
     filterRatesByDateRange (filterRatesByDateRange rates start1 end1) start2 end2
     = filterRatesByDateRange rates start2 end2)
  ∧ (dateBefore end1 start1 → filterRatesByDateRange rates start1 end1 = []).
Proof.
  split; [|split].
  - unfold filterRatesByDateRange. rewrite !list_filter_filter.
    apply filter_agree. intros rate _. tauto.
  - intros Hstart Hend. unfold filterRatesByDateRange.
    apply list_filter_filter_l. intros rate [Hs He]%andb_True.
    apply andb_True. split.
    + change (String.le start1 (date rate)). by etrans.
    + change (String.le (date rate) end1). by etrans.
  - intros [_ Hinverted]%dateBefore_strict.
    induction rates as [|rate rates IH]; [done|].
    rewrite filterRatesByDateRange_cons, IH.
    destruct (String.leb start1 (date rate)) eqn:Hs; [|done].
    destruct (String.leb (date rate) end1) eqn:He; [|done].
    exfalso. apply Hinverted. unfold String.le.
    etrans; [apply Is_true_true, Hs|apply Is_true_true, He].
Qed.

Lemma date_ranges_compose_witness :
  filterRatesByDateRange (filterRatesByDateRange seriesD123 "2024-01-01" "2024-01-03")
    "2024-01-02" "2024-01-02"
  = filterRatesByDateRange seriesD123 "2024-01-02" "2024-01-02"
  ∧ filterRatesByDateRange seriesD123 "2024-01-03" "2024-01-01" = [].
Proof.
  split.
  - apply (date_ranges_compose seriesD123 "2024-01-01" "2024-01-03" "2024-01-02" "2024-01-02");
      exact I.
  - apply (date_ranges_compose seriesD123 "2024-01-03" "2024-01-01" "" ""). reflexivity.
Defined.

(** ** currencyApi.ts: the loads from the backend *)

Section Loads.
Variable env : Env.

(** A loop over distinct currencies whose every item either fails or leaves
    its pair resident, reads the backend only for a pair that is not
    resident, and touches no other pair: the backend is read for the pairs
    that were not resident, in the order of the loop, and when no item
    failed every pair is resident at the end. *)
Lemma resident_after_loop {S} (failures : S → Z) (body : CurrencyCode → S → Prog S) :
  (∀ currency s w, ∃ s' w',
      run env (body currency s) w = (Returned s', w')
      ∧ (failures s' = failures s ∧ hasRates (cachedData currency BASE_CURRENCY w') = true
         ∨ failures s' = failures s + 1)
      ∧ backendReads (trace w')
        = (if hasRates (cachedData currency BASE_CURRENCY w) then []
           else [(code currency, code BASE_CURRENCY)]) ++ backendReads (trace w)
      ∧ ∀ c', c' ≠ currency →
          cachedData c' BASE_CURRENCY w' = cachedData c' BASE_CURRENCY w) →
  ∀ currencies s w, NoDup currencies →
    ∃ s' w',
      run env (forOf currencies body s) w = (Returned s', w')
      ∧ failures s ≤ failures s'
      ∧ backendReads (trace w')
        = reverse ((λ c, (code c, code BASE_CURRENCY)) <$> notResident w currencies)
          ++ backendReads (trace w)
      ∧ (failures s' = failures s →
         ∀ c, c ∈ currencies → hasRates (cachedData c BASE_CURRENCY w') = true)
      ∧ ∀ c', c' ∉ currencies →
          cachedData c' BASE_CURRENCY w' = cachedData c' BASE_CURRENCY w.
Proof.
  intros Hbody currencies.
  induction currencies as [|currency currencies IH]; intros s w Hnd.
  - exists s, w. repeat split; try done. by intros _ c ?%elem_of_nil.
  - apply NoDup_cons in Hnd as [Hfresh Hnd]. rewrite run_forOf_cons.
    destruct (Hbody currency s w) as (s1 & w1 & -> & Hitem & Hreads & Hothers).
    destruct (IH s1 w1 Hnd) as (s2 & w2 & -> & Hle & Hreads2 & Hall & Hothers2).
    exists s2, w2. split; [done|]. split; [destruct Hitem as [[? _]|?]; lia|].
    split; [|split].
    + rewrite Hreads2, Hreads. unfold notResident. rewrite filter_cons.
      assert (filter (λ c, hasRates (cachedData c BASE_CURRENCY w1) = false) currencies
              = filter (λ c, hasRates (cachedData c BASE_CURRENCY w) = false) currencies)
        as ->.
      { apply filter_agree. intros c Hin. rewrite Hothers; [done|]. by intros ->. }
      destruct (hasRates (cachedData currency BASE_CURRENCY w)).
      * by rewrite decide_False.
      * rewrite decide_True by done. rewrite fmap_cons, reverse_cons, <- app_assoc. done.
    + intros Hnone c [->|Hin]%elem_of_cons.
      * rewrite Hothers2 by done. destruct Hitem as [[_ ?]|?]; [done|lia].
      * apply Hall; [|done]. destruct Hitem as [[? _]|?]; lia.
    + intros c' [? ?]%not_elem_of_cons. by rewrite Hothers2, Hothers.
Qed.

(** One currency of [backgroundSyncFromBackend]. *)
Lemma sync_item_reads (currency : CurrencyCode) (success failed totalRecords : Z) w :
  ∃ success' failed' totalRecords' w',
    run env
      (tryCatch
         (hasData ← hasCachedData currency BASE_CURRENCY;
          if (hasData : bool) then
            Ret (success + 1, failed, totalRecords)
          else
            backendRates ← fetchRatesFromBackend (code currency) (code BASE_CURRENCY)
                             None None;
            if bool_decide (0 < length backendRates)%nat then
              let rates := toDailyRate <$> backendRates in
              saveCurrencyData currency BASE_CURRENCY rates;;
              let totalRecords := totalRecords + Z.of_nat (length rates) in
              Ret (success + 1, failed, totalRecords)
            else
              Ret (success, failed + 1, totalRecords))
         (λ error, Ret (success, failed + 1, totalRecords))) w
    = (Returned (success', failed', totalRecords'), w')
    ∧ (failed' = failed ∧ hasRates (cachedData currency BASE_CURRENCY w') = true
       ∨ failed' = failed + 1)
    ∧ backendReads (trace w')
      = (if hasRates (cachedData currency BASE_CURRENCY w) then []
         else [(code currency, code BASE_CURRENCY)]) ++ backendReads (trace w)
    ∧ ∀ c', c' ≠ currency →
        cachedData c' BASE_CURRENCY w' = cachedData c' BASE_CURRENCY w.
Proof.
  do 3 run_step.
  destruct (hasRates (cachedData currency BASE_CURRENCY w)) eqn:Hres; cbv iota.
  - run_step. eexists _, _, _, _. split; [reflexivity|]. split; [by left|]. done.
  - run_step.
    destruct (fetchRatesFromBackend_reads env (code currency) (code BASE_CURRENCY) None None
                (afterCacheRead currency BASE_CURRENCY w))
      as (rows & w2 & -> & Hreads & _ & _ & Hcache & _).
    cbv iota. case_bool_decide as Hrows; cbv zeta.
    + do 3 run_step. eexists _, _, _, _. split; [reflexivity|].
      split; [left; split; [done|]|split].
      * rewrite cachedData_afterCacheWrite. simpl. apply bool_decide_true.
        by rewrite length_fmap.
      * by rewrite trace_afterCacheWrite; cbn [backendReads]; rewrite Hreads.
      * intros c' Hne. rewrite cachedData_afterCacheWrite_ne by done.
        unfold cachedData. by rewrite Hcache.
    + run_step. eexists _, _, _, _. split; [reflexivity|].
      split; [by right|]. split; [by rewrite Hreads|].
      intros c' Hne. unfold cachedData. by rewrite Hcache.
Qed.

Lemma run_reportProgress (onProgress : bool) current total label w :
  run env (reportProgress onProgress current total label) w
  = (Returned tt, if onProgress then log (Progress current total label) w else w).
Proof. by destruct onProgress. Qed.

(** One item of [prefetchAllFromBackend]. *)
Lemma load_item (onProgress : bool) (total : Z) (currency : CurrencyCode)
    (current success failed totalRecords : Z) w :
  ∃ success' failed' totalRecords' w',
    run env
      (let pairName := code currency +:+ "/" +:+ code BASE_CURRENCY in
       let current := current + 1 in
       '(success, failed, totalRecords, continued) ←
         tryCatch
           (hasData ← hasCachedData currency BASE_CURRENCY;
            if (hasData : bool) then
              let success := success + 1 in
              reportProgress onProgress current total pairName;;
              Ret (success, failed, totalRecords, true)
            else
              backendRates ← fetchRatesFromBackend (code currency) (code BASE_CURRENCY)
                               None None;
              if bool_decide (0 < length backendRates)%nat then
                let rates := toDailyRate <$> backendRates in
                saveCurrencyData currency BASE_CURRENCY rates;;
                let totalRecords := totalRecords + Z.of_nat (length rates) in
                Ret (success + 1, failed, totalRecords, false)
              else
                Ret (success, failed + 1, totalRecords, false))
           (λ error, Ret (success, failed + 1, totalRecords, false));
       if (continued : bool) then Ret (current, success, failed, totalRecords) else
       reportProgress onProgress current total pairName;;
       Ret (current, success, failed, totalRecords)) w
    = (Returned (current + 1, success', failed', totalRecords'), w')
    ∧ (success' = success + 1 ∧ failed' = failed
       ∧ hasRates (cachedData currency BASE_CURRENCY w') = true
       ∨ success' = success ∧ failed' = failed + 1)
    ∧ totalRecords ≤ totalRecords'
    ∧ localStorage w' = localStorage w
    ∧ providerRequests (trace w') = providerRequests (trace w)
    ∧ backendReads (trace w')
      = (if hasRates (cachedData currency BASE_CURRENCY w) then []
         else [(code currency, code BASE_CURRENCY)]) ++ backendReads (trace w)
    ∧ progressReports (trace w')
      = (if onProgress
         then [(current + 1, total, code currency +:+ "/" +:+ code BASE_CURRENCY)] else [])
        ++ progressReports (trace w)
    ∧ ∀ c', c' ≠ currency →
        cachedData c' BASE_CURRENCY w' = cachedData c' BASE_CURRENCY w.
Proof.
  cbv zeta. do 4 run_step.
  destruct (hasRates (cachedData currency BASE_CURRENCY w)) eqn:Hres; cbv iota.
  - run_step. rewrite run_reportProgress. cbv iota. do 2 run_step.
    eexists _, _, _, _. split; [reflexivity|].
    split; [left; split; [done|split; [done|by destruct onProgress]]|].
    split; [lia|]. by destruct onProgress.
  - run_step.
    destruct (fetchRatesFromBackend_reads env (code currency) (code BASE_CURRENCY) None None
                (afterCacheRead currency BASE_CURRENCY w))
      as (rows & w2 & -> & Hreads & _ & Hreq & Hcache & Hls & Hrep).
    cbv iota. case_bool_decide as Hrows; cbv zeta.
    + do 3 run_step. run_step. rewrite run_reportProgress. cbv iota. run_step.
      eexists _, _, _, _. split; [reflexivity|].
      assert (hasRates (cachedData currency BASE_CURRENCY
                          (afterCacheWrite env currency BASE_CURRENCY
                             (toDailyRate <$> rows) w2)) = true) as Hnow.
      { rewrite cachedData_afterCacheWrite. simpl. apply bool_decide_true.
        by rewrite length_fmap. }
      assert (∀ c', c' ≠ currency →
                cachedData c' BASE_CURRENCY
                  (afterCacheWrite env currency BASE_CURRENCY (toDailyRate <$> rows) w2)
                = cachedData c' BASE_CURRENCY w) as Hothers.
      { intros c' Hne. rewrite cachedData_afterCacheWrite_ne by done.
        unfold cachedData. by rewrite Hcache. }
      split; [left; split; [done|split; [done|by destruct onProgress]]|].
      split; [lia|].
      destruct onProgress; cbn [trace log localStorage]; rewrite trace_afterCacheWrite;
        cbn [providerRequests backendReads progressReports];
        rewrite Hreads, Hreq, Hrep; repeat split; first [done | exact Hls].
    + do 2 run_step. rewrite run_reportProgress. cbv iota. run_step.
      eexists _, _, _, _. split; [reflexivity|].
      split; [by right|]. split; [lia|].
      assert (∀ c', c' ≠ currency →
                cachedData c' BASE_CURRENCY w2 = cachedData c' BASE_CURRENCY w) as Hothers.
      { intros c' Hne. unfold cachedData. by rewrite Hcache. }
      destruct onProgress; cbn [trace log localStorage];
        cbn [providerRequests backendReads progressReports];
        rewrite Hreads, Hreq, Hrep; repeat split; first [done | exact Hls].
Qed.

(** The loop of [prefetchAllFromBackend] over distinct currencies. *)
Lemma load_loop (onProgress : bool) (total : Z)
    (body : CurrencyCode → Z * Z * Z * Z → Prog (Z * Z * Z * Z)) :
  (∀ currency current success failed totalRecords w,
     ∃ success' failed' totalRecords' w',
       run env (body currency (current, success, failed, totalRecords)) w
       = (Returned (current + 1, success', failed', totalRecords'), w')
       ∧ (success' = success + 1 ∧ failed' = failed
          ∧ hasRates (cachedData currency BASE_CURRENCY w') = true
          ∨ success' = success ∧ failed' = failed + 1)
       ∧ totalRecords ≤ totalRecords'
       ∧ localStorage w' = localStorage w
       ∧ providerRequests (trace w') = providerRequests (trace w)
       ∧ backendReads (trace w')
         = (if hasRates (cachedData currency BASE_CURRENCY w) then []
            else [(code currency, code BASE_CURRENCY)]) ++ backendReads (trace w)
       ∧ progressReports (trace w')
         = (if onProgress
            then [(current + 1, total, code currency +:+ "/" +:+ code BASE_CURRENCY)]
            else [])
           ++ progressReports (trace w)
       ∧ ∀ c', c' ≠ currency →
           cachedData c' BASE_CURRENCY w' = cachedData c' BASE_CURRENCY w) →
  ∀ currencies current success failed totalRecords w, NoDup currencies →
    ∃ success' failed' totalRecords' w',
      run env (forOf currencies body (current, success, failed, totalRecords)) w
      = (Returned (current + Z.of_nat (length currencies), success', failed', totalRecords'),
         w')
      ∧ success' + failed' = success + failed + Z.of_nat (length currencies)
      ∧ success ≤ success' ∧ failed ≤ failed' ∧ totalRecords ≤ totalRecords'
      ∧ localStorage w' = localStorage w
      ∧ providerRequests (trace w') = providerRequests (trace w)
      ∧ backendReads (trace w')
        = reverse ((λ c, (code c, code BASE_CURRENCY)) <$> notResident w currencies)
          ++ backendReads (trace w)
      ∧ progressReports (trace w')
        = (if onProgress then reverse (pairReportsFrom current total currencies) else [])
          ++ progressReports (trace w)
      ∧ (failed' = failed →
         ∀ c, c ∈ currencies → hasRates (cachedData c BASE_CURRENCY w') = true)
      ∧ ∀ c', c' ∉ currencies →
          cachedData c' BASE_CURRENCY w' = cachedData c' BASE_CURRENCY w.
Proof.
  intros Hbody currencies.
  induction currencies as [|currency currencies IH];
    intros current success failed totalRecords w Hnd.
  - exists success, failed, totalRecords, w. simpl. rewrite Z.add_0_r.
    repeat split; try done; try lia; [by destruct onProgress|by intros _ c ?%elem_of_nil].
  - apply NoDup_cons in Hnd as [Hfresh Hnd]. rewrite run_forOf_cons.
    destruct (Hbody currency current success failed totalRecords w)
      as (success1 & failed1 & total1 & w1 & -> & Hcount & Ht & Hls & Hreq & Hreads & Hrep
          & Hothers).
    destruct (IH (current + 1) success1 failed1 total1 w1 Hnd)
      as (success2 & failed2 & total2 & w2 & -> & Hsum & Hs & Hf & Ht2 & Hls2 & Hreq2
          & Hreads2 & Hrep2 & Hall & Hothers2).
    exists success2, failed2, total2, w2. rewrite length_cons, Nat2Z.inj_succ.
    assert (current + 1 + Z.of_nat (length currencies)
            = current + Z.succ (Z.of_nat (length currencies))) as -> by lia.
    split; [done|]. split; [lia|]. split; [lia|]. split; [lia|]. split; [lia|].
    split; [congruence|]. split; [congruence|]. split; [|split; [|split]].
    + rewrite Hreads2, Hreads. unfold notResident. rewrite filter_cons.
      assert (filter (λ c, hasRates (cachedData c BASE_CURRENCY w1) = false) currencies
              = filter (λ c, hasRates (cachedData c BASE_CURRENCY w) = false) currencies)
        as ->.
      { apply filter_agree. intros c Hin. rewrite Hothers; [done|]. by intros ->. }
      destruct (hasRates (cachedData currency BASE_CURRENCY w)).
      * by rewrite decide_False.
      * rewrite decide_True by done. rewrite fmap_cons, reverse_cons, <- app_assoc. done.
    + rewrite Hrep2, Hrep. destruct onProgress; [|done].
      simpl. by rewrite reverse_cons, <- app_assoc.
    + intros Hnone c [->|Hin]%elem_of_cons.
      * rewrite Hothers2 by done. destruct Hcount as [(_ & _ & ?)|[_ ?]]; [done|lia].
      * apply Hall; [|done]. lia.
    + intros c' [? ?]%not_elem_of_cons. by rewrite Hothers2, Hothers.
Qed.

End Loads.

(** X24. [prefetchAllFromBackend] never throws and never costs a call. Every
    currency of [FETCH_CURRENCIES] is counted once, as a success or as a
    failure; the backend is read once for each pair that was not resident,
    in order, and not at all for a resident one; progress is reported once
    per currency, in order, as [(i, 8, pair name)]; nothing goes to the
    provider and the call counter is not written. When it reports no
    failure, every pair is resident afterwards, so that [needsInitialLoad]
    is then false. *)
Theorem backend_load_fills_the_cache env (onProgress : bool) (w : World) :
  ∃ success failure records w',
    run env (prefetchAllFromBackend onProgress) w = (Returned (success, failure, records), w')
    ∧ 0 ≤ success ∧ 0 ≤ failure ∧ 0 ≤ records
    ∧ success + failure = Z.of_nat (length FETCH_CURRENCIES)
    ∧ localStorage w' = localStorage w
    ∧ providerRequests (trace w') = providerRequests (trace w)
    ∧ reverse (backendReads (trace w'))
      = reverse (backendReads (trace w))
        ++ ((λ c, (code c, code BASE_CURRENCY)) <$> notResident w FETCH_CURRENCIES)
    ∧ reverse (progressReports (trace w'))
      = reverse (progressReports (trace w))
        ++ (if onProgress
            then pairReportsFrom 0 (Z.of_nat (length FETCH_CURRENCIES)) FETCH_CURRENCIES
            else [])
    ∧ (failure = 0 →
       (∀ c, c ∈ FETCH_CURRENCIES → (run env (hasCachedData c BASE_CURRENCY) w').1
                                     = Returned true)
       ∧ (run env needsInitialLoad w').1 = Returned false).
Proof.
  unfold prefetchAllFromBackend. cbv zeta. run_step.
  match goal with
  | |- context [run env (forOf ?cs ?body (?c0, ?s0, ?f0, ?t0)) w] =>
      destruct (load_loop env onProgress (Z.of_nat (length FETCH_CURRENCIES)) body
                  (λ c cur suc fai tot w1, load_item env onProgress _ c cur suc fai tot w1)
                  cs c0 s0 f0 t0 w)
        as (success & failure & records & w' & -> & Hsum & Hs & Hf & Ht & Hls & Hreq
            & Hreads & Hrep & Hall & _)
  end.
  { apply (bool_decide_unpack _). by vm_compute. }
  cbv iota. run_step. exists success, failure, records, w'.
  split; [done|]. simpl in Hsum.
  repeat (split; [first [done | lia]|]).
  split; [by rewrite Hreads, reverse_app, reverse_involutive|].
  split.
  { rewrite Hrep, reverse_app. by destruct onProgress; rewrite ?reverse_involutive. }
  intros Hnone. specialize (Hall Hnone).
  split.
  - intros c Hc. rewrite run_hasCachedData. simpl. f_equal. by apply Hall.
  - destruct (run_needsInitialLoadFrom env FETCH_CURRENCIES w') as (w'' & Hrun & _).
    unfold needsInitialLoad. rewrite Hrun. simpl. f_equal.
    apply bool_decide_false. intros (c & Hc & Hmiss)%Exists_exists.
    by rewrite Hall in Hmiss.
Qed.

Lemma backend_load_fills_the_cache_witness :
  (run allBackendEnv (prefetchAllFromBackend true) emptyWorld).1 = Returned (8, 0, 16)
  ∧ (run allBackendEnv needsInitialLoad
       (run allBackendEnv (prefetchAllFromBackend true) emptyWorld).2).1 = Returned false.
Proof.
  assert ((run allBackendEnv (prefetchAllFromBackend true) emptyWorld).1
          = Returned (8, 0, 16)) as Hresult by (vm_compute; reflexivity).
  split; [exact Hresult|].
  destruct (backend_load_fills_the_cache allBackendEnv true emptyWorld)
    as (success & failure & records & w' & Hrun & _ & _ & _ & _ & _ & _ & _ & _ & Hnone).
  rewrite Hrun in Hresult |- *. simpl in Hresult. injection Hresult as _ Hfailure _.
  by apply Hnone.
Defined.

(** X25. The background sync takes the priority currency first. Its reads
    of the backend are, in order, those of the pairs that were not resident,
    the priority currency's (when one other than the base is given) before
    all others, the others in the order of [FETCH_CURRENCIES]. It ends
    without throwing, and when the counts it hands to [onComplete] show no
    failure, every pair is resident afterwards and [needsInitialLoad] is
    false. *)
Theorem background_sync_takes_priority_first env (onComplete : bool)
    (priorityCurrency : option CurrencyCode) (w : World) :
  ∃ success failure records w',
    run env (backgroundSyncFromBackend onComplete priorityCurrency) w = (Returned tt, w')
    ∧ completions (trace w')
      = (if onComplete then [(success, failure, records)] else []) ++ completions (trace w)
    ∧ reverse (backendReads (trace w'))
      = reverse (backendReads (trace w))
        ++ ((λ c, (code c, code BASE_CURRENCY))
              <$> notResident w
                    match priorityCurrency with
                    | Some first =>
                        if bool_decide (first ≠ BASE_CURRENCY)
                        then first :: filter (λ c, c ≠ first) FETCH_CURRENCIES
                        else FETCH_CURRENCIES
                    | None => FETCH_CURRENCIES
                    end)
    ∧ (failure = 0 →
       (∀ c, c ∈ FETCH_CURRENCIES → (run env (hasCachedData c BASE_CURRENCY) w').1
                                     = Returned true)
       ∧ (run env needsInitialLoad w').1 = Returned false).
Proof.
  unfold backgroundSyncFromBackend. cbv zeta. run_step.
  match goal with
  | |- context [run env (forOf ?cs ?body (?s0, ?f0, ?t0)) w] =>
      assert (NoDup cs ∧ cs ≡ₚ FETCH_CURRENCIES) as [Hnd Hperm];
      [|assert (asksOnly sparesCallbacks (forOf cs body (s0, f0, t0))) as Hquiet
          by (asks; unfold hasCachedData, getCurrencyData, saveCurrencyData,
                fetchRatesFromBackend; asks);
        pose proof (sparesCallbacks_keeps_completions env _ w Hquiet) as Hcb;
        clear Hquiet;
        destruct (resident_after_loop env (λ '(_, failed, _), failed) body)
          with (currencies := cs) (s := (s0, f0, t0)) (w := w)
          as ([[success failure] records] & w1 & Hrun & Hf & Hreads & Hall & _);
        [| |rewrite Hrun in Hcb |- *]]
  end.
  { destruct priorityCurrency as [[]|]; simpl; split;
      first [ by apply (bool_decide_unpack _); vm_compute ]. }
  { intros c [[suc fai] tot] w1.
    destruct (sync_item_reads env c suc fai tot w1)
      as (suc' & fai' & tot' & w' & Hrun & Hitem).
    by exists (suc', fai', tot'), w'. }
  { done. }
  cbv iota. cbn [fst snd] in Hcb.
  assert (∀ w2, currencyData w2 = currencyData w1 →
                (failure = 0 →
                 (∀ c, c ∈ FETCH_CURRENCIES →
                       (run env (hasCachedData c BASE_CURRENCY) w2).1 = Returned true)
                 ∧ (run env needsInitialLoad w2).1 = Returned false)) as Hresident.
  { intros w2 Hcache Hnone.
    assert (∀ c, c ∈ FETCH_CURRENCIES → hasRates (cachedData c BASE_CURRENCY w2) = true)
      as Hall2.
    { intros c Hc. unfold cachedData. rewrite Hcache. apply Hall; [done|].
      by rewrite Hperm. }
    split.
    - intros c Hc. rewrite run_hasCachedData. simpl. f_equal. by apply Hall2.
    - destruct (run_needsInitialLoadFrom env FETCH_CURRENCIES w2) as (w'' & Hrun2 & _).
      unfold needsInitialLoad. rewrite Hrun2. simpl. f_equal.
      apply bool_decide_false. intros (c & Hc & Hmiss)%Exists_exists.
      by rewrite Hall2 in Hmiss. }
  destruct onComplete.
  - rewrite run_perform. simpl handle. cbn [fst snd].
    exists success, failure, records, (log (Completed success failure records) w1).
    split; [done|]. cbn [trace log completions backendReads]. rewrite <- Hcb.
    split; [reflexivity|]. split; [by rewrite Hreads, reverse_app, reverse_involutive|].
    by apply Hresident.
  - rewrite run_Ret. exists success, failure, records, w1.
    split; [done|]. rewrite <- Hcb.
    split; [done|]. split; [by rewrite Hreads, reverse_app, reverse_involutive|].
    by apply Hresident.
Qed.

Lemma background_sync_takes_priority_first_witness :
  reverse (backendReads
             (trace (run allBackendEnv (backgroundSyncFromBackend true (Some JPY))
                         crossWorld).2))
  = [("GBP", "USD"); ("CNY", "USD"); ("CHF", "USD"); ("AUD", "USD"); ("CAD", "USD");
     ("NZD", "USD")]
  ∧ completions (trace (run allBackendEnv (backgroundSyncFromBackend true (Some JPY))
                            crossWorld).2) = [(8, 0, 12)]
  ∧ (run allBackendEnv needsInitialLoad
       (run allBackendEnv (backgroundSyncFromBackend true (Some JPY)) crossWorld).2).1
    = Returned false.
Proof.
  destruct (background_sync_takes_priority_first allBackendEnv true (Some JPY) crossWorld)
    as (success & failure & records & w' & Hrun & Hdone & Hreads & Hnone).
  assert (completions (trace (run allBackendEnv (backgroundSyncFromBackend true (Some JPY))
                                  crossWorld).2) = [(8, 0, 12)]) as Hcounts
    by (vm_compute; reflexivity).
  split; [vm_compute; reflexivity|]. split; [exact Hcounts|].
  rewrite Hrun in Hcounts |- *. cbn [snd] in Hcounts |- *.
  rewrite Hdone in Hcounts. injection Hcounts as _ Hfailure _.
  by apply Hnone.
Defined.

(** * The functions that work on the whole store: properties *)

Section WideLaws.
Variable env : WideEnv.

Lemma wideRun_bind {A B} (p : WideProg A) (f : A → WideProg B) w :
  wideRun env (p ≫= f) w
  = match wideRun env p w with
    | (WReturned a, w') => wideRun env (f a) w'
    | (WThrown err, w') => (WThrown err, w')
    end.
Proof.
  unfold mbind, WideProg_bind.
  revert w. induction p as [a|err|X e k IH]; intros w; simpl; [done..|].
  destruct (wideHandle env e w) as [x w']. apply IH.
Qed.

Lemma wideRun_tryCatch {A} (p : WideProg A) handler w :
  wideRun env (wideTryCatch p handler) w
  = match wideRun env p w with
    | (WReturned a, w') => (WReturned a, w')
    | (WThrown err, w') => wideRun env (handler err) w'
    end.
Proof.
  revert w. induction p as [a|err|X e k IH]; intros w; simpl; [done..|].
  destruct (wideHandle env e w) as [x w']. apply IH.
Qed.

Lemma wideRun_forOf_cons {A S} (item : A) items (body : A → S → WideProg S) s w :
  wideRun env (wideForOf (item :: items) body s) w
  = match wideRun env (body item s) w with
    | (WReturned s', w') => wideRun env (wideForOf items body s') w'
    | (WThrown err, w') => (WThrown err, w')
    end.
Proof. simpl. apply wideRun_bind. Qed.

Lemma wideRun_WRet {A} (a : A) w : wideRun env (WRet a) w = (WReturned a, w).
Proof. done. Qed.

(** A program of the narrower kind runs as it did. *)
Lemma wideRun_widen {A} (p : Prog A) w :
  wideRun env (widen p) w
  = (match (run (core env) p (inner w)).1 with
     | Returned a => WReturned a
     | Thrown err => WThrown (CoreError err)
     end,
     mkWideWorld (run (core env) p (inner w)).2 (uploads w)).
Proof.
  revert w. induction p as [a|err|X e k IH]; intros [w ups]; simpl; [done..|].
  destruct (handle (core env) e w) as [x w']. by rewrite IH.
Qed.

Lemma wideRun_getAllCachedPairs w :
  wideRun env getAllCachedPairs w
  = (WReturned
       ((λ item, {| CachedPair.from := split "/" (stored_pair item) !! 0%nat;
                    CachedPair.to := split "/" (stored_pair item) !! 1%nat;
                    CachedPair.rates := stored_rates item;
                    CachedPair.lastUpdated := stored_lastUpdated item |})
          <$> getAll (currencyData (inner w))),
     mkWideWorld (answered (answered (log DbOpened (inner w)))) (uploads w)).
Proof. by destruct w. Qed.

End WideLaws.

Section GetAll.
Context {V : Type}.
Implicit Types store : gmap string V.

Lemma getAll_Permutation store : getAll store ≡ₚ (map_to_list store).*2.
Proof. unfold getAll. by rewrite merge_sort_Permutation. Qed.

Lemma elem_of_getAll store v : v ∈ getAll store ↔ ∃ key, store !! key = Some v.
Proof.
  rewrite getAll_Permutation, list_elem_of_fmap. split.
  - intros ([key v'] & -> & Hin). exists key. by apply elem_of_map_to_list.
  - intros [key Hkey]. exists (key, v). split; [done|]. by apply elem_of_map_to_list.
Qed.

Lemma length_getAll store : length (getAll store) = size store.
Proof. by rewrite getAll_Permutation, length_fmap, length_map_to_list. Qed.

End GetAll.

Lemma split_getPairKey (from to : CurrencyCode) :
  split "/" (getPairKey from to) = [code from; code to].
Proof. by destruct from, to. Qed.

(** X26. [getAllCachedPairs] lists the store: one entry for every stored
    item, with the item's series and time stamp, and with the pair read off
    the item's key. For what [saveCurrencyData] stored under a pair this
    gives the two currency codes back: right after a save, the list holds
    the saved series under [from] and [to], stamped with the time of the
    save. Reading the list changes nothing. *)
Theorem saved_pair_is_listed env (from to : CurrencyCode) (rates : list DailyRate)
    (w : WideWorld) :
  ∃ w1 listed w2,
    wideRun env (widen (saveCurrencyData from to rates)) w = (WReturned tt, w1)
    ∧ wideRun env getAllCachedPairs w1 = (WReturned listed, w2)
    ∧ {| CachedPair.from := Some (code from); CachedPair.to := Some (code to);
         CachedPair.rates := rates;
         CachedPair.lastUpdated := now (core env) (S (tick (inner w))) |} ∈ listed
    ∧ length listed = size (currencyData (inner w1))
    ∧ (∀ entry, entry ∈ listed ↔
         ∃ key item, currencyData (inner w1) !! key = Some item
           ∧ entry = {| CachedPair.from := split "/" (stored_pair item) !! 0%nat;
                        CachedPair.to := split "/" (stored_pair item) !! 1%nat;
                        CachedPair.rates := stored_rates item;
                        CachedPair.lastUpdated := stored_lastUpdated item |})
    ∧ currencyData (inner w2) = currencyData (inner w1)
    ∧ metadata (inner w2) = metadata (inner w1)
    ∧ localStorage (inner w2) = localStorage (inner w1).
Proof.
  rewrite wideRun_widen, run_saveCurrencyData. cbn [fst snd].
  eexists _, _, _. split; [reflexivity|].
  rewrite wideRun_getAllCachedPairs. split; [reflexivity|].
  cbn [inner]. rewrite length_fmap, length_getAll.
  split; [|split; [done|split; [|done]]].
  - apply list_elem_of_fmap.
    exists {| stored_pair := getPairKey from to; stored_rates := rates;
              stored_lastUpdated := now (core env) (S (tick (inner w))) |}.
    split; [cbn [stored_pair stored_rates stored_lastUpdated]; by rewrite split_getPairKey|].
    apply elem_of_getAll. exists (getPairKey from to). simpl. apply lookup_insert_eq.
  - intros entry. rewrite list_elem_of_fmap. split.
    + intros (item & -> & [key Hkey]%elem_of_getAll). by exists key, item.
    + intros (key & item & Hkey & ->). exists item. split; [done|].
      apply elem_of_getAll. by exists key.
Qed.

(** X27. [clearCache] empties both object stores and nothing else: after it
    no pair is cached ([getCurrencyData] is [null] for every pair and
    [getAllCachedPairs] is empty), the batch marker is gone, so that
    [needsInitialLoad] and [needsDailyUpdate] are both true; the day's call
    count in [localStorage] is as it was, so clearing the cache gives no
    call back. *)
Theorem clearCache_keeps_the_budget env (w : WideWorld) :
  ∃ w',
    wideRun env clearCache w = (WReturned tt, w')
    ∧ currencyData (inner w') = ∅ ∧ metadata (inner w') = ∅
    ∧ localStorage (inner w') = localStorage (inner w)
    ∧ (∀ from to, (run (core env) (getCurrencyData from to) (inner w')).1 = Returned None)
    ∧ (wideRun env getAllCachedPairs w').1 = WReturned []
    ∧ (run (core env) getLastBatchUpdateDate (inner w')).1 = Returned None
    ∧ (run (core env) needsInitialLoad (inner w')).1 = Returned true
    ∧ (run (core env) needsDailyUpdate (inner w')).1 = Returned true.
Proof.
  destruct w as [w ups]. eexists. split; [reflexivity|]. cbn [inner].
  split; [done|]. split; [done|]. split; [done|].
  split; [|split; [|split; [|split]]].
  - intros from to. rewrite run_getCurrencyData. unfold cachedData. simpl.
    by rewrite lookup_empty.
  - rewrite wideRun_getAllCachedPairs. simpl. unfold getAll.
    by rewrite map_to_list_empty.
  - rewrite run_getLastBatchUpdateDate. simpl. by rewrite lookup_empty.
  - by vm_compute.
  - rewrite run_needsDailyUpdate. simpl. by rewrite lookup_empty.
Qed.

Lemma foldr_min_le (x : Z) (xs : list Z) :
  foldr Z.min x xs ≤ x ∧ Forall (λ y, foldr Z.min x xs ≤ y) xs
  ∧ foldr Z.min x xs ∈ x :: xs.
Proof.
  induction xs as [|y xs (IHx & IHxs & IHin)]; simpl.
  - split; [done|]. split; [constructor|apply list_elem_of_here].
  - split; [lia|]. split.
    + constructor; [lia|]. eapply Forall_impl; [exact IHxs|]. simpl. intros. lia.
    + destruct (Z.min_spec y (foldr Z.min x xs)) as [[_ ->]|[_ ->]].
      * apply list_elem_of_further, list_elem_of_here.
      * apply elem_of_cons in IHin as [->|?].
        -- apply list_elem_of_here.
        -- by do 2 apply list_elem_of_further.
Qed.

(** X28. [getCacheInfo] counts the stored pairs and finds the oldest time
    stamp: [pairs] is the size of the store; [oldestUpdate] is [null]
    exactly when the store is empty, and otherwise is the time stamp of a
    stored item than which none is older; [lastBatchUpdate] is the marker,
    and [isUpdatedToday] tells whether it is today's. Nothing is written. *)
Theorem getCacheInfo_finds_the_oldest env (w : WideWorld) :
  ∃ info w',
    wideRun env getCacheInfo w = (WReturned info, w')
    ∧ CacheInfo.pairs info = Z.of_nat (size (currencyData (inner w)))
    ∧ (CacheInfo.oldestUpdate info = None ↔ currencyData (inner w) = ∅)
    ∧ (∀ oldest, CacheInfo.oldestUpdate info = Some oldest →
         (∃ key item, currencyData (inner w) !! key = Some item
                      ∧ stored_lastUpdated item = oldest)
         ∧ ∀ key item, currencyData (inner w) !! key = Some item →
                       oldest ≤ stored_lastUpdated item)
    ∧ CacheInfo.lastBatchUpdate info = metadata (inner w) !! "lastBatchUpdateDate"
    ∧ (CacheInfo.isUpdatedToday info = true ↔
       metadata (inner w) !! "lastBatchUpdateDate"
       = Some (todayIso (core env) (6 + tick (inner w))))
    ∧ currencyData (inner w') = currencyData (inner w)
    ∧ metadata (inner w') = metadata (inner w)
    ∧ localStorage (inner w') = localStorage (inner w).
Proof.
  destruct w as [w ups]. unfold getCacheInfo.
  rewrite wideRun_bind, wideRun_widen, run_perform. simpl handle. cbn [fst snd]. cbv iota.
  rewrite wideRun_bind. simpl (wideRun env (ask DbGetAll) _). cbv iota.
  rewrite wideRun_bind, wideRun_widen, run_getMetadata. cbn [fst snd inner]. cbv iota.
  rewrite wideRun_bind, wideRun_widen, run_areAllBasePairsUpdatedToday.
  cbn [fst snd inner]. cbv iota.
  pose proof (length_getAll (currencyData w)) as Hlen.
  pose proof (elem_of_getAll (currencyData w)) as Hin.
  destruct (getAll (currencyData w)) as [|first others] eqn:Hall.
  - rewrite wideRun_WRet. eexists _, _. split; [reflexivity|]. simpl.
    assert (currencyData w = ∅) as Hempty by (by apply map_size_empty_iff).
    rewrite Hempty, map_size_empty.
    split; [done|]. split; [done|]. split; [done|]. split; [done|].
    split; [|done]. apply bool_decide_eq_true.
  - rewrite wideRun_WRet. eexists _, _. split; [reflexivity|]. simpl.
    split; [by rewrite <- Hlen|].
    split; [split; [done|]; intros Hempty; rewrite Hempty, map_size_empty in Hlen; done|].
    split; [|split; [done|split; [apply bool_decide_eq_true|done]]].
    intros oldest [= <-].
    destruct (foldr_min_le (stored_lastUpdated first) (stored_lastUpdated <$> others))
      as (Hfirst & Hothers & Hattained).
    split.
    + apply elem_of_cons in Hattained as [Heq|(item & Heq & Hitem)%list_elem_of_fmap].
      * destruct (proj1 (Hin first) ltac:(left)) as [key Hkey]. by exists key, first.
      * destruct (proj1 (Hin item) ltac:(by right)) as [key Hkey]. by exists key, item.
    + intros key item Hkey.
      assert (item ∈ first :: others) as [->|Hitem]%elem_of_cons
        by (apply Hin; by exists key); [done|].
      rewrite Forall_forall in Hothers. apply Hothers. by apply list_elem_of_fmap_2.
Qed.

(** ** currencyApi.ts: [syncAllCachedDataToBackend] *)

Section Uploads.
Variable env : WideEnv.

Lemma untouched_refl w : untouched w w.
Proof. done. Qed.

Lemma untouched_trans w1 w2 w3 : untouched w1 w2 → untouched w2 w3 → untouched w1 w3.
Proof.
  intros (? & ? & ? & ? & ?) (? & ? & ? & ? & ?).
  repeat split; congruence.
Qed.

Lemma wideRun_isBackendAvailable w :
  wideRun env isBackendAvailable w
  = (WReturned match backendStatus env (tick (inner w)) with
               | Some response => ok response
               | None => false
               end,
     mkWideWorld (answered (inner w)) (uploads w)).
Proof.
  unfold isBackendAvailable. rewrite wideRun_tryCatch, wideRun_bind. simpl.
  by destruct (backendStatus env (tick (inner w))).
Qed.

(** One post: the batch is recorded, and nothing else of note happens. *)
Lemma wideRun_saveRatesToBackend rates w :
  ∃ saved w',
    wideRun env (Upload.saveRatesToBackend rates) w = (WReturned saved, w')
    ∧ uploads w' = rates :: uploads w
    ∧ untouched (inner w) (inner w')
    ∧ (acceptsUploads env → saved = true).
Proof.
  unfold Upload.saveRatesToBackend. rewrite wideRun_tryCatch, wideRun_bind.
  simpl (wideRun env (ask _) w). cbv iota.
  destruct (uploadSave env (tick (inner w)) rates) as [response|] eqn:Hpost.
  - destruct (ok response) eqn:Hok; simpl negb; cbv iota.
    + rewrite wideRun_bind. simpl (wideRun env (ask _) _). cbv iota.
      destruct (json response) as [result|] eqn:Hjson.
      * eexists _, _. split; [reflexivity|]. split; [done|]. split; [done|].
        intros Haccepts. destruct (Haccepts (tick (inner w)) rates)
          as (response' & result' & Hpost' & _ & Hjson' & Hsuccess).
        rewrite Hpost in Hpost'. injection Hpost' as <-.
        rewrite Hjson in Hjson'. by injection Hjson' as <-.
      * eexists _, _. split; [reflexivity|]. split; [done|]. split; [done|].
        intros Haccepts. destruct (Haccepts (tick (inner w)) rates)
          as (response' & result' & Hpost' & _ & Hjson' & _).
        rewrite Hpost in Hpost'. injection Hpost' as <-. congruence.
    + eexists _, _. split; [reflexivity|]. split; [done|]. split; [done|].
      intros Haccepts. destruct (Haccepts (tick (inner w)) rates)
        as (response' & result' & Hpost' & Hok' & _).
      rewrite Hpost in Hpost'. injection Hpost' as <-. congruence.
  - eexists _, _. split; [reflexivity|]. split; [done|]. split; [done|].
    intros Haccepts. destruct (Haccepts (tick (inner w)) rates)
      as (response' & result' & Hpost' & _). congruence.
Qed.

Lemma uploadBatches_step backendRates i :
  uploadBatches backendRates i
  = if decide (i < length backendRates)%nat then
      saved ← Upload.saveRatesToBackend (take BATCH_SIZE (drop i backendRates));
      if negb saved
      then WThrow (BatchNotSaved i (i + length (take BATCH_SIZE (drop i backendRates))))
      else uploadBatches backendRates (i + BATCH_SIZE)
    else WRet tt.
Proof.
  rewrite uploadBatches_equation_1.
  by destruct (decide (i < length backendRates)%nat).
Qed.

(** The upload loop from [i] on: the batches go out in order, each of at
    most [BATCH_SIZE] rows and none empty, and together they are the rows
    from [i] on, up to the first batch that is not saved. *)
Lemma uploadBatches_posts backendRates i w :
  ∃ outcome batches w',
    wideRun env (uploadBatches backendRates i) w = (outcome, w')
    ∧ uploads w' = reverse batches ++ uploads w
    ∧ untouched (inner w) (inner w')
    ∧ Forall (λ batch, (0 < length batch ≤ BATCH_SIZE)%nat) batches
    ∧ match outcome with
      | WReturned _ => concat batches = drop i backendRates
      | WThrown _ => concat batches `prefix_of` drop i backendRates
      end
    ∧ (acceptsUploads env → outcome = WReturned tt).
Proof.
  remember (length backendRates - i)%nat as n eqn:Hn.
  revert i w Hn. induction n as [n IH] using lt_wf_ind. intros i w ->.
  rewrite uploadBatches_step.
  destruct (decide (i < length backendRates)%nat) as [Hlt|Hge].
  - rewrite wideRun_bind.
    destruct (wideRun_saveRatesToBackend (take BATCH_SIZE (drop i backendRates)) w)
      as (saved & w1 & -> & Hup & Hquiet & Haccepted).
    cbv iota.
    assert (0 < length (take BATCH_SIZE (drop i backendRates)) ≤ BATCH_SIZE)%nat as Hbatch.
    { rewrite length_take, length_drop. unfold BATCH_SIZE. lia. }
    destruct saved; simpl negb; cbv iota.
    + destruct (IH (length backendRates - (i + BATCH_SIZE))%nat
                  ltac:(unfold BATCH_SIZE; lia) (i + BATCH_SIZE)%nat w1 eq_refl)
        as (outcome & batches & w2 & -> & Hup2 & Hquiet2 & Hsizes & Hrows & Haccepted2).
      exists outcome, (take BATCH_SIZE (drop i backendRates) :: batches), w2.
      split; [done|]. split; [|split; [by eapply untouched_trans|split; [by constructor|split; [|done]]]].
      * rewrite Hup2, Hup, reverse_cons, <- app_assoc. done.
      * destruct outcome as [[]|err].
        -- simpl. rewrite Hrows, <- drop_drop. apply take_drop.
        -- simpl. rewrite <- (take_drop BATCH_SIZE (drop i backendRates)) at 2.
           apply prefix_app. by rewrite drop_drop.
    + exists (WThrown (BatchNotSaved i (i + length (take BATCH_SIZE (drop i backendRates))))),
        [take BATCH_SIZE (drop i backendRates)], w1.
      split; [done|]. split; [by rewrite Hup|]. split; [done|].
      split; [constructor; [exact Hbatch|constructor]|]. split.
      * simpl. rewrite app_nil_r. apply prefix_take.
      * intros Haccepts. by specialize (Haccepted Haccepts).
  - exists (WReturned tt), [], w. split; [done|]. split; [done|]. split; [done|].
    split; [constructor|]. split; [|done].
    simpl. by rewrite drop_ge by lia.
Qed.

(** One cached pair of [syncAllCachedDataToBackend]. *)
Lemma upload_item (onProgress : bool) (total : Z) (cachedData : CachedPair.t)
    (current success failed totalRecords : Z) w :
  ∃ success' failed' totalRecords' batches w',
    wideRun env
      (let pairName := templateText (CachedPair.from cachedData) +:+ "/"
                       +:+ templateText (CachedPair.to cachedData) in
       let current := current + 1 in
       '(success, failed, totalRecords, continued) ←
         wideTryCatch
           (let rates := CachedPair.rates cachedData in
            if bool_decide (length rates = 0%nat) then
              widen (reportProgress onProgress current total pairName);;
              WRet (success, failed, totalRecords, true)
            else
              let backendRates :=
                toUploadRate (CachedPair.from cachedData) (CachedPair.to cachedData)
                  <$> rates in
              uploadBatches backendRates 0;;
              let totalRecords := totalRecords + Z.of_nat (length rates) in
              WRet (success + 1, failed, totalRecords, false))
           (λ error, WRet (success, failed + 1, totalRecords, false));
       if (continued : bool) then WRet (current, success, failed, totalRecords) else
       widen (reportProgress onProgress current total pairName);;
       WRet (current, success, failed, totalRecords)) w
    = (WReturned (current + 1, success', failed', totalRecords'), w')
    ∧ uploads w' = reverse batches ++ uploads w
    ∧ Forall (λ batch, (0 < length batch ≤ BATCH_SIZE)%nat) batches
    ∧ (CachedPair.rates cachedData = [] ∧ batches = []
       ∧ success' = success ∧ failed' = failed ∧ totalRecords' = totalRecords
       ∨ CachedPair.rates cachedData ≠ [] ∧ concat batches = uploadRows cachedData
         ∧ success' = success + 1 ∧ failed' = failed
         ∧ totalRecords' = totalRecords + Z.of_nat (length (CachedPair.rates cachedData))
       ∨ CachedPair.rates cachedData ≠ []
         ∧ concat batches `prefix_of` uploadRows cachedData
         ∧ success' = success ∧ failed' = failed + 1 ∧ totalRecords' = totalRecords)
    ∧ (acceptsUploads env → failed' = failed)
    ∧ currencyData (inner w') = currencyData (inner w)
    ∧ metadata (inner w') = metadata (inner w)
    ∧ localStorage (inner w') = localStorage (inner w)
    ∧ providerRequests (trace (inner w')) = providerRequests (trace (inner w))
    ∧ progressReports (trace (inner w'))
      = (if onProgress
         then [(current + 1, total,
                templateText (CachedPair.from cachedData) +:+ "/"
                +:+ templateText (CachedPair.to cachedData))]
         else [])
        ++ progressReports (trace (inner w)).
Proof.
  cbv zeta. rewrite wideRun_bind, wideRun_tryCatch.
  case_bool_decide as Hempty.
  - rewrite wideRun_bind, wideRun_widen, run_reportProgress. cbn [fst snd]. cbv iota.
    rewrite ?wideRun_WRet. cbv iota. rewrite ?wideRun_WRet.
    eexists _, _, _, [], _. split; [reflexivity|]. split; [done|]. split; [constructor|].
    split; [left; by destruct (CachedPair.rates cachedData)|]. split; [done|].
    cbn [inner]. by destruct onProgress.
  - rewrite wideRun_bind.
    destruct (uploadBatches_posts (uploadRows cachedData) 0 w)
      as (outcome & batches & w1 & Hrun & Hup & (Hc & Hm & Hls & Hreq & Hrep) & Hsizes
          & Hrows & Haccepted).
    unfold uploadRows in Hrun. rewrite Hrun.
    assert (CachedPair.rates cachedData ≠ []) as Hne.
    { intros Hnil. by rewrite Hnil in Hempty. }
    destruct outcome as [[]|err]; cbv iota.
    + rewrite ?wideRun_WRet. cbv iota.
      rewrite wideRun_bind, wideRun_widen, run_reportProgress. cbn [fst snd]. cbv iota.
      rewrite ?wideRun_WRet.
      eexists _, _, _, batches, _. split; [reflexivity|]. split; [done|]. split; [done|].
      split; [right; left; by rewrite Hrows|]. split; [done|].
      cbn [inner]. destruct onProgress; cbn [trace log currencyData metadata localStorage];
        cbn [providerRequests progressReports]; by rewrite Hc, Hm, Hls, Hreq, Hrep.
    + rewrite ?wideRun_WRet. cbv iota.
      rewrite wideRun_bind, wideRun_widen, run_reportProgress. cbn [fst snd]. cbv iota.
      rewrite ?wideRun_WRet.
      eexists _, _, _, batches, _. split; [reflexivity|]. split; [done|]. split; [done|].
      split; [right; right; by rewrite drop_0 in Hrows|].
      split; [intros Haccepts; by specialize (Haccepted Haccepts)|].
      cbn [inner]. destruct onProgress; cbn [trace log currencyData metadata localStorage];
        cbn [providerRequests progressReports]; by rewrite Hc, Hm, Hls, Hreq, Hrep.
Qed.

(** The loop of [syncAllCachedDataToBackend]. *)
Lemma upload_loop (onProgress : bool) (total : Z)
    (body : CachedPair.t → Z * Z * Z * Z → WideProg (Z * Z * Z * Z)) :
  (∀ cachedData current success failed totalRecords w,
     ∃ success' failed' totalRecords' batches w',
       wideRun env (body cachedData (current, success, failed, totalRecords)) w
       = (WReturned (current + 1, success', failed', totalRecords'), w')
       ∧ uploads w' = reverse batches ++ uploads w
       ∧ Forall (λ batch, (0 < length batch ≤ BATCH_SIZE)%nat) batches
       ∧ (CachedPair.rates cachedData = [] ∧ batches = []
          ∧ success' = success ∧ failed' = failed ∧ totalRecords' = totalRecords
          ∨ CachedPair.rates cachedData ≠ [] ∧ concat batches = uploadRows cachedData
            ∧ success' = success + 1 ∧ failed' = failed
            ∧ totalRecords' = totalRecords + Z.of_nat (length (CachedPair.rates cachedData))
          ∨ CachedPair.rates cachedData ≠ []
            ∧ concat batches `prefix_of` uploadRows cachedData
            ∧ success' = success ∧ failed' = failed + 1 ∧ totalRecords' = totalRecords)
       ∧ (acceptsUploads env → failed' = failed)
       ∧ currencyData (inner w') = currencyData (inner w)
       ∧ metadata (inner w') = metadata (inner w)
       ∧ localStorage (inner w') = localStorage (inner w)
       ∧ providerRequests (trace (inner w')) = providerRequests (trace (inner w))
       ∧ progressReports (trace (inner w'))
         = (if onProgress
            then [(current + 1, total,
                   templateText (CachedPair.from cachedData) +:+ "/"
                   +:+ templateText (CachedPair.to cachedData))]
            else [])
           ++ progressReports (trace (inner w))) →
  ∀ pairs current success failed totalRecords w,
    ∃ success' failed' totalRecords' batches w',
      wideRun env (wideForOf pairs body (current, success, failed, totalRecords)) w
      = (WReturned (current + Z.of_nat (length pairs), success', failed', totalRecords'), w')
      ∧ uploads w' = reverse batches ++ uploads w
      ∧ Forall (λ batch, (0 < length batch ≤ BATCH_SIZE)%nat) batches
      ∧ success ≤ success' ∧ failed ≤ failed' ∧ totalRecords ≤ totalRecords'
      ∧ success' + failed'
        = success + failed
          + Z.of_nat (length (filter (λ cachedData, CachedPair.rates cachedData ≠ []) pairs))
      ∧ (length (concat batches) ≤ length (pairs ≫= uploadRows))%nat
      ∧ (acceptsUploads env →
         failed' = failed ∧ concat batches = pairs ≫= uploadRows
         ∧ totalRecords' = totalRecords + Z.of_nat (length (pairs ≫= uploadRows)))
      ∧ currencyData (inner w') = currencyData (inner w)
      ∧ metadata (inner w') = metadata (inner w)
      ∧ localStorage (inner w') = localStorage (inner w)
      ∧ providerRequests (trace (inner w')) = providerRequests (trace (inner w))
      ∧ progressReports (trace (inner w'))
        = (if onProgress then reverse (uploadReportsFrom current total pairs) else [])
          ++ progressReports (trace (inner w)).
Proof.
  intros Hbody pairs.
  induction pairs as [|cachedData pairs IH]; intros current success failed totalRecords w.
  - exists success, failed, totalRecords, [], w. simpl. rewrite Z.add_0_r.
    repeat split; try done; try lia. by destruct onProgress.
  - rewrite wideRun_forOf_cons.
    destruct (Hbody cachedData current success failed totalRecords w)
      as (success1 & failed1 & total1 & batches1 & w1 & -> & Hup & Hsizes & Hcases & Hacc
          & Hc & Hm & Hls & Hreq & Hrep).
    destruct (IH (current + 1) success1 failed1 total1 w1)
      as (success2 & failed2 & total2 & batches2 & w2 & -> & Hup2 & Hsizes2 & Hs & Hf & Ht
          & Hsum & Hlen & Hacc2 & Hc2 & Hm2 & Hls2 & Hreq2 & Hrep2).
    exists success2, failed2, total2, (batches1 ++ batches2), w2.
    rewrite length_cons, Nat2Z.inj_succ.
    assert (current + 1 + Z.of_nat (length pairs)
            = current + Z.succ (Z.of_nat (length pairs))) as -> by lia.
    split; [done|].
    split; [by rewrite Hup2, Hup, reverse_app, <- app_assoc|].
    split; [by apply Forall_app|].
    rewrite filter_cons, bind_cons, concat_app, !length_app.
    assert (length (uploadRows cachedData) = length (CachedPair.rates cachedData)) as Hrows
      by (unfold uploadRows; by rewrite length_fmap).
    split; [|split; [|split; [|split; [|split; [|split]]]]].
    + destruct Hcases as [(?&?&?&?&?)|[(?&?&?&?&?)|(?&?&?&?&?)]]; lia.
    + destruct Hcases as [(?&?&?&?&?)|[(?&?&?&?&?)|(?&?&?&?&?)]]; lia.
    + destruct Hcases as [(?&?&?&?&?)|[(?&?&?&?&?)|(?&?&?&?&?)]]; lia.
    + destruct Hcases as [(Hnil&?&?&?&?)|[(Hne&?&?&?&?)|(Hne&?&?&?&?)]].
      * rewrite decide_False by (by intros Hne). lia.
      * rewrite decide_True by done. simpl. lia.
      * rewrite decide_True by done. simpl. lia.
    + destruct Hcases as [(?&->&?&?&?)|[(?&->&?&?&?)|(?&Hpre&?&?&?)]]; simpl; try lia.
      apply prefix_length in Hpre. lia.
    + intros Haccepts. specialize (Hacc Haccepts).
      destruct (Hacc2 Haccepts) as (Hf2 & Hall & Ht2).
      destruct Hcases as [(Hnil&->&?&?&?)|[(?&Hall1&?&?&?)|(?&?&?&?&?)]]; [| |lia].
      * assert (uploadRows cachedData = []) as ->
          by (unfold uploadRows; by rewrite Hnil).
        simpl. split; [lia|]. split; [done|]. lia.
      * rewrite Hall1, Hall. split; [lia|]. split; [done|]. lia.
    + rewrite Hc2, Hm2, Hls2, Hreq2, Hrep2, Hrep.
      repeat split; try done. destruct onProgress; [|done].
      simpl. by rewrite reverse_cons, <- app_assoc.
Qed.

End Uploads.

(** X29. [syncAllCachedDataToBackend] never throws and only uploads. It
    stores nothing, asks the provider nothing and leaves the call counter
    alone. When the backend does not answer the status request with an OK
    status it returns [{success: 0, failed: n, totalRecords: 0}] for the
    [n] cached pairs, having posted nothing and reported nothing.
    Otherwise every posted batch holds between 1 and 500 rows, a cached
    pair with an empty series counts neither as a success nor as a failure,
    every other pair counts as one of the two, and progress is reported
    once per pair, in the order of the keys. *)
Theorem upload_never_throws env (onProgress : bool) (w : WideWorld) :
  ∃ success failure records batches w',
    wideRun env (syncAllCachedDataToBackend onProgress) w
    = (WReturned (success, failure, records), w')
    ∧ currencyData (inner w') = currencyData (inner w)
    ∧ metadata (inner w') = metadata (inner w)
    ∧ localStorage (inner w') = localStorage (inner w)
    ∧ providerRequests (trace (inner w')) = providerRequests (trace (inner w))
    ∧ uploads w' = reverse batches ++ uploads w
    ∧ Forall (λ batch, (0 < length batch ≤ BATCH_SIZE)%nat) batches
    ∧ if match backendStatus env (2 + tick (inner w)) with
         | Some response => ok response
         | None => false
         end
      then
        0 ≤ success ∧ 0 ≤ failure ∧ 0 ≤ records
        ∧ success + failure
          = Z.of_nat (length (filter (λ cachedData, CachedPair.rates cachedData ≠ [])
                                     (listedPairs (inner w))))
        ∧ reverse (progressReports (trace (inner w')))
          = reverse (progressReports (trace (inner w)))
            ++ (if onProgress
                then uploadReportsFrom 0 (Z.of_nat (length (listedPairs (inner w))))
                       (listedPairs (inner w))
                else [])
      else
        (success, failure, records) = (0, Z.of_nat (size (currencyData (inner w))), 0)
        ∧ batches = []
        ∧ progressReports (trace (inner w')) = progressReports (trace (inner w)).
Proof.
  unfold syncAllCachedDataToBackend.
  rewrite wideRun_bind, wideRun_getAllCachedPairs. cbv iota zeta.
  rewrite wideRun_bind, wideRun_isBackendAvailable. cbn [inner uploads]. cbv iota.
  change (tick (answered (answered (log DbOpened (inner w))))) with (2 + tick (inner w))%nat.
  fold (listedPairs (inner w)).
  destruct (match backendStatus env (2 + tick (inner w)) with
            | Some response => ok response
            | None => false
            end); simpl negb; cbv iota.
  - rewrite wideRun_bind.
    match goal with
    | |- context [wideRun env (wideForOf ?ps ?body (?c0, ?s0, ?f0, ?t0)) ?w0] =>
        destruct (upload_loop env onProgress (Z.of_nat (length (listedPairs (inner w)))) body
                    (λ cd cur suc fai tot w1,
                       upload_item env onProgress _ cd cur suc fai tot w1)
                    ps c0 s0 f0 t0 w0)
          as (success & failure & records & batches & w' & -> & Hup & Hsizes & Hs & Hf & Ht
              & Hsum & _ & _ & Hc & Hm & Hls & Hreq & Hrep)
    end.
    cbv iota. rewrite wideRun_WRet.
    exists success, failure, records, batches, w'. split; [done|].
    cbn [inner uploads] in *.
    split; [done|]. split; [done|]. split; [done|]. split; [done|]. split; [done|].
    split; [done|]. split; [lia|]. split; [lia|]. split; [lia|]. split; [lia|].
    rewrite Hrep, reverse_app. by destruct onProgress; rewrite ?reverse_involutive.
  - rewrite wideRun_WRet. eexists _, _, _, [], _. split; [reflexivity|].
    cbn [inner uploads]. repeat split; try done.
    unfold listedPairs. by rewrite length_fmap, length_getAll.
Qed.

(** X30. An upload the backend accepts loses nothing. When the backend
    answers the status request with an OK status and accepts every post,
    [syncAllCachedDataToBackend] reports no failure and as many records as
    the cached pairs hold; the batches it posted, taken in order, hold one
    row for every record of every cached pair, the pairs in the order of
    their keys and the records in the order of the series, each row with
    the pair's [from] and [to] and the record's date, open, high, low and
    close; and every batch holds between 1 and 500 rows. *)
Theorem accepted_upload_sends_every_row env (onProgress : bool) (w : WideWorld) :
  backendIsUp env → acceptsUploads env →
  ∃ success records batches w',
    wideRun env (syncAllCachedDataToBackend onProgress) w
    = (WReturned (success, 0, records), w')
    ∧ uploads w' = reverse batches ++ uploads w
    ∧ concat batches
      = listedPairs (inner w) ≫= (λ cachedData,
           (λ rate, {| UploadRate.from := CachedPair.from cachedData;
                       UploadRate.to := CachedPair.to cachedData;
                       UploadRate.date := date rate;
                       UploadRate.open := open rate;
                       UploadRate.high := high rate;
                       UploadRate.low := low rate;
                       UploadRate.close := close rate |})
             <$> CachedPair.rates cachedData)
    ∧ Forall (λ batch, (0 < length batch ≤ 500)%nat) batches
    ∧ records = Z.of_nat (length (listedPairs (inner w) ≫= CachedPair.rates))
    ∧ success = Z.of_nat (length (filter (λ cachedData, CachedPair.rates cachedData ≠ [])
                                         (listedPairs (inner w)))).
Proof.
  intros Hup Haccepts. unfold syncAllCachedDataToBackend.
  rewrite wideRun_bind, wideRun_getAllCachedPairs. cbv iota zeta.
  rewrite wideRun_bind, wideRun_isBackendAvailable. cbn [inner uploads]. cbv iota.
  destruct (Hup (tick (answered (answered (log DbOpened (inner w))))))
    as (response & -> & ->).
  simpl negb. cbv iota. fold (listedPairs (inner w)).
  rewrite wideRun_bind.
  match goal with
  | |- context [wideRun env (wideForOf ?ps ?body (?c0, ?s0, ?f0, ?t0)) ?w0] =>
      destruct (upload_loop env onProgress (Z.of_nat (length (listedPairs (inner w)))) body
                  (λ cd cur suc fai tot w1,
                     upload_item env onProgress _ cd cur suc fai tot w1)
                  ps c0 s0 f0 t0 w0)
        as (success & failure & records & batches & w' & -> & Hposted & Hsizes & _ & _ & _
            & Hsum & _ & Hacc & _)
  end.
  destruct (Hacc Haccepts) as (-> & Hall & ->).
  cbv iota. rewrite wideRun_WRet.
  exists success, (0 + Z.of_nat (length (listedPairs (inner w) ≫= uploadRows))), batches, w'.
  split; [done|]. split; [done|]. split; [done|]. split; [done|].
  split; [|lia].
  assert (∀ pairs : list CachedPair.t,
            length (pairs ≫= uploadRows) = length (pairs ≫= CachedPair.rates)) as ->; [|lia].
  intros pairs. induction pairs as [|pair pairs IH]; [done|].
  rewrite !bind_cons, !length_app, IH. unfold uploadRows. by rewrite length_fmap.
Qed.

Lemma accepted_upload_sends_every_row_witness :
  backendIsUp uploadEnv ∧ acceptsUploads uploadEnv
  ∧ ∃ success records batches w',
      wideRun uploadEnv (syncAllCachedDataToBackend true) (mkWideWorld crossWorld [])
      = (WReturned (success, 0, records), w')
      ∧ uploads w' = reverse batches ++ []
      ∧ concat batches
        = listedPairs crossWorld ≫= (λ cachedData,
             (λ rate, {| UploadRate.from := CachedPair.from cachedData;
                         UploadRate.to := CachedPair.to cachedData;
                         UploadRate.date := date rate;
                         UploadRate.open := open rate;
                         UploadRate.high := high rate;
                         UploadRate.low := low rate;
                         UploadRate.close := close rate |})
               <$> CachedPair.rates cachedData)
      ∧ Forall (λ batch, (0 < length batch ≤ 500)%nat) batches
      ∧ records = Z.of_nat (length (listedPairs crossWorld ≫= CachedPair.rates))
      ∧ success = Z.of_nat (length (filter (λ cachedData, CachedPair.rates cachedData ≠ [])
                                           (listedPairs crossWorld))).
Proof.
  assert (backendIsUp uploadEnv) as Hup by (intros t; eexists; by split).
  assert (acceptsUploads uploadEnv) as Haccepts by (intros t rows; eexists _, _; by repeat split).
  split; [exact Hup|]. split; [exact Haccepts|].
  exact (accepted_upload_sends_every_row uploadEnv true (mkWideWorld crossWorld [])
           Hup Haccepts).
Defined.

(** An upload in batches: 1200 records of GBP/USD go out as 500, 500 and
    200; CHF/USD, cached with no record, is reported but counted neither
    as a success nor as a failure. *)
Example upload_in_three_batches :
  (wideRun uploadEnv (syncAllCachedDataToBackend true) (mkWideWorld longWorld [])).1
  = WReturned (1, 0, 1200)
  ∧ length <$> reverse (uploads (wideRun uploadEnv (syncAllCachedDataToBackend true)
                                   (mkWideWorld longWorld [])).2)
    = [500; 500; 200]%nat
  ∧ reverse (progressReports
               (trace (inner (wideRun uploadEnv (syncAllCachedDataToBackend true)
                                (mkWideWorld longWorld [])).2)))
    = [(1, 2, "CHF/USD"); (2, 2, "GBP/USD")].
Proof. by vm_compute. Qed.
Section Guarantees.
Variable env : Env.
Variable inv : World → Prop.

Lemma guarantees_run {A} (Q : A → Prop) (p : Prog A) w :
  guarantees env inv Q p → inv w →
  inv (run env p w).2 ∧ ∀ a, (run env p w).1 = Returned a → Q a.
Proof.
  revert w. induction p as [a|err|X e k IH]; simpl; intros w Hp Hw.
  - split; [done|]. by intros ? [= <-].
  - done.
  - destruct (Hp w Hw) as [Hinv Hk]. destruct (handle env e w) as [x w']. by apply IH.
Qed.

Lemma guarantees_impl {A} (Q R : A → Prop) (p : Prog A) :
  (∀ a, Q a → R a) → guarantees env inv Q p → guarantees env inv R p.
Proof.
  intros HQR. induction p as [a|err|X e k IH]; simpl; [by auto|done|].
  intros Hp w Hw. destruct (Hp w Hw). split; [done|]. by apply IH.
Qed.

Lemma guarantees_bind {A B} (Q : A → Prop) (R : B → Prop) (p : Prog A) (f : A → Prog B) :
  guarantees env inv Q p → (∀ a, Q a → guarantees env inv R (f a)) →
  guarantees env inv R (p ≫= f).
Proof.
  intros Hp Hf. induction p as [a|err|X e k IH]; simpl in *; [by apply Hf|done|].
  intros w Hw. destruct (Hp w Hw). split; [done|]. by apply IH.
Qed.

Lemma guarantees_tryCatch {A} (Q : A → Prop) (p : Prog A) (handler : Error → Prog A) :
  guarantees env inv Q p → (∀ err, guarantees env inv Q (handler err)) →
  guarantees env inv Q (tryCatch p handler).
Proof.
  intros Hp Hh. induction p as [a|err|X e k IH]; simpl in *; [done|by apply Hh|].
  intros w Hw. destruct (Hp w Hw). split; [done|]. by apply IH.
Qed.

Lemma guarantees_perform {X} (Q : X → Prop) (e : Eff X) :
  (∀ w, inv w → inv (handle env e w).2 ∧ Q (handle env e w).1) →
  guarantees env inv Q (perform e).
Proof. done. Qed.

Lemma guarantees_drain {A C} (Q : A → Prop) (R : C → Prop) (p : Prog A) err :
  guarantees env inv Q p → guarantees env inv R (drain p err).
Proof.
  induction p as [a|err'|X e k IH]; simpl; [done..|].
  intros Hp w Hw. destruct (Hp w Hw). split; [done|]. by apply IH.
Qed.

Hypothesis inv_PickLeg : ∀ w, inv w → inv (handle env PickLeg w).2.

(** Two legs run together guarantee what each guarantees alone. *)
Lemma guarantees_all2 {A B} (Q : A → Prop) (R : B → Prop) (p : Prog A) (q : Prog B) :
  guarantees env inv Q p → guarantees env inv R q →
  guarantees env inv (λ ab, Q ab.1 ∧ R ab.2) (all2 p q).
Proof using inv_PickLeg.
  revert q. induction p as [a|err|X e k IHp]; intros q Hp Hq.
  - assert (all2 (Ret a) q = q ≫= (λ b, Ret (a, b))) as -> by (by destruct q).
    apply (guarantees_bind R); [done|]. by intros b Hb.
  - assert (all2 (Throw err : Prog A) q = drain q err) as -> by (by destruct q).
    by apply (guarantees_drain R).
  - induction q as [b|err|Y e' k' IHq]; rewrite all2_Vis_l.
    + destruct (awaited e).
      * apply (guarantees_bind Q); [done|]. by intros a Ha.
      * intros w Hw. destruct (Hp w Hw). split; [done|]. by apply IHp.
    + destruct (awaited e).
      * by apply (guarantees_drain Q).
      * intros w Hw. destruct (Hp w Hw). split; [done|]. by apply IHp.
    + destruct (awaited e).
      * destruct (awaited e').
        -- intros w Hw. split; [by apply inv_PickLeg|].
           destruct (handle env PickLeg w).1.
           ++ intros w1 Hw1. destruct (Hp w1 Hw1). split; [done|]. by apply IHp.
           ++ intros w1 Hw1. destruct (Hq w1 Hw1). split; [done|]. by apply IHq.
        -- intros w Hw. destruct (Hq w Hw). split; [done|]. by apply IHq.
      * intros w Hw. destruct (Hp w Hw). split; [done|]. by apply IHp.
Qed.

End Guarantees.
Section KeyedByDate.
Variable env : Env.

Lemma handle_spares_keys {X} (e : Eff X) w :
  sparesCache X e = true → cacheKeyedByDate w → cacheKeyedByDate (handle env e w).2.
Proof. by destruct e. Qed.

Lemma handle_DbPut_keys value w :
  keyedByDate (stored_rates value) → cacheKeyedByDate w →
  cacheKeyedByDate (handle env (DbPut value) w).2.
Proof.
  intros Hvalue Hw key item. simpl. rewrite lookup_insert_Some.
  intros [[_ <-]|[_ Hitem]]; [done|by eapply Hw].
Qed.

(** A program that does not write the cache keeps it keyed by date. *)
Lemma sparesCache_guarantees {A} (p : Prog A) :
  asksOnly sparesCache p → guarantees env cacheKeyedByDate (λ _, True) p.
Proof.
  induction p as [a|err|X e k IH]; simpl; [done..|].
  intros [He Hk] w Hw. split; [by apply handle_spares_keys|]. by apply IH.
Qed.

Lemma guarantees_getCurrencyData from to :
  guarantees env cacheKeyedByDate
    (λ cached, keyedByDate (default [] (rates <$> cached))) (getCurrencyData from to).
Proof.
  unfold getCurrencyData. simpl. intros w Hw. split; [done|].
  intros w1 Hw1. split; [done|]. simpl.
  destruct (currencyData w1 !! getPairKey from to) as [item|] eqn:Hitem; simpl.
  - by eapply Hw1.
  - constructor.
Qed.

Lemma guarantees_saveCurrencyData from to rates :
  keyedByDate rates →
  guarantees env cacheKeyedByDate (λ _, True) (saveCurrencyData from to rates).
Proof.
  intros Hrates. unfold saveCurrencyData. simpl. intros w Hw. split; [done|].
  intros w1 Hw1. split; [done|]. intros w2 Hw2. split; [|done].
  by apply handle_DbPut_keys.
Qed.

Lemma keyedByDate_toDailyRate rows :
  NoDup (ExchangeRateRecord.date <$> rows) → keyedByDate (toDailyRate <$> rows).
Proof. unfold keyedByDate. by rewrite <- list_fmap_compose. Qed.

Lemma keyedByDate_parseRates data :
  (∀ timeSeries, TimeSeriesFXDaily data = Some timeSeries → NoDup timeSeries.*1) →
  keyedByDate (parseRates env data).
Proof.
  intros Hkeys. unfold keyedByDate, parseRates.
  destruct (TimeSeriesFXDaily data) as [timeSeries|]; [|constructor].
  rewrite sortWith_Permutation, <- list_fmap_compose.
  erewrite list_fmap_ext; [by apply Hkeys|]. by intros i [d values] _.
Qed.

Hypothesis Hsources : sourcesKeyedByDate env.

Lemma guarantees_fetchRatesFromBackend from to startDate endDate :
  guarantees env cacheKeyedByDate (λ rows, NoDup (ExchangeRateRecord.date <$> rows))
    (fetchRatesFromBackend from to startDate endDate).
Proof using Hsources.
  unfold fetchRatesFromBackend. simpl. intros w Hw. split; [done|]. simpl.
  destruct (backendRates env (tick w) from to _ _) as [response|] eqn:Hresponse; simpl;
    [|constructor].
  destruct (ok response); simpl; [|constructor].
  intros w1 Hw1. split; [done|]. simpl.
  destruct (json response) as [result|] eqn:Hjson; simpl; [|constructor].
  destruct (RatesResponse.success result); simpl; [|constructor].
  by eapply (proj2 Hsources).
Qed.

Lemma guarantees_fetchFromApi from to :
  guarantees env cacheKeyedByDate keyedByDate (fetchFromApi env from to).
Proof using Hsources.
  unfold fetchFromApi.
  apply (guarantees_bind _ _ (λ _, True)).
  { apply sparesCache_guarantees. unfold canMakeApiCall, loadData, freshData, getTodayDate.
    asks. }
  intros allowed _. destruct allowed; simpl negb; cbv iota; [|done].
  apply (guarantees_bind _ _ (λ _, True)).
  { apply sparesCache_guarantees.
    unfold getTimeUntilNextCall, loadData, freshData, getTodayDate. asks. }
  intros waitTime _.
  apply (guarantees_bind _ _ (λ _, True)).
  { apply sparesCache_guarantees. case_bool_decide; asks. }
  intros _ _.
  apply (guarantees_bind _ _
           (λ response, ∀ r data timeSeries,
              response = Some r → json r = Some data →
              TimeSeriesFXDaily data = Some timeSeries → NoDup timeSeries.*1)).
  { apply guarantees_perform. intros w Hw. split; [done|]. simpl.
    intros r data timeSeries Hr. by eapply (proj1 Hsources). }
  intros [response|] Hresponse; [|done].
  apply (guarantees_bind _ _ (λ _, True)).
  { apply sparesCache_guarantees.
    unfold recordApiCall, loadData, freshData, getTodayDate, saveData. asks. }
  intros _ _. destruct (ok response); simpl negb; cbv iota; [|done].
  apply (guarantees_bind _ _ (λ data, data = json response)).
  { apply guarantees_perform. intros w Hw. by split. }
  intros data ->. destruct (json response) as [data|] eqn:Hjson; [|done].
  destruct (truthy (Note data)); [done|].
  destruct (truthy (ErrorMessage data)); [done|].
  simpl. apply keyedByDate_parseRates. intros timeSeries. by eapply Hresponse.
Qed.

Lemma guarantees_directLookup from to forceRefresh :
  guarantees env cacheKeyedByDate keyedByDate (directLookup env from to forceRefresh).
Proof using Hsources.
  unfold directLookup.
  apply (guarantees_bind _ _ _ _ _ _ (guarantees_getCurrencyData from to)).
  intros cached Hcached.
  destruct (hasRates cached && negb forceRefresh); [done|].
  apply (guarantees_bind _ _
           (λ adopted, ∀ rates, adopted = Some rates → keyedByDate rates)).
  { destruct (negb forceRefresh); [|done].
    apply guarantees_tryCatch; [|done].
    apply (guarantees_bind _ _ _ _ _ _ (guarantees_fetchRatesFromBackend _ _ _ _)).
    intros backendRates Hrows. case_bool_decide; [|done]. cbv zeta.
    apply (guarantees_bind _ _ (λ _, True)).
    { by apply guarantees_saveCurrencyData, keyedByDate_toDailyRate. }
    intros _ _ rates [= <-]. by apply keyedByDate_toDailyRate. }
  intros [rates|] Hadopted; [by apply Hadopted|].
  destruct (forceRefresh || negb (hasRates cached)); [|constructor].
  apply guarantees_tryCatch.
  - apply (guarantees_bind _ _ _ _ _ _ (guarantees_fetchFromApi from to)).
    intros rates Hrates.
    apply (guarantees_bind _ _ (λ _, True)); [by apply guarantees_saveCurrencyData|].
    intros _ _.
    apply (guarantees_bind _ _ (λ _, True)); [|done].
    apply sparesCache_guarantees. case_bool_decide; [|done].
    apply asksOnly_tryCatch; [|done].
    apply asksOnly_bind; [apply saveRatesToBackend_sparesCache|done].
  - intros error. by destruct (hasRates cached).
Qed.

Lemma guarantees_base_pair (X : CurrencyCode) forceRefresh :
  guarantees env cacheKeyedByDate keyedByDate
    (getCurrencyPairData env X BASE_CURRENCY forceRefresh).
Proof using Hsources.
  destruct (decide (X = BASE_CURRENCY)) as [->|HX].
  - rewrite getCurrencyPairData_same. constructor.
  - rewrite getCurrencyPairData_direct by done. apply guarantees_directLookup.
Qed.

End KeyedByDate.
(** ** The cross pair *)

(** What the map holds for a date is the last record of the to-leg of that
    date. *)
Lemma buildDateMap_lookup_last (toToUsd : list DailyRate) (d : string) :
  buildDateMap toToUsd !! d = last (filter (λ toRate, date toRate = d) toToUsd).
Proof.
  induction toToUsd as [|rate toToUsd IH] using rev_ind; [done|].
  rewrite buildDateMap_snoc, filter_app.
  destruct (decide (date rate = d)) as [<-|Hne].
  - rewrite lookup_insert_eq, filter_cons_True by done. by rewrite filter_nil, last_snoc.
  - rewrite lookup_insert_ne, filter_cons_False by done. by rewrite filter_nil, app_nil_r.
Qed.

Lemma calculateCrossRate_last (fromToUsd toToUsd : list DailyRate) :
  calculateCrossRate fromToUsd toToUsd
  = omap (λ fromRate,
            crossRecord fromRate
              <$> last (filter (λ toRate, date toRate = date fromRate) toToUsd))
         fromToUsd.
Proof.
  induction fromToUsd as [|fromRate fromToUsd IH]; [done|].
  rewrite calculateCrossRate_cons, buildDateMap_lookup_last. simpl.
  destruct (last _); simpl; by rewrite IH.
Qed.

(** C2. For currencies [X] and [Y], both other than the base and different,
    [getCurrencyPairData X Y f] runs the two base-relative resolutions
    together; when one of them throws, so does the whole, and when they
    return the legs [fromLeg] and [toLeg] it returns the join [out] of the
    two on equal dates:
    - record for record, [out] is the from-leg with every record whose date
      the to-leg has divided by the to-leg's record of that date
      ([open = open_from / open_to], [high = high_from / low_to],
      [low = low_from / high_to], [close = close_from / close_to], the date
      kept), and every record whose date the to-leg does not have left out;
      were the to-leg to carry a date more than once, its last record of
      that date is the one taken;
    - so the dates of [out] are the from-leg dates that the to-leg has too,
      none added, and every record of [out] is the quotient of a from-record
      and a to-record of the same date;
    - with no date twice in the to-leg, [out] is the relational inner join:
      one record for every pair of a from-record and a to-record of equal
      date; and the legs do have no date twice whenever the cache and the
      two sources are keyed by date, as the provider's payload (an object
      keyed by date) and the backend's table (unique in pair and date) are;
    - [out] is empty when a leg is empty. *)
Theorem cross_pair_is_inner_join env (X Y : CurrencyCode) (f : bool) (w : World) :
  X ≠ BASE_CURRENCY → Y ≠ BASE_CURRENCY → X ≠ Y →
  match run env (all2 (getCurrencyPairData env X BASE_CURRENCY f)
                      (getCurrencyPairData env Y BASE_CURRENCY f)) w with
  | (Returned (fromLeg, toLeg), w') =>
      ∃ out,
        run env (getCurrencyPairData env X Y f) w = (Returned out, w')
        ∧ out = omap (λ fromRate,
                        (λ toRate, {| date := date fromRate;
                                      open := open fromRate / open toRate;
                                      high := high fromRate / low toRate;
                                      low := low fromRate / high toRate;
                                      close := close fromRate / close toRate |}%float)
                          <$> last (filter (λ toRate, date toRate = date fromRate) toLeg))
                     fromLeg
        ∧ date <$> out = filter (λ d, d ∈ date <$> toLeg) (date <$> fromLeg)
        ∧ (∀ r, r ∈ out →
             ∃ fromRate toRate, fromRate ∈ fromLeg ∧ toRate ∈ toLeg
               ∧ date toRate = date fromRate ∧ date r = date fromRate
               ∧ open r = (open fromRate / open toRate)%float
               ∧ high r = (high fromRate / low toRate)%float
               ∧ low r = (low fromRate / high toRate)%float
               ∧ close r = (close fromRate / close toRate)%float)
        ∧ (NoDup (date <$> toLeg) →
           out = fromRate ← fromLeg;
                 (λ toRate, {| date := date fromRate;
                               open := open fromRate / open toRate;
                               high := high fromRate / low toRate;
                               low := low fromRate / high toRate;
                               close := close fromRate / close toRate |}%float)
                   <$> filter (λ toRate, date toRate = date fromRate) toLeg)
        ∧ (sourcesKeyedByDate env → cacheKeyedByDate w →
           NoDup (date <$> fromLeg) ∧ NoDup (date <$> toLeg) ∧ cacheKeyedByDate w')
        ∧ (fromLeg = [] ∨ toLeg = [] → out = [])
  | (Thrown err, w') =>
      run env (getCurrencyPairData env X Y f) w = (Thrown err, w')
  end.
Proof.
  intros HX HY HXY. rewrite (getCurrencyPairData_cross env X Y f), run_bind by done.
  destruct (run env (all2 _ _) w) as [[[fromLeg toLeg]|err] w'] eqn:Hlegs; [|done].
  exists (calculateCrossRate fromLeg toLeg).
  split; [|split; [|split; [|split; [|split; [|split]]]]].
  - destruct fromLeg; [done|]. destruct toLeg; [|done].
    simpl. by rewrite calculateCrossRate_nil_r.
  - apply calculateCrossRate_last.
  - apply calculateCrossRate_dates.
  - intros r (fromRate & toRate & ? & ? & ? & ->)%calculateCrossRate_elem_of.
    by exists fromRate, toRate.
  - apply calculateCrossRate_innerJoin.
  - intros Hsources Hcache.
    destruct (guarantees_run env cacheKeyedByDate _ _ w
                (guarantees_all2 env cacheKeyedByDate ltac:(done) _ _ _ _
                   (guarantees_base_pair env Hsources X f)
                   (guarantees_base_pair env Hsources Y f)) Hcache) as [Hcache' Hkeyed].
    rewrite Hlegs in Hcache', Hkeyed. destruct (Hkeyed _ eq_refl). done.
  - intros [->| ->]; [done|apply calculateCrossRate_nil_r].
Qed.

Lemma cross_pair_is_inner_join_witness :
  EUR ≠ BASE_CURRENCY ∧ JPY ≠ BASE_CURRENCY ∧ EUR ≠ JPY
  ∧ match run offlineEnv
            (all2 (getCurrencyPairData offlineEnv EUR BASE_CURRENCY false)
                  (getCurrencyPairData offlineEnv JPY BASE_CURRENCY false)) crossWorld with
    | (Returned (fromLeg, toLeg), w') =>
        ∃ out,
          run offlineEnv (getCurrencyPairData offlineEnv EUR JPY false) crossWorld
          = (Returned out, w')
          ∧ out = omap (λ fromRate,
                          (λ toRate, {| date := date fromRate;
                                        open := open fromRate / open toRate;
                                        high := high fromRate / low toRate;
                                        low := low fromRate / high toRate;
                                        close := close fromRate / close toRate |}%float)
                            <$> last (filter (λ toRate, date toRate = date fromRate) toLeg))
                       fromLeg
          ∧ date <$> out = filter (λ d, d ∈ date <$> toLeg) (date <$> fromLeg)
          ∧ (∀ r, r ∈ out →
               ∃ fromRate toRate, fromRate ∈ fromLeg ∧ toRate ∈ toLeg
                 ∧ date toRate = date fromRate ∧ date r = date fromRate
                 ∧ open r = (open fromRate / open toRate)%float
                 ∧ high r = (high fromRate / low toRate)%float
                 ∧ low r = (low fromRate / high toRate)%float
                 ∧ close r = (close fromRate / close toRate)%float)
          ∧ (NoDup (date <$> toLeg) →
             out = fromRate ← fromLeg;
                   (λ toRate, {| date := date fromRate;
                                 open := open fromRate / open toRate;
                                 high := high fromRate / low toRate;
                                 low := low fromRate / high toRate;
                                 close := close fromRate / close toRate |}%float)
                     <$> filter (λ toRate, date toRate = date fromRate) toLeg)
          ∧ (sourcesKeyedByDate offlineEnv → cacheKeyedByDate crossWorld →
             NoDup (date <$> fromLeg) ∧ NoDup (date <$> toLeg) ∧ cacheKeyedByDate w')
          ∧ (fromLeg = [] ∨ toLeg = [] → out = [])
    | (Thrown err, w') =>
        run offlineEnv (getCurrencyPairData offlineEnv EUR JPY false) crossWorld
        = (Thrown err, w')
    end.
Proof.
  split; [done|]. split; [done|]. split; [done|].
  exact (cross_pair_is_inner_join offlineEnv EUR JPY false crossWorld
           ltac:(done) ltac:(done) ltac:(done)).
Defined.

(** The sources and the cache of the scenario are keyed by date, so its
    cross series is the relational inner join of the two cached series. *)
Example cross_pair_scenario_is_keyed :
  sourcesKeyedByDate offlineEnv ∧ cacheKeyedByDate crossWorld.
Proof.
  split; [by split|]. intros key item. unfold crossWorld. simpl.
  rewrite lookup_insert_Some, lookup_singleton_Some.
  intros [[_ <-]|[_ [_ <-]]]; unfold keyedByDate; simpl; apply (bool_decide_unpack _); by vm_compute.
Qed.
(** ** The batch refresh, item by item *)

Section Attempts.
Variable env : Env.

(** One item of the batch is one call of [fetchFromApi]: a series that comes
    back is stored and counted as a success, an error is counted as a
    failure; either way the item is reported and the loop goes on. *)
Lemma batch_attempt (onProgress : bool) (total : Z) (currency : CurrencyCode)
    (current success failed : Z) w :
  run env
    (tryCatch
       (rates ← fetchFromApi env currency BASE_CURRENCY;
        saveCurrencyData currency BASE_CURRENCY rates;;
        let success := success + 1 in
        let current := current + 1 in
        reportProgress onProgress current total (code currency);;
        Ret (current, success, failed))
       (λ error,
          let failed := failed + 1 in
          let current := current + 1 in
          reportProgress onProgress current total (code currency);;
          Ret (current, success, failed))) w
  = (Returned
       (current + 1,
        success + (if isReturned (run env (fetchFromApi env currency BASE_CURRENCY) w).1
                   then 1 else 0),
        failed + (if isReturned (run env (fetchFromApi env currency BASE_CURRENCY) w).1
                  then 0 else 1)),
     afterAttempt env onProgress total (current + 1) currency
       (run env (fetchFromApi env currency BASE_CURRENCY) w)).
Proof.
  unfold afterAttempt. do 2 run_step.
  destruct (run env (fetchFromApi env currency BASE_CURRENCY) w) as [[rates|err] w1];
    cbn [fst snd isReturned]; cbv iota.
  - do 2 run_step. cbv zeta. run_step. rewrite run_reportProgress. cbv iota.
    run_step. by rewrite Z.add_0_r.
  - cbv zeta. run_step. rewrite run_reportProgress. cbv iota.
    run_step. by rewrite Z.add_0_r.
Qed.

(** The loop is the attempts, one per currency and in order, and its counts
    are the numbers of calls that returned and of calls that threw. *)
Lemma batch_attempts (onProgress : bool) (total : Z)
    (body : CurrencyCode → Z * Z * Z → Prog (Z * Z * Z)) :
  (∀ currency current success failed w,
      run env (body currency (current, success, failed)) w
      = (Returned
           (current + 1,
            success + (if isReturned (run env (fetchFromApi env currency BASE_CURRENCY) w).1
                       then 1 else 0),
            failed + (if isReturned (run env (fetchFromApi env currency BASE_CURRENCY) w).1
                      then 0 else 1)),
         afterAttempt env onProgress total (current + 1) currency
           (run env (fetchFromApi env currency BASE_CURRENCY) w))) →
  ∀ currencies current success failed w,
    run env (forOf currencies body (current, success, failed)) w
    = (Returned
         (current + Z.of_nat (length currencies),
          success + Z.of_nat (length (filter (λ o, isReturned o.2)
                                             (attempts env onProgress total current
                                                currencies w).1)),
          failed + Z.of_nat (length (filter (λ o, negb (isReturned o.2))
                                            (attempts env onProgress total current
                                               currencies w).1))),
       (attempts env onProgress total current currencies w).2).
Proof.
  intros Hbody currencies.
  induction currencies as [|currency currencies IH]; intros current success failed w.
  - simpl. by rewrite !Z.add_0_r.
  - rewrite run_forOf_cons, Hbody, IH. cbn [attempts fst snd].
    rewrite !filter_cons. cbn [snd].
    destruct (isReturned (run env (fetchFromApi env currency BASE_CURRENCY) w).1);
      simpl; rewrite ?Nat2Z.inj_succ;
      match goal with
      | |- (Returned (?a, ?b, ?c), _) = (Returned (?a', ?b', ?c'), _) =>
          replace a with a' by lia; replace b with b' by lia; replace c with c' by lia
      end; reflexivity.
Qed.

Lemma attempts_currencies onProgress total current currencies w :
  (attempts env onProgress total current currencies w).1.*1 = currencies.
Proof.
  revert current w. induction currencies as [|currency currencies IH]; intros current w;
    [done|].
  cbn [attempts fst snd]. by rewrite fmap_cons, IH.
Qed.

(** A call of [fetchFromApi] sends one request, unless it refuses the call;
    it stores no series, writes no marker and reports nothing. *)
Lemma fetchFromApi_request from to w :
  providerRequests (trace (run env (fetchFromApi env from to) w).2)
  = (if refused (run env (fetchFromApi env from to) w).1 then [] else [(from, to)])
    ++ providerRequests (trace w).
Proof.
  destruct (decide (RateLimitData.calls (currentData env w) < SAFE_LIMIT)) as [Hroom|Hfull].
  - rewrite run_fetchFromApi by done.
    destruct (provider env (tick (afterWait env w)) from to) as [response|];
      [destruct (ok response); simpl negb; cbv iota;
       [destruct (json response) as [data|];
        [destruct (truthy (Note data)); [|destruct (truthy (ErrorMessage data))]|]|]|];
      cbn [fst snd refused trace answered log providerRequests];
      rewrite ?providerRequests_afterRequest, ?trace_afterRecord; simpl;
      try done; by destruct (bool_decide (0 < waitBefore env w)).
  - rewrite fetchFromApi_over_budget by lia. done.
Qed.

(** What one item leaves behind, against the world it started in. *)
Lemma afterAttempt_trace onProgress total current currency w :
  providerRequests
    (trace (afterAttempt env onProgress total current currency
              (run env (fetchFromApi env currency BASE_CURRENCY) w)))
  = (if refused (run env (fetchFromApi env currency BASE_CURRENCY) w).1
     then [] else [(currency, BASE_CURRENCY)]) ++ providerRequests (trace w)
  ∧ progressReports
      (trace (afterAttempt env onProgress total current currency
                (run env (fetchFromApi env currency BASE_CURRENCY) w)))
    = (if onProgress then [(current, total, code currency)] else [])
      ++ progressReports (trace w)
  ∧ metadata (afterAttempt env onProgress total current currency
                (run env (fetchFromApi env currency BASE_CURRENCY) w))
    = metadata w.
Proof.
  pose proof (fetchFromApi_request currency BASE_CURRENCY w) as Hq.
  pose proof (sparesCallbacks_keeps_progress env _ w
                (fetchFromApi_sparesCallbacks env currency BASE_CURRENCY)) as Hr.
  pose proof (sparesMetadata_keeps env _ w
                (fetchFromApi_sparesMetadata env currency BASE_CURRENCY)) as Hm.
  unfold afterAttempt.
  destruct (run env (fetchFromApi env currency BASE_CURRENCY) w) as [[rates|err] w1];
    cbn [fst snd] in *; destruct onProgress; by simpl; rewrite ?Hq, ?Hr.
Qed.

Lemma afterAttempt_cachedData onProgress total current currency c w :
  cachedData c BASE_CURRENCY
    (afterAttempt env onProgress total current currency
       (run env (fetchFromApi env currency BASE_CURRENCY) w))
  = match (run env (fetchFromApi env currency BASE_CURRENCY) w).1 with
    | Returned rates =>
        if bool_decide (c = currency)
        then Some {| pair := (c, BASE_CURRENCY); rates := rates;
                     lastUpdated :=
                       now env (S (tick (run env (fetchFromApi env currency BASE_CURRENCY)
                                           w).2)) |}
        else cachedData c BASE_CURRENCY w
    | Thrown _ => cachedData c BASE_CURRENCY w
    end.
Proof.
  pose proof (sparesCache_keeps env _ w
                (fetchFromApi_sparesCache env currency BASE_CURRENCY)) as Hc.
  assert (∀ w2, cachedData c BASE_CURRENCY
                  (if onProgress then log (Progress current total (code currency)) w2
                   else w2) = cachedData c BASE_CURRENCY w2) as Hlog
    by (intros w2; by destruct onProgress).
  unfold afterAttempt. rewrite Hlog.
  destruct (run env (fetchFromApi env currency BASE_CURRENCY) w) as [[rates|err] w1];
    cbn [fst snd] in *.
  - case_bool_decide as Hcur.
    + subst c. apply cachedData_afterCacheWrite.
    + rewrite cachedData_afterCacheWrite_ne by done. unfold cachedData. by rewrite Hc.
  - unfold cachedData. by rewrite Hc.
Qed.

(** The requests and the reports of the attempts, in order. *)
Lemma attempts_trace onProgress total current currencies w :
  reverse (providerRequests (trace (attempts env onProgress total current currencies w).2))
  = reverse (providerRequests (trace w))
    ++ ((λ o, (o.1, BASE_CURRENCY))
          <$> filter (λ o, negb (refused o.2))
                     (attempts env onProgress total current currencies w).1)
  ∧ reverse (progressReports (trace (attempts env onProgress total current currencies w).2))
    = reverse (progressReports (trace w))
      ++ (if onProgress then reportsFrom current total currencies else [])
  ∧ metadata (attempts env onProgress total current currencies w).2 = metadata w.
Proof.
  revert current w. induction currencies as [|currency currencies IH]; intros current w.
  - simpl. destruct onProgress; by rewrite !app_nil_r.
  - cbn [attempts fst snd].
    destruct (IH (current + 1)
                (afterAttempt env onProgress total (current + 1) currency
                   (run env (fetchFromApi env currency BASE_CURRENCY) w)))
      as (Hq & Hr & Hm).
    destruct (afterAttempt_trace onProgress total (current + 1) currency w)
      as (Hq1 & Hr1 & Hm1).
    rewrite Hq, Hr, Hm, Hq1, Hr1, Hm1, filter_cons. cbn [snd].
    split; [|split; [|done]].
    + destruct (refused (run env (fetchFromApi env currency BASE_CURRENCY) w).1); simpl.
      * done.
      * by rewrite reverse_cons, <- app_assoc.
    + destruct onProgress; simpl; [|done]. by rewrite reverse_cons, <- app_assoc.
Qed.

(** What the attempts leave in the cache: the series of every call that
    returned, under its pair; the entry of every other pair as it was. *)
Lemma attempts_cache onProgress total current currencies w :
  NoDup currencies →
  (∀ c series,
     (c, Returned series) ∈ (attempts env onProgress total current currencies w).1 →
     rates <$> cachedData c BASE_CURRENCY (attempts env onProgress total current currencies w).2
     = Some series)
  ∧ (∀ c,
       c ∉ currencies
       ∨ (∃ err, (c, Thrown err) ∈ (attempts env onProgress total current currencies w).1) →
       cachedData c BASE_CURRENCY (attempts env onProgress total current currencies w).2
       = cachedData c BASE_CURRENCY w).
Proof.
  revert current w. induction currencies as [|currency currencies IH]; intros current w Hnd.
  - split; [by intros c series ?%elem_of_nil|done].
  - apply NoDup_cons in Hnd as [Hfresh Hnd]. cbn [attempts fst snd].
    destruct (IH (current + 1)
                (afterAttempt env onProgress total (current + 1) currency
                   (run env (fetchFromApi env currency BASE_CURRENCY) w)) Hnd)
      as [Hret Hkeep].
    pose proof (attempts_currencies onProgress total (current + 1) currencies
                  (afterAttempt env onProgress total (current + 1) currency
                     (run env (fetchFromApi env currency BASE_CURRENCY) w))) as Hcs.
    split.
    + intros c series [Heq|Hin]%elem_of_cons; [|by apply Hret].
      apply pair_equal_spec in Heq as [-> Hout].
      rewrite Hkeep by auto. rewrite afterAttempt_cachedData, <- Hout.
      by rewrite bool_decide_true.
    + intros c [Hnot|[err [Heq|Hin]%elem_of_cons]];
        [|apply pair_equal_spec in Heq as [-> Hout]|].
      * apply not_elem_of_cons in Hnot as [Hne Hnot].
        rewrite Hkeep by auto. rewrite afterAttempt_cachedData.
        destruct (run env _ w).1; [|done]. by rewrite bool_decide_false.
      * rewrite Hkeep by auto. by rewrite afterAttempt_cachedData, <- Hout.
      * assert (c ∈ currencies) as Hc.
        { rewrite <- Hcs. apply list_elem_of_fmap. by exists (c, Thrown err). }
        rewrite Hkeep by eauto. rewrite afterAttempt_cachedData.
        destruct (run env _ w).1; [|done].
        rewrite bool_decide_false; [done|]. by intros ->.
Qed.

End Attempts.
Lemma length_filter_isReturned {A B} (outcomes : list (A * Outcome B)) :
  (length (filter (λ o, isReturned o.2) outcomes)
   + length (filter (λ o, negb (isReturned o.2)) outcomes))%nat
  = length outcomes.
Proof.
  induction outcomes as [|[a o] outcomes IH]; [done|].
  rewrite !filter_cons. cbn [snd]. destruct (isReturned o); simpl; lia.
Qed.

(** C6. Every run of [prefetchBasePairs] with [forceRefresh = true] returns:
    no failure of an item ends it. It makes one attempt for every currency
    of [FETCH_CURRENCIES], in that order, each a call of [fetchFromApi] for
    [(currency, base)] in the world the item before it left ([attempts]).
    [success] is the number of attempts that returned a series and [failed]
    the number that threw, so that the two add up to the number of
    currencies. Every attempt sent one request to the provider, except those
    that [fetchFromApi] refused for the budget, which sent none; the series
    of every attempt that returned is what the cache holds for its pair
    afterwards, and the pair of an attempt that threw is cached as it was.
    Progress is reported after every item, as [(1, total, c1)], ...,
    [(total, total, c_total)] (not at all when no callback is passed), and
    the batch marker is written, after the last item, exactly when no item
    failed, the metadata being untouched otherwise. *)
Theorem batch_refresh_attempts_each_currency_once env (onProgress : bool) (w : World) :
  ∃ outcomes w1 success failure w',
    run env (prefetchBasePairs env onProgress true) w = (Returned (success, failure), w')
    ∧ attempts env onProgress (Z.of_nat (length FETCH_CURRENCIES)) 0 FETCH_CURRENCIES w
      = (outcomes, w1)
    ∧ outcomes.*1 = FETCH_CURRENCIES
    ∧ success = Z.of_nat (length (filter (λ o, isReturned o.2) outcomes))
    ∧ failure = Z.of_nat (length (filter (λ o, negb (isReturned o.2)) outcomes))
    ∧ 0 ≤ success ∧ 0 ≤ failure
    ∧ success + failure = Z.of_nat (length FETCH_CURRENCIES)
    ∧ w' = (if bool_decide (failure = 0) then afterMark env w1 else w1)
    ∧ reverse (progressReports (trace w'))
      = reverse (progressReports (trace w))
        ++ (if onProgress
            then reportsFrom 0 (Z.of_nat (length FETCH_CURRENCIES)) FETCH_CURRENCIES
            else [])
    ∧ reverse (providerRequests (trace w'))
      = reverse (providerRequests (trace w))
        ++ ((λ o, (o.1, BASE_CURRENCY)) <$> filter (λ o, negb (refused o.2)) outcomes)
    ∧ sublist ((λ o, (o.1, BASE_CURRENCY)) <$> filter (λ o, negb (refused o.2)) outcomes)
              ((λ c, (c, BASE_CURRENCY)) <$> FETCH_CURRENCIES)
    ∧ (∀ c series, (c, Returned series) ∈ outcomes →
         rates <$> cachedData c BASE_CURRENCY w' = Some series)
    ∧ (∀ c err, (c, Thrown err) ∈ outcomes →
         cachedData c BASE_CURRENCY w' = cachedData c BASE_CURRENCY w)
    ∧ (if bool_decide (failure = 0)
       then ∃ today, metadata w' = <["lastBatchUpdateDate" := today]> (metadata w)
       else metadata w' = metadata w).
Proof.
  unfold prefetchBasePairs. simpl negb. cbv iota. do 2 run_step. cbv zeta. run_step.
  match goal with
  | |- context [run env (forOf ?cs ?body (?c0, ?s0, ?f0)) w] =>
      rewrite (batch_attempts env onProgress (Z.of_nat (length FETCH_CURRENCIES)) body
                 (λ c cur suc fai w1, batch_attempt env onProgress _ c cur suc fai w1)
                 cs c0 s0 f0 w)
  end.
  cbv iota.
  pose proof (attempts_currencies env onProgress (Z.of_nat (length FETCH_CURRENCIES)) 0
                FETCH_CURRENCIES w) as Hcs.
  destruct (attempts_trace env onProgress (Z.of_nat (length FETCH_CURRENCIES)) 0
              FETCH_CURRENCIES w) as (Hq & Hr & Hm).
  destruct (attempts_cache env onProgress (Z.of_nat (length FETCH_CURRENCIES)) 0
              FETCH_CURRENCIES w) as [Hret Hkeep].
  { unfold FETCH_CURRENCIES. apply (bool_decide_unpack _). by vm_compute. }
  destruct (attempts env onProgress (Z.of_nat (length FETCH_CURRENCIES)) 0
              FETCH_CURRENCIES w) as [outcomes w1] eqn:Hattempts.
  cbn [fst snd] in *.
  pose proof (length_filter_isReturned outcomes) as Hlen.
  assert (length outcomes = length FETCH_CURRENCIES) as Hall
    by (by rewrite <- Hcs, length_fmap).
  assert (sublist ((λ o, (o.1, BASE_CURRENCY)) <$> filter (λ o, negb (refused o.2)) outcomes)
                  ((λ c, (c, BASE_CURRENCY)) <$> FETCH_CURRENCIES)) as Hsub.
  { rewrite <- Hcs, <- list_fmap_compose.
    apply (fmap_sublist (λ o : CurrencyCode * Outcome (list DailyRate), (o.1, BASE_CURRENCY))),
      sublist_filter. }
  rewrite !Z.add_0_l. run_step.
  exists outcomes, w1,
    (Z.of_nat (length (filter (λ o, isReturned o.2) outcomes))),
    (Z.of_nat (length (filter (λ o, negb (isReturned o.2)) outcomes))).
  case_bool_decide as Hfail.
  - rewrite run_markBatchUpdateComplete. cbv iota. run_step.
    exists (afterMark env w1). split; [done|].
    split; [done|]. split; [done|]. split; [done|]. split; [done|].
    split; [lia|]. split; [lia|]. split; [lia|].
    split; [done|]. unfold afterMark.
    cbn [trace metadata answered log putMetadata progressReports providerRequests].
    rewrite Hq, Hr, Hm.
    split; [done|]. split; [done|]. split; [done|].
    split; [intros c series Hin; by apply Hret|].
    split; [intros c err Hin; apply Hkeep; eauto|]. eauto.
  - run_step. exists w1. split; [done|].
    split; [done|]. split; [done|]. split; [done|]. split; [done|].
    split; [lia|]. split; [lia|]. split; [lia|].
    split; [done|]. rewrite Hq, Hr, Hm.
    split; [done|]. split; [done|]. split; [done|].
    split; [intros c series Hin; by apply Hret|].
    split; [intros c err Hin; apply Hkeep; eauto|]. done.
Qed.
